(** * The dashboard's synchronisation core

    A shallow embedding of the two pages of the front end that own
    asynchronous state,

      - [front-end/src/pages/monitoring/MonitoringPage.tsx]
        (sample window, query modes, push channel, device prediction) and
      - [front-end/src/pages/weather/WeatherPage.tsx]
        (debounced city search, city selection, prediction panels),

    as event-driven state machines.  A component's [useState] cells are the
    fields of a record; an event handler is a function from state to state;
    a REST call appends to the log [sent] and parks its continuation in
    [inflight] until the promise settles. *)

From Stdlib Require Import List String Ascii Bool Arith ZArith Lia QArith Sorted.
Import ListNotations.
Local Open Scope string_scope.
Local Open Scope nat_scope.
Local Open Scope list_scope.
Set Warnings "-register-all".

(** ** JavaScript values that cross the boundary *)

(** Strings are sequences of code units below 256.  On those,
    [String.prototype.trim] removes TAB, LF, VT, FF, CR, SPACE and NBSP. *)
Definition is_ws (c : ascii) : bool :=
  let n := nat_of_ascii c in
  ((9 <=? n) && (n <=? 13)) || (n =? 32) || (n =? 160).

Fixpoint trimStart (s : string) : string :=
  match s with
  | EmptyString => EmptyString
  | String c r => if is_ws c then trimStart r else s
  end.

Fixpoint trimEnd (s : string) : string :=
  match s with
  | EmptyString => EmptyString
  | String c r =>
      match trimEnd r with
      | EmptyString => if is_ws c then EmptyString else String c EmptyString
      | r' => String c r'
      end
  end.

Definition trim (s : string) : string := trimEnd (trimStart s).

(** Truthiness of a string: every string but the empty one. *)
Definition truthy (s : string) : bool :=
  match s with EmptyString => false | _ => true end.

(** [!value.trim()] *)
Definition blank (s : string) : bool := negb (truthy (trim s)).

(** A parsed JSON document, the run-time shape of a push payload or of a
    response body.  Numbers are carried, never computed with. *)
Inductive json : Type :=
| JNull
| JBool (b : bool)
| JNum (q : Q)
| JStr (s : string)
| JArr (items : list json)
| JObj (members : list (string * json)).

(** Property read [o.k] on the members of an object; [None] is [undefined]. *)
Fixpoint member (k : string) (kvs : list (string * json)) : option json :=
  match kvs with
  | [] => None
  | (k', v) :: rest => if String.eqb k k' then Some v else member k rest
  end.

(** [typeof v === "number" ? v : undefined] *)
Definition number_or_undefined (v : option json) : option Q :=
  match v with Some (JNum q) => Some q | _ => None end.

(** [typeof v === "string" ? v : undefined] *)
Definition string_or_undefined (v : option json) : option string :=
  match v with Some (JStr s) => Some s | _ => None end.

(** [x ?? d] on an optional number *)
Definition nullish (x : option Q) (d : Q) : Q :=
  match x with Some q => q | None => d end.

(** [xs.slice(0, n)] *)
Definition slice0 {A} (n : nat) (xs : list A) : list A := firstn n xs.

(* ================================================================== *)
(** ** MonitoringPage *)

Module Monitoring.

Record MonitoringData := {
  device_id : string;
  temperature : option Q;
  humidity : option Q;
  cpu : option Q;
  memory_percent : option Q;
  disk_percent : option Q;
  status : option string;
  timestamp : string
}.

Record PredictionResult := {
  p_device_id : string;
  predicted_temperature : option Q;
  horizon_seconds : option Q;
  method : option string;
  based_on_n_points : option Q
}.

(** The capacity of the window: the literal [200] of [slice(0, 200)] and of
    [limit=200]. *)
Definition CAPACITY : nat := 200.

(** REST calls of the page, by endpoint and parameters (the URL is their
    injective rendering through [encodeURIComponent]). *)
Inductive request :=
| GetRange (device start_time end_time : string)
    (* /monitoring/data/{device}/range?start_time=..&end_time=.. *)
| GetDeviceLatest (device : string) (limit : nat)
    (* /monitoring/data/{device}?limit=200 *)
| GetAllLatest (limit : nat)
    (* /monitoring/data?limit=200 *)
| GetPredict (device : string) (horizon limit : nat).
    (* /monitoring/data/{device}/predict?horizon_seconds=60&limit=30 *)

(** What remains of an async function after its [await]. *)
Inductive continuation :=
| KRange      (* loadData, first branch: the body is stored as it is *)
| KLatest     (* loadData, other branches: the body is reversed *)
| KPredict.   (* fetchPrediction *)

(** How a promise settles.  A fulfilled load carries [Some l] when
    [Array.isArray(res.data)], a fulfilled prediction carries
    [res.data ?? null]; rejection covers network errors, error statuses
    and the 15 s timeout alike. *)
Inductive settlement :=
| LoadFulfilled (body : option (list MonitoringData))
| PredictFulfilled (body : option PredictionResult)
| Rejected.

Record state := {
  data : list MonitoringData;
  loading : bool;
  deviceFilter : string;
  dateStart : string;
  dateEnd : string;
  useDateRange : bool;
  socketConnected : bool;
  predictDeviceId : string;
  prediction : option PredictionResult;
  predictionLoading : bool;
  predictionError : option string;
  (* the network *)
  sent : list request;
  inflight : list (nat * continuation);
  next_id : nat
}.

Definition setData (f : list MonitoringData -> list MonitoringData) (s : state) :=
  {| data := f (data s); loading := loading s; deviceFilter := deviceFilter s;
     dateStart := dateStart s; dateEnd := dateEnd s; useDateRange := useDateRange s;
     socketConnected := socketConnected s; predictDeviceId := predictDeviceId s;
     prediction := prediction s; predictionLoading := predictionLoading s;
     predictionError := predictionError s;
     sent := sent s; inflight := inflight s; next_id := next_id s |}.

Definition setLoading (b : bool) (s : state) :=
  {| data := data s; loading := b; deviceFilter := deviceFilter s;
     dateStart := dateStart s; dateEnd := dateEnd s; useDateRange := useDateRange s;
     socketConnected := socketConnected s; predictDeviceId := predictDeviceId s;
     prediction := prediction s; predictionLoading := predictionLoading s;
     predictionError := predictionError s;
     sent := sent s; inflight := inflight s; next_id := next_id s |}.

Definition setDeviceFilter (v : string) (s : state) :=
  {| data := data s; loading := loading s; deviceFilter := v;
     dateStart := dateStart s; dateEnd := dateEnd s; useDateRange := useDateRange s;
     socketConnected := socketConnected s; predictDeviceId := predictDeviceId s;
     prediction := prediction s; predictionLoading := predictionLoading s;
     predictionError := predictionError s;
     sent := sent s; inflight := inflight s; next_id := next_id s |}.

Definition setDateStart (v : string) (s : state) :=
  {| data := data s; loading := loading s; deviceFilter := deviceFilter s;
     dateStart := v; dateEnd := dateEnd s; useDateRange := useDateRange s;
     socketConnected := socketConnected s; predictDeviceId := predictDeviceId s;
     prediction := prediction s; predictionLoading := predictionLoading s;
     predictionError := predictionError s;
     sent := sent s; inflight := inflight s; next_id := next_id s |}.

Definition setDateEnd (v : string) (s : state) :=
  {| data := data s; loading := loading s; deviceFilter := deviceFilter s;
     dateStart := dateStart s; dateEnd := v; useDateRange := useDateRange s;
     socketConnected := socketConnected s; predictDeviceId := predictDeviceId s;
     prediction := prediction s; predictionLoading := predictionLoading s;
     predictionError := predictionError s;
     sent := sent s; inflight := inflight s; next_id := next_id s |}.

Definition setUseDateRange (b : bool) (s : state) :=
  {| data := data s; loading := loading s; deviceFilter := deviceFilter s;
     dateStart := dateStart s; dateEnd := dateEnd s; useDateRange := b;
     socketConnected := socketConnected s; predictDeviceId := predictDeviceId s;
     prediction := prediction s; predictionLoading := predictionLoading s;
     predictionError := predictionError s;
     sent := sent s; inflight := inflight s; next_id := next_id s |}.

Definition setSocketConnected (b : bool) (s : state) :=
  {| data := data s; loading := loading s; deviceFilter := deviceFilter s;
     dateStart := dateStart s; dateEnd := dateEnd s; useDateRange := useDateRange s;
     socketConnected := b; predictDeviceId := predictDeviceId s;
     prediction := prediction s; predictionLoading := predictionLoading s;
     predictionError := predictionError s;
     sent := sent s; inflight := inflight s; next_id := next_id s |}.

Definition setPredictDeviceId (v : string) (s : state) :=
  {| data := data s; loading := loading s; deviceFilter := deviceFilter s;
     dateStart := dateStart s; dateEnd := dateEnd s; useDateRange := useDateRange s;
     socketConnected := socketConnected s; predictDeviceId := v;
     prediction := prediction s; predictionLoading := predictionLoading s;
     predictionError := predictionError s;
     sent := sent s; inflight := inflight s; next_id := next_id s |}.

Definition setPrediction (p : option PredictionResult) (s : state) :=
  {| data := data s; loading := loading s; deviceFilter := deviceFilter s;
     dateStart := dateStart s; dateEnd := dateEnd s; useDateRange := useDateRange s;
     socketConnected := socketConnected s; predictDeviceId := predictDeviceId s;
     prediction := p; predictionLoading := predictionLoading s;
     predictionError := predictionError s;
     sent := sent s; inflight := inflight s; next_id := next_id s |}.

Definition setPredictionLoading (b : bool) (s : state) :=
  {| data := data s; loading := loading s; deviceFilter := deviceFilter s;
     dateStart := dateStart s; dateEnd := dateEnd s; useDateRange := useDateRange s;
     socketConnected := socketConnected s; predictDeviceId := predictDeviceId s;
     prediction := prediction s; predictionLoading := b;
     predictionError := predictionError s;
     sent := sent s; inflight := inflight s; next_id := next_id s |}.

Definition setPredictionError (e : option string) (s : state) :=
  {| data := data s; loading := loading s; deviceFilter := deviceFilter s;
     dateStart := dateStart s; dateEnd := dateEnd s; useDateRange := useDateRange s;
     socketConnected := socketConnected s; predictDeviceId := predictDeviceId s;
     prediction := prediction s; predictionLoading := predictionLoading s;
     predictionError := e;
     sent := sent s; inflight := inflight s; next_id := next_id s |}.

(** [await api.get(req)]: the request leaves, the rest of the function
    waits under a fresh promise id. *)
Definition await (req : request) (k : continuation) (s : state) :=
  {| data := data s; loading := loading s; deviceFilter := deviceFilter s;
     dateStart := dateStart s; dateEnd := dateEnd s; useDateRange := useDateRange s;
     socketConnected := socketConnected s; predictDeviceId := predictDeviceId s;
     prediction := prediction s; predictionLoading := predictionLoading s;
     predictionError := predictionError s;
     sent := sent s ++ [req];
     inflight := inflight s ++ [(next_id s, k)];
     next_id := S (next_id s) |}.

Definition settled (id : nat) (s : state) :=
  {| data := data s; loading := loading s; deviceFilter := deviceFilter s;
     dateStart := dateStart s; dateEnd := dateEnd s; useDateRange := useDateRange s;
     socketConnected := socketConnected s; predictDeviceId := predictDeviceId s;
     prediction := prediction s; predictionLoading := predictionLoading s;
     predictionError := predictionError s;
     sent := sent s;
     inflight := filter (fun p => negb (Nat.eqb (fst p) id)) (inflight s);
     next_id := next_id s |}.

Fixpoint pending (id : nat) (l : list (nat * continuation)) : option continuation :=
  match l with
  | [] => None
  | (i, k) :: rest => if Nat.eqb i id then Some k else pending id rest
  end.

(** The state of the first render: the [useState] initialisers. *)
Definition initial : state :=
  {| data := []; loading := true; deviceFilter := ""; dateStart := "";
     dateEnd := ""; useDateRange := false; socketConnected := false;
     predictDeviceId := ""; prediction := None; predictionLoading := false;
     predictionError := None; sent := []; inflight := []; next_id := 0 |}.

Section Page.

(** [new Date(s).toISOString()] is the host's; [None] stands for an Invalid
    Date, on which [toISOString] throws a RangeError. *)
Variable toISOString : string -> option string.

(** *** loadData *)

(** The synchronous part of [loadData], up to its [await]. *)
Definition loadData (s : state) : state :=
  let s1 := setLoading true s in
  if useDateRange s && truthy (trim (deviceFilter s))
     && truthy (dateStart s) && truthy (dateEnd s)
  then
    match toISOString (dateStart s), toISOString (dateEnd s) with
    | Some start, Some end_ =>
        await (GetRange (trim (deviceFilter s)) start end_) KRange s1
    | _, _ =>
        (* the RangeError lands in [catch], then [finally] *)
        setLoading false (setData (fun _ => []) s1)
    end
  else if truthy (trim (deviceFilter s)) then
    await (GetDeviceLatest (trim (deviceFilter s)) 200) KLatest s1
  else
    await (GetAllLatest 200) KLatest s1.

(** The value [loadData] hands to [setData] once the response is in. *)
Definition batchOf (k : continuation) (body : option (list MonitoringData))
  : list MonitoringData :=
  match body with
  | None => []                                   (* not an array *)
  | Some l =>
      match k with
      | KRange => l
      | _ => rev l                               (* res.data.reverse() *)
      end
  end.

(** Sample Buffer, batch side: [setData(S)]. *)
Definition applyBatch (S : list MonitoringData) (s : state) : state :=
  setData (fun _ => S) s.

(** The part of [loadData] after its [await]. *)
Definition loadData_resume (k : continuation) (r : settlement) (s : state) : state :=
  match r with
  | LoadFulfilled body => setLoading false (applyBatch (batchOf k body) s)
  | Rejected => setLoading false (applyBatch [] s)
  | PredictFulfilled _ => s
  end.

(** *** The push channel *)

(** The shape check and the row built by the [device_data] listener. *)
Definition decode (doc : json) : option MonitoringData :=
  match doc with
  | JObj d =>
      match member "device_id" d, member "timestamp" d with
      | Some (JStr id), Some (JStr ts) =>
          Some {| device_id := id;
                  temperature := number_or_undefined (member "temperature" d);
                  humidity := number_or_undefined (member "humidity" d);
                  cpu := number_or_undefined (member "cpu" d);
                  memory_percent := number_or_undefined (member "memory_percent" d);
                  disk_percent := number_or_undefined (member "disk_percent" d);
                  status := string_or_undefined (member "status" d);
                  timestamp := ts |}
      | _, _ => None
      end
  | _ => None
  end.

(** Sample Buffer, live side: [setData((prev) => [row, ...prev].slice(0, 200))]. *)
Definition applyLive (row : MonitoringData) (s : state) : state :=
  setData (fun prev => slice0 200 (row :: prev)) s.

(** [socket.on("device_data", ...)] *)
Definition on_device_data (doc : json) (s : state) : state :=
  let s1 := setSocketConnected true s in
  match decode doc with
  | Some row => applyLive row s1
  | None => s1
  end.

(** *** fetchPrediction *)

Definition PREDICTION_UNAVAILABLE : string :=
  "Prédiction indisponible pour ce device.".

Definition fetchPrediction (s : state) : state :=
  if blank (predictDeviceId s) then s
  else
    await (GetPredict (trim (predictDeviceId s)) 60 30) KPredict
      (setPrediction None (setPredictionError None (setPredictionLoading true s))).

Definition fetchPrediction_resume (r : settlement) (s : state) : state :=
  match r with
  | PredictFulfilled body => setPredictionLoading false (setPrediction body s)
  | Rejected =>
      setPredictionLoading false
        (setPrediction None (setPredictionError (Some PREDICTION_UNAVAILABLE) s))
  | LoadFulfilled _ => s
  end.

(** *** chartData *)

Record ChartPoint := {
  time : string;
  date : string;
  temp : Q;
  c_humidity : Q;
  c_cpu : Q;
  ram : Q
}.

(** [toLocaleTimeString] and [toLocaleDateString] of the host, on the
    timestamp. *)
Variable localeTime : string -> string.
Variable localeDate : string -> string.

Definition chartPoint (m : MonitoringData) : ChartPoint :=
  {| time := if truthy (timestamp m) then localeTime (timestamp m) else "";
     date := if truthy (timestamp m) then localeDate (timestamp m) else "";
     temp := nullish (temperature m) 0;
     c_humidity := nullish (humidity m) 0;
     c_cpu := nullish (cpu m) 0;
     ram := nullish (memory_percent m) 0 |}.

(** [data.slice().reverse()]: the window in chronological order. *)
Definition chronological (s : state) : list MonitoringData := rev (data s).

Definition chartData (s : state) : list ChartPoint :=
  map chartPoint (chronological s).

(** *** Events *)

Inductive event :=
| ClickRefresh                         (* the "Actualiser" button *)
| ChangeDeviceFilter (v : string)      (* the device select *)
| ToggleDateRange (b : bool)           (* the range checkbox *)
| ChangeDateStart (v : string)
| ChangeDateEnd (v : string)
| Settle (id : nat) (r : settlement)   (* a promise settles *)
| SocketConnect
| SocketDisconnect
| SocketDeviceData (doc : json)
| LivenessTick (transport_connected : bool)   (* the 1 s interval *)
| ChangePredictDevice (v : string)
| ClickPredict.

(** A filter setter followed by the commit: when the value changed,
    [loadData] is a new callback and [useEffect(..., [loadData])] calls it. *)
Definition refilter (changed : bool) (s' s : state) : state :=
  if changed then loadData s' else s.

Definition step (e : event) (s : state) : state :=
  match e with
  | ClickRefresh => if loading s then s else loadData s
  | ChangeDeviceFilter v =>
      refilter (negb (String.eqb v (deviceFilter s))) (setDeviceFilter v s) s
  | ToggleDateRange b =>
      refilter (negb (Bool.eqb b (useDateRange s))) (setUseDateRange b s) s
  | ChangeDateStart v =>
      refilter (negb (String.eqb v (dateStart s))) (setDateStart v s) s
  | ChangeDateEnd v =>
      refilter (negb (String.eqb v (dateEnd s))) (setDateEnd v s) s
  | Settle id r =>
      match pending id (inflight s) with
      | None => s
      | Some KPredict => fetchPrediction_resume r (settled id s)
      | Some k => loadData_resume k r (settled id s)
      end
  | SocketConnect => setSocketConnected true s
  | SocketDisconnect => setSocketConnected false s
  | SocketDeviceData doc => on_device_data doc s
  | LivenessTick c => if c then setSocketConnected true s else s
  | ChangePredictDevice v =>
      setPredictionError None (setPrediction None (setPredictDeviceId v s))
  | ClickPredict =>
      if predictionLoading s || blank (predictDeviceId s) then s
      else fetchPrediction s
  end.

(** The mount: the effect [useEffect(() => { loadData(); }, [loadData])]
    runs once on the first render. *)
Definition mounted : state := loadData initial.

Fixpoint run (es : list event) (s : state) : state :=
  match es with
  | [] => s
  | e :: rest => run rest (step e s)
  end.

End Page.

(** *** Hosts and payloads for concrete runs *)

(** [toISOString] of a host whose time zone is UTC, on the values a
    [datetime-local] input produces: ["2025-01-01T00:00"] becomes
    ["2025-01-01T00:00:00.000Z"]; the empty value is an Invalid Date. *)
Definition utc_toISOString (v : string) : option string :=
  if truthy v then Some (v ++ ":00.000Z")%string else None.

(** A sample that carries a temperature only. *)
Definition reading (id ts : string) (t : Q) : MonitoringData :=
  {| device_id := id; temperature := Some t; humidity := None; cpu := None;
     memory_percent := None; disk_percent := None; status := None;
     timestamp := ts |}.

(** The spec's wording of a well-formed push payload: it contains a string
    under [k]. *)
Definition has_string (k : string) (doc : json) : bool :=
  match doc with
  | JObj d => match member k d with Some (JStr _) => true | _ => false end
  | _ => false
  end.

(** The filter changes that lead from the mount to a range query on one
    device; the promises of the five loads so far are numbered 0 to 4. *)
Definition range_query : list event :=
  [ChangeDeviceFilter "dev-1"; ToggleDateRange true;
   ChangeDateStart "2025-01-01T00:00"; ChangeDateEnd "2025-01-02T00:00"].

(** A load whose body, when it is an array, fits the capacity. *)
Definition within_capacity (e : event) : bool :=
  match e with
  | Settle _ (LoadFulfilled (Some l)) => List.length l <=? CAPACITY
  | _ => true
  end.

(** *** The device list of the two selects *)

(** [ids.add(x)] on a [Set], kept in insertion order. *)
Definition set_add (x : string) (ids : list string) : list string :=
  if existsb (String.eqb x) ids then ids else ids ++ [x].

(** [new Set(xs)] *)
Definition set_of (xs : list string) : list string :=
  fold_left (fun ids x => set_add x ids) xs [].

(** [xs.sort()] on distinct strings: without a comparator the order is the
    one of the code units, and on distinct elements the order alone fixes
    the result. *)
Fixpoint insert_sorted (x : string) (l : list string) : list string :=
  match l with
  | [] => [x]
  | y :: r => if String.leb x y then x :: l else y :: insert_sorted x r
  end.

Fixpoint sort_strings (l : list string) : list string :=
  match l with
  | [] => []
  | x :: r => insert_sorted x (sort_strings r)
  end.

(** The memo [devices]:
    [const ids = new Set(deviceIds);
     data.forEach((m) => m.device_id && ids.add(m.device_id));
     return Array.from(ids).sort();] *)
Definition devices (deviceIds : list string) (window : list MonitoringData)
  : list string :=
  sort_strings
    (fold_left
       (fun ids m => if truthy (device_id m) then set_add (device_id m) ids
                     else ids)
       window (set_of deviceIds)).

(** *** What an event says about the push channel *)

(** The value an event writes into [socketConnected], if it writes one. *)
Definition signal (e : event) : option bool :=
  match e with
  | SocketConnect => Some true
  | SocketDisconnect => Some false
  | SocketDeviceData _ => Some true
  | LivenessTick true => Some true
  | _ => None
  end.

Definition last_signal (es : list event) (connected : bool) : bool :=
  fold_left (fun b e => match signal e with Some v => v | None => b end)
    es connected.

(** *** Prediction requests in flight *)

Definition is_predict (p : nat * continuation) : bool :=
  match snd p with KPredict => true | _ => false end.

Definition predicting (s : state) : nat :=
  List.length (filter is_predict (inflight s)).

(** The prediction panel is coherent: at most one request in flight, none
    unless the loading flag is up, nothing on display while one is in
    flight, and never a result beside an error. *)
Definition prediction_ok (s : state) : Prop :=
  predicting s <= 1
  /\ (predictionLoading s = false -> predicting s = 0)
  /\ (0 < predicting s -> prediction s = None /\ predictionError s = None)
  /\ (prediction s = None \/ predictionError s = None).

(** Every promise in flight was numbered below the next id. *)
Definition ids_below (s : state) : Prop :=
  Forall (fun p => fst p < next_id s) (inflight s).

End Monitoring.

(* ================================================================== *)
(** ** WeatherPage *)

Module Weather.

(** A suggestion as it exists at run time.  [name] passed
    [typeof name === "string"] on the primary path and only [name != null]
    on the fallback path, so it is carried as the JSON value it is;
    [country] is copied unchecked. *)
Record CitySuggestion := {
  name : json;
  country : option json;
  latitude : Q;
  longitude : Q
}.

Definition SEARCH_DEBOUNCE_MS : nat := 350.

(** The three cells of one panel: [xData]/[xResult], [xLoading], [xError]. *)
Record panel := {
  p_data : option json;
  p_loading : bool;
  p_error : option string
}.

Definition p_setData (d : option json) (p : panel) : panel :=
  {| p_data := d; p_loading := p_loading p; p_error := p_error p |}.
Definition p_setLoading (b : bool) (p : panel) : panel :=
  {| p_data := p_data p; p_loading := b; p_error := p_error p |}.
Definition p_setError (e : option string) (p : panel) : panel :=
  {| p_data := p_data p; p_loading := p_loading p; p_error := e |}.

Inductive request :=
| GetWeatherCurrent (lat lon : Q) (city : json)
    (* /monitoring/weather/current?lat=&lon=&city= *)
| GetForecast (lat lon : Q) (city : json) (days : nat)
    (* /monitoring/weather/forecast?lat=&lon=&city=&days=7 *)
| GetAnalysis (lat lon : Q) (city : json) (limit_data : nat)
    (* /monitoring/weather/analysis?lat=&lon=&city=&limit_data=100 *)
| GetSearchCity (q : string) (count : nat)
    (* /monitoring/weather/search-city?q=&count=10 *)
| OpenMeteoGeocoding (q : string) (count : nat)
    (* https://geocoding-api.open-meteo.com/v1/search?name=&count= *)
| GetPredictWeatherAware (device : string) (lat lon : Q) (city : json)
    (horizon_seconds : nat) (blend_factor : Q)
    (* /monitoring/data/{device}/predict-weather-aware?... *)
| GetPrediction24h (lat lon : Q) (city : json) (device : string)
    (blend_factor : Q).
    (* /monitoring/weather/prediction-24h?... *)

(** What waits for a promise; a search continuation keeps the [value] (or
    [q]) of its closure. *)
Inductive continuation :=
| KForecast
| KAnalysis
| KSearch (value : string)               (* fetchSuggestions, primary *)
| KSearchFallback (value : string)       (* fetchSuggestions, public API *)
| KSearchFirst (q : string)              (* searchAndSelectFirst, primary *)
| KSearchFirstFallback (q : string)      (* searchAndSelectFirst, public API *)
| KWeatherAware
| KPrediction24h.

(** How a promise settles: an axios call is fulfilled with [res.data] or
    rejected; a [fetch] resolves to a response with its [ok] flag and the
    outcome of [res.json()] ([None]: it rejects), or is rejected. *)
Inductive settlement :=
| Fulfilled (body : json)
| FetchResponse (ok : bool) (body : option json)
| Rejected.

Record state := {
  cityQuery : json;
  citySuggestions : list (nat * CitySuggestion);
  selectedCity : option (nat * CitySuggestion);
  suggestionsOpen : bool;
  searching : bool;
  searchError : option string;
  searchTimeoutRef : option (nat * string);
  loading : bool;
  error : option string;
  retryCount : nat;
  forecast : panel;
  analysis : panel;
  weatherAwareDeviceId : string;
  weatherAware : panel;
  prediction24hDeviceId : string;
  prediction24h : panel;
  now : nat;
  sent : list request;
  inflight : list (nat * continuation);
  next_id : nat;
  next_ref : nat;
  forecastLive : option nat;
  analysisLive : option nat
}.

Definition upd_cityQuery (f : json -> json) (s : state) : state :=
  {| cityQuery := f (cityQuery s); citySuggestions := citySuggestions s;
     selectedCity := selectedCity s; suggestionsOpen := suggestionsOpen s;
     searching := searching s; searchError := searchError s;
     searchTimeoutRef := searchTimeoutRef s; loading := loading s;
     error := error s; retryCount := retryCount s; forecast := forecast s;
     analysis := analysis s; weatherAwareDeviceId := weatherAwareDeviceId s;
     weatherAware := weatherAware s;
     prediction24hDeviceId := prediction24hDeviceId s;
     prediction24h := prediction24h s; now := now s; sent := sent s;
     inflight := inflight s; next_id := next_id s; next_ref := next_ref s;
     forecastLive := forecastLive s; analysisLive := analysisLive s |}.

Definition upd_citySuggestions (f : list (nat * CitySuggestion) -> list (nat * CitySuggestion)) (s : state) : state :=
  {| cityQuery := cityQuery s; citySuggestions := f (citySuggestions s);
     selectedCity := selectedCity s; suggestionsOpen := suggestionsOpen s;
     searching := searching s; searchError := searchError s;
     searchTimeoutRef := searchTimeoutRef s; loading := loading s;
     error := error s; retryCount := retryCount s; forecast := forecast s;
     analysis := analysis s; weatherAwareDeviceId := weatherAwareDeviceId s;
     weatherAware := weatherAware s;
     prediction24hDeviceId := prediction24hDeviceId s;
     prediction24h := prediction24h s; now := now s; sent := sent s;
     inflight := inflight s; next_id := next_id s; next_ref := next_ref s;
     forecastLive := forecastLive s; analysisLive := analysisLive s |}.

Definition upd_selectedCity (f : option (nat * CitySuggestion) -> option (nat * CitySuggestion)) (s : state) : state :=
  {| cityQuery := cityQuery s; citySuggestions := citySuggestions s;
     selectedCity := f (selectedCity s);
     suggestionsOpen := suggestionsOpen s; searching := searching s;
     searchError := searchError s; searchTimeoutRef := searchTimeoutRef s;
     loading := loading s; error := error s; retryCount := retryCount s;
     forecast := forecast s; analysis := analysis s;
     weatherAwareDeviceId := weatherAwareDeviceId s;
     weatherAware := weatherAware s;
     prediction24hDeviceId := prediction24hDeviceId s;
     prediction24h := prediction24h s; now := now s; sent := sent s;
     inflight := inflight s; next_id := next_id s; next_ref := next_ref s;
     forecastLive := forecastLive s; analysisLive := analysisLive s |}.

Definition upd_suggestionsOpen (f : bool -> bool) (s : state) : state :=
  {| cityQuery := cityQuery s; citySuggestions := citySuggestions s;
     selectedCity := selectedCity s;
     suggestionsOpen := f (suggestionsOpen s); searching := searching s;
     searchError := searchError s; searchTimeoutRef := searchTimeoutRef s;
     loading := loading s; error := error s; retryCount := retryCount s;
     forecast := forecast s; analysis := analysis s;
     weatherAwareDeviceId := weatherAwareDeviceId s;
     weatherAware := weatherAware s;
     prediction24hDeviceId := prediction24hDeviceId s;
     prediction24h := prediction24h s; now := now s; sent := sent s;
     inflight := inflight s; next_id := next_id s; next_ref := next_ref s;
     forecastLive := forecastLive s; analysisLive := analysisLive s |}.

Definition upd_searching (f : bool -> bool) (s : state) : state :=
  {| cityQuery := cityQuery s; citySuggestions := citySuggestions s;
     selectedCity := selectedCity s; suggestionsOpen := suggestionsOpen s;
     searching := f (searching s); searchError := searchError s;
     searchTimeoutRef := searchTimeoutRef s; loading := loading s;
     error := error s; retryCount := retryCount s; forecast := forecast s;
     analysis := analysis s; weatherAwareDeviceId := weatherAwareDeviceId s;
     weatherAware := weatherAware s;
     prediction24hDeviceId := prediction24hDeviceId s;
     prediction24h := prediction24h s; now := now s; sent := sent s;
     inflight := inflight s; next_id := next_id s; next_ref := next_ref s;
     forecastLive := forecastLive s; analysisLive := analysisLive s |}.

Definition upd_searchError (f : option string -> option string) (s : state) : state :=
  {| cityQuery := cityQuery s; citySuggestions := citySuggestions s;
     selectedCity := selectedCity s; suggestionsOpen := suggestionsOpen s;
     searching := searching s; searchError := f (searchError s);
     searchTimeoutRef := searchTimeoutRef s; loading := loading s;
     error := error s; retryCount := retryCount s; forecast := forecast s;
     analysis := analysis s; weatherAwareDeviceId := weatherAwareDeviceId s;
     weatherAware := weatherAware s;
     prediction24hDeviceId := prediction24hDeviceId s;
     prediction24h := prediction24h s; now := now s; sent := sent s;
     inflight := inflight s; next_id := next_id s; next_ref := next_ref s;
     forecastLive := forecastLive s; analysisLive := analysisLive s |}.

Definition upd_searchTimeoutRef (f : option (nat * string) -> option (nat * string)) (s : state) : state :=
  {| cityQuery := cityQuery s; citySuggestions := citySuggestions s;
     selectedCity := selectedCity s; suggestionsOpen := suggestionsOpen s;
     searching := searching s; searchError := searchError s;
     searchTimeoutRef := f (searchTimeoutRef s); loading := loading s;
     error := error s; retryCount := retryCount s; forecast := forecast s;
     analysis := analysis s; weatherAwareDeviceId := weatherAwareDeviceId s;
     weatherAware := weatherAware s;
     prediction24hDeviceId := prediction24hDeviceId s;
     prediction24h := prediction24h s; now := now s; sent := sent s;
     inflight := inflight s; next_id := next_id s; next_ref := next_ref s;
     forecastLive := forecastLive s; analysisLive := analysisLive s |}.

Definition upd_loading (f : bool -> bool) (s : state) : state :=
  {| cityQuery := cityQuery s; citySuggestions := citySuggestions s;
     selectedCity := selectedCity s; suggestionsOpen := suggestionsOpen s;
     searching := searching s; searchError := searchError s;
     searchTimeoutRef := searchTimeoutRef s; loading := f (loading s);
     error := error s; retryCount := retryCount s; forecast := forecast s;
     analysis := analysis s; weatherAwareDeviceId := weatherAwareDeviceId s;
     weatherAware := weatherAware s;
     prediction24hDeviceId := prediction24hDeviceId s;
     prediction24h := prediction24h s; now := now s; sent := sent s;
     inflight := inflight s; next_id := next_id s; next_ref := next_ref s;
     forecastLive := forecastLive s; analysisLive := analysisLive s |}.

Definition upd_error (f : option string -> option string) (s : state) : state :=
  {| cityQuery := cityQuery s; citySuggestions := citySuggestions s;
     selectedCity := selectedCity s; suggestionsOpen := suggestionsOpen s;
     searching := searching s; searchError := searchError s;
     searchTimeoutRef := searchTimeoutRef s; loading := loading s;
     error := f (error s); retryCount := retryCount s;
     forecast := forecast s; analysis := analysis s;
     weatherAwareDeviceId := weatherAwareDeviceId s;
     weatherAware := weatherAware s;
     prediction24hDeviceId := prediction24hDeviceId s;
     prediction24h := prediction24h s; now := now s; sent := sent s;
     inflight := inflight s; next_id := next_id s; next_ref := next_ref s;
     forecastLive := forecastLive s; analysisLive := analysisLive s |}.

Definition upd_retryCount (f : nat -> nat) (s : state) : state :=
  {| cityQuery := cityQuery s; citySuggestions := citySuggestions s;
     selectedCity := selectedCity s; suggestionsOpen := suggestionsOpen s;
     searching := searching s; searchError := searchError s;
     searchTimeoutRef := searchTimeoutRef s; loading := loading s;
     error := error s; retryCount := f (retryCount s);
     forecast := forecast s; analysis := analysis s;
     weatherAwareDeviceId := weatherAwareDeviceId s;
     weatherAware := weatherAware s;
     prediction24hDeviceId := prediction24hDeviceId s;
     prediction24h := prediction24h s; now := now s; sent := sent s;
     inflight := inflight s; next_id := next_id s; next_ref := next_ref s;
     forecastLive := forecastLive s; analysisLive := analysisLive s |}.

Definition upd_forecast (f : panel -> panel) (s : state) : state :=
  {| cityQuery := cityQuery s; citySuggestions := citySuggestions s;
     selectedCity := selectedCity s; suggestionsOpen := suggestionsOpen s;
     searching := searching s; searchError := searchError s;
     searchTimeoutRef := searchTimeoutRef s; loading := loading s;
     error := error s; retryCount := retryCount s;
     forecast := f (forecast s); analysis := analysis s;
     weatherAwareDeviceId := weatherAwareDeviceId s;
     weatherAware := weatherAware s;
     prediction24hDeviceId := prediction24hDeviceId s;
     prediction24h := prediction24h s; now := now s; sent := sent s;
     inflight := inflight s; next_id := next_id s; next_ref := next_ref s;
     forecastLive := forecastLive s; analysisLive := analysisLive s |}.

Definition upd_analysis (f : panel -> panel) (s : state) : state :=
  {| cityQuery := cityQuery s; citySuggestions := citySuggestions s;
     selectedCity := selectedCity s; suggestionsOpen := suggestionsOpen s;
     searching := searching s; searchError := searchError s;
     searchTimeoutRef := searchTimeoutRef s; loading := loading s;
     error := error s; retryCount := retryCount s; forecast := forecast s;
     analysis := f (analysis s);
     weatherAwareDeviceId := weatherAwareDeviceId s;
     weatherAware := weatherAware s;
     prediction24hDeviceId := prediction24hDeviceId s;
     prediction24h := prediction24h s; now := now s; sent := sent s;
     inflight := inflight s; next_id := next_id s; next_ref := next_ref s;
     forecastLive := forecastLive s; analysisLive := analysisLive s |}.

Definition upd_weatherAwareDeviceId (f : string -> string) (s : state) : state :=
  {| cityQuery := cityQuery s; citySuggestions := citySuggestions s;
     selectedCity := selectedCity s; suggestionsOpen := suggestionsOpen s;
     searching := searching s; searchError := searchError s;
     searchTimeoutRef := searchTimeoutRef s; loading := loading s;
     error := error s; retryCount := retryCount s; forecast := forecast s;
     analysis := analysis s;
     weatherAwareDeviceId := f (weatherAwareDeviceId s);
     weatherAware := weatherAware s;
     prediction24hDeviceId := prediction24hDeviceId s;
     prediction24h := prediction24h s; now := now s; sent := sent s;
     inflight := inflight s; next_id := next_id s; next_ref := next_ref s;
     forecastLive := forecastLive s; analysisLive := analysisLive s |}.

Definition upd_weatherAware (f : panel -> panel) (s : state) : state :=
  {| cityQuery := cityQuery s; citySuggestions := citySuggestions s;
     selectedCity := selectedCity s; suggestionsOpen := suggestionsOpen s;
     searching := searching s; searchError := searchError s;
     searchTimeoutRef := searchTimeoutRef s; loading := loading s;
     error := error s; retryCount := retryCount s; forecast := forecast s;
     analysis := analysis s; weatherAwareDeviceId := weatherAwareDeviceId s;
     weatherAware := f (weatherAware s);
     prediction24hDeviceId := prediction24hDeviceId s;
     prediction24h := prediction24h s; now := now s; sent := sent s;
     inflight := inflight s; next_id := next_id s; next_ref := next_ref s;
     forecastLive := forecastLive s; analysisLive := analysisLive s |}.

Definition upd_prediction24hDeviceId (f : string -> string) (s : state) : state :=
  {| cityQuery := cityQuery s; citySuggestions := citySuggestions s;
     selectedCity := selectedCity s; suggestionsOpen := suggestionsOpen s;
     searching := searching s; searchError := searchError s;
     searchTimeoutRef := searchTimeoutRef s; loading := loading s;
     error := error s; retryCount := retryCount s; forecast := forecast s;
     analysis := analysis s; weatherAwareDeviceId := weatherAwareDeviceId s;
     weatherAware := weatherAware s;
     prediction24hDeviceId := f (prediction24hDeviceId s);
     prediction24h := prediction24h s; now := now s; sent := sent s;
     inflight := inflight s; next_id := next_id s; next_ref := next_ref s;
     forecastLive := forecastLive s; analysisLive := analysisLive s |}.

Definition upd_prediction24h (f : panel -> panel) (s : state) : state :=
  {| cityQuery := cityQuery s; citySuggestions := citySuggestions s;
     selectedCity := selectedCity s; suggestionsOpen := suggestionsOpen s;
     searching := searching s; searchError := searchError s;
     searchTimeoutRef := searchTimeoutRef s; loading := loading s;
     error := error s; retryCount := retryCount s; forecast := forecast s;
     analysis := analysis s; weatherAwareDeviceId := weatherAwareDeviceId s;
     weatherAware := weatherAware s;
     prediction24hDeviceId := prediction24hDeviceId s;
     prediction24h := f (prediction24h s); now := now s; sent := sent s;
     inflight := inflight s; next_id := next_id s; next_ref := next_ref s;
     forecastLive := forecastLive s; analysisLive := analysisLive s |}.

Definition upd_now (f : nat -> nat) (s : state) : state :=
  {| cityQuery := cityQuery s; citySuggestions := citySuggestions s;
     selectedCity := selectedCity s; suggestionsOpen := suggestionsOpen s;
     searching := searching s; searchError := searchError s;
     searchTimeoutRef := searchTimeoutRef s; loading := loading s;
     error := error s; retryCount := retryCount s; forecast := forecast s;
     analysis := analysis s; weatherAwareDeviceId := weatherAwareDeviceId s;
     weatherAware := weatherAware s;
     prediction24hDeviceId := prediction24hDeviceId s;
     prediction24h := prediction24h s; now := f (now s); sent := sent s;
     inflight := inflight s; next_id := next_id s; next_ref := next_ref s;
     forecastLive := forecastLive s; analysisLive := analysisLive s |}.

Definition upd_sent (f : list request -> list request) (s : state) : state :=
  {| cityQuery := cityQuery s; citySuggestions := citySuggestions s;
     selectedCity := selectedCity s; suggestionsOpen := suggestionsOpen s;
     searching := searching s; searchError := searchError s;
     searchTimeoutRef := searchTimeoutRef s; loading := loading s;
     error := error s; retryCount := retryCount s; forecast := forecast s;
     analysis := analysis s; weatherAwareDeviceId := weatherAwareDeviceId s;
     weatherAware := weatherAware s;
     prediction24hDeviceId := prediction24hDeviceId s;
     prediction24h := prediction24h s; now := now s; sent := f (sent s);
     inflight := inflight s; next_id := next_id s; next_ref := next_ref s;
     forecastLive := forecastLive s; analysisLive := analysisLive s |}.

Definition upd_inflight (f : list (nat * continuation) -> list (nat * continuation)) (s : state) : state :=
  {| cityQuery := cityQuery s; citySuggestions := citySuggestions s;
     selectedCity := selectedCity s; suggestionsOpen := suggestionsOpen s;
     searching := searching s; searchError := searchError s;
     searchTimeoutRef := searchTimeoutRef s; loading := loading s;
     error := error s; retryCount := retryCount s; forecast := forecast s;
     analysis := analysis s; weatherAwareDeviceId := weatherAwareDeviceId s;
     weatherAware := weatherAware s;
     prediction24hDeviceId := prediction24hDeviceId s;
     prediction24h := prediction24h s; now := now s; sent := sent s;
     inflight := f (inflight s); next_id := next_id s;
     next_ref := next_ref s; forecastLive := forecastLive s;
     analysisLive := analysisLive s |}.

Definition upd_next_id (f : nat -> nat) (s : state) : state :=
  {| cityQuery := cityQuery s; citySuggestions := citySuggestions s;
     selectedCity := selectedCity s; suggestionsOpen := suggestionsOpen s;
     searching := searching s; searchError := searchError s;
     searchTimeoutRef := searchTimeoutRef s; loading := loading s;
     error := error s; retryCount := retryCount s; forecast := forecast s;
     analysis := analysis s; weatherAwareDeviceId := weatherAwareDeviceId s;
     weatherAware := weatherAware s;
     prediction24hDeviceId := prediction24hDeviceId s;
     prediction24h := prediction24h s; now := now s; sent := sent s;
     inflight := inflight s; next_id := f (next_id s);
     next_ref := next_ref s; forecastLive := forecastLive s;
     analysisLive := analysisLive s |}.

Definition upd_next_ref (f : nat -> nat) (s : state) : state :=
  {| cityQuery := cityQuery s; citySuggestions := citySuggestions s;
     selectedCity := selectedCity s; suggestionsOpen := suggestionsOpen s;
     searching := searching s; searchError := searchError s;
     searchTimeoutRef := searchTimeoutRef s; loading := loading s;
     error := error s; retryCount := retryCount s; forecast := forecast s;
     analysis := analysis s; weatherAwareDeviceId := weatherAwareDeviceId s;
     weatherAware := weatherAware s;
     prediction24hDeviceId := prediction24hDeviceId s;
     prediction24h := prediction24h s; now := now s; sent := sent s;
     inflight := inflight s; next_id := next_id s;
     next_ref := f (next_ref s); forecastLive := forecastLive s;
     analysisLive := analysisLive s |}.

Definition upd_forecastLive (f : option nat -> option nat) (s : state) : state :=
  {| cityQuery := cityQuery s; citySuggestions := citySuggestions s;
     selectedCity := selectedCity s; suggestionsOpen := suggestionsOpen s;
     searching := searching s; searchError := searchError s;
     searchTimeoutRef := searchTimeoutRef s; loading := loading s;
     error := error s; retryCount := retryCount s; forecast := forecast s;
     analysis := analysis s; weatherAwareDeviceId := weatherAwareDeviceId s;
     weatherAware := weatherAware s;
     prediction24hDeviceId := prediction24hDeviceId s;
     prediction24h := prediction24h s; now := now s; sent := sent s;
     inflight := inflight s; next_id := next_id s; next_ref := next_ref s;
     forecastLive := f (forecastLive s); analysisLive := analysisLive s |}.

Definition upd_analysisLive (f : option nat -> option nat) (s : state) : state :=
  {| cityQuery := cityQuery s; citySuggestions := citySuggestions s;
     selectedCity := selectedCity s; suggestionsOpen := suggestionsOpen s;
     searching := searching s; searchError := searchError s;
     searchTimeoutRef := searchTimeoutRef s; loading := loading s;
     error := error s; retryCount := retryCount s; forecast := forecast s;
     analysis := analysis s; weatherAwareDeviceId := weatherAwareDeviceId s;
     weatherAware := weatherAware s;
     prediction24hDeviceId := prediction24hDeviceId s;
     prediction24h := prediction24h s; now := now s; sent := sent s;
     inflight := inflight s; next_id := next_id s; next_ref := next_ref s;
     forecastLive := forecastLive s; analysisLive := f (analysisLive s) |}.
(** Cell setters, under the names of the component. *)
Definition setCityQuery v := upd_cityQuery (fun _ => v).
Definition setCitySuggestions v := upd_citySuggestions (fun _ => v).
Definition setSelectedCity v := upd_selectedCity (fun _ => v).
Definition setSuggestionsOpen v := upd_suggestionsOpen (fun _ => v).
Definition setSearching v := upd_searching (fun _ => v).
Definition setSearchError v := upd_searchError (fun _ => v).
Definition setSearchTimeoutRef v := upd_searchTimeoutRef (fun _ => v).
Definition setLoading v := upd_loading (fun _ => v).
Definition setError v := upd_error (fun _ => v).
Definition setRetryCount f := upd_retryCount f.
Definition setForecastData v := upd_forecast (p_setData v).
Definition setForecastLoading v := upd_forecast (p_setLoading v).
Definition setForecastError v := upd_forecast (p_setError v).
Definition setAnalysisData v := upd_analysis (p_setData v).
Definition setAnalysisLoading v := upd_analysis (p_setLoading v).
Definition setAnalysisError v := upd_analysis (p_setError v).
Definition setWeatherAwareDeviceId v := upd_weatherAwareDeviceId (fun _ => v).
Definition setWeatherAwareResult v := upd_weatherAware (p_setData v).
Definition setWeatherAwareLoading v := upd_weatherAware (p_setLoading v).
Definition setWeatherAwareError v := upd_weatherAware (p_setError v).
Definition setPrediction24hDeviceId v := upd_prediction24hDeviceId (fun _ => v).
Definition setPrediction24hData v := upd_prediction24h (p_setData v).
Definition setPrediction24hLoading v := upd_prediction24h (p_setLoading v).
Definition setPrediction24hError v := upd_prediction24h (p_setError v).

(** The cells of the two device-keyed panels, as the component names them. *)
Definition weatherAwareResult s := p_data (weatherAware s).
Definition weatherAwareLoading s := p_loading (weatherAware s).
Definition weatherAwareError s := p_error (weatherAware s).
Definition prediction24hData s := p_data (prediction24h s).
Definition prediction24hLoading s := p_loading (prediction24h s).
Definition prediction24hError s := p_error (prediction24h s).

(** A request leaves; [await] also parks the continuation under a fresh
    promise id. *)
Definition issue (req : request) (s : state) : state :=
  upd_sent (fun l => l ++ [req]) s.

Definition await (req : request) (k : continuation) (s : state) : state :=
  upd_next_id S
    (upd_inflight (fun l => l ++ [(next_id s, k)]) (issue req s)).

Definition settled (id : nat) (s : state) : state :=
  upd_inflight (filter (fun p => negb (Nat.eqb (fst p) id))) s.

Fixpoint pending (id : nat) (l : list (nat * continuation)) : option continuation :=
  match l with
  | [] => None
  | (i, k) :: rest => if Nat.eqb i id then Some k else pending id rest
  end.

(** [res.data ?? null] *)
Definition or_null (body : json) : option json :=
  match body with JNull => None | v => Some v end.

(** *** Messages *)

Definition NO_CITY_FOUND (q : string) : string :=
  "Aucune ville trouvée pour « " ++ q ++ " »".
Definition SEARCH_UNAVAILABLE : string := "Recherche indisponible.".
Definition FORECAST_UNAVAILABLE : string := "Prévisions indisponibles.".
Definition ANALYSIS_UNAVAILABLE : string := "Analyse météo indisponible.".
Definition WEATHER_AWARE_UNAVAILABLE : string :=
  "Prédiction weather-aware indisponible.".
Definition PREDICTION_24H_UNAVAILABLE : string :=
  "Prédiction 24h indisponible.".

(** *** The effects keyed by [selectedCity] *)

(** [load()] of the current-weather effect, up to its request.  Its
    continuation (enrichment and fallback through the public forecast API)
    writes only the cells [weather], [error] and [loading]; it is not
    modelled, and neither is the [weather] cell. *)
Definition weather_effect (s : state) : state :=
  match selectedCity s with
  | None => setLoading false s
  | Some (_, current) =>
      issue (GetWeatherCurrent (latitude current) (longitude current) (name current))
        (setError None (setLoading true s))
  end.

(** Each run of an effect has its own [cancelled] flag, raised by the
    cleanup when the effect runs again: [forecastLive] and [analysisLive]
    hold the promise of the one run whose flag is still down. *)
Definition forecast_effect (s : state) : state :=
  match selectedCity s with
  | None => upd_forecastLive (fun _ => None)
              (setForecastError None (setForecastData None s))
  | Some (_, current) =>
      let s1 := setForecastError None (setForecastLoading true s) in
      upd_forecastLive (fun _ => Some (next_id s1))
        (await (GetForecast (latitude current) (longitude current) (name current) 7)
           KForecast s1)
  end.

Definition analysis_effect (s : state) : state :=
  match selectedCity s with
  | None => upd_analysisLive (fun _ => None)
              (setAnalysisError None (setAnalysisData None s))
  | Some (_, current) =>
      let s1 := setAnalysisError None (setAnalysisLoading true s) in
      upd_analysisLive (fun _ => Some (next_id s1))
        (await (GetAnalysis (latitude current) (longitude current) (name current) 100)
           KAnalysis s1)
  end.

Definition live (id : nat) (l : option nat) : bool :=
  match l with Some i => Nat.eqb i id | None => false end.

Definition forecast_resume (id : nat) (r : settlement) (s : state) : state :=
  if live id (forecastLive s) then
    match r with
    | Fulfilled body => setForecastLoading false (setForecastData (or_null body) s)
    | _ => setForecastLoading false
             (setForecastData None (setForecastError (Some FORECAST_UNAVAILABLE) s))
    end
  else s.

Definition analysis_resume (id : nat) (r : settlement) (s : state) : state :=
  if live id (analysisLive s) then
    match r with
    | Fulfilled body => setAnalysisLoading false (setAnalysisData (or_null body) s)
    | _ => setAnalysisLoading false
             (setAnalysisData None (setAnalysisError (Some ANALYSIS_UNAVAILABLE) s))
    end
  else s.

(** [Object.is] on the [selectedCity] dependency: object identity. *)
Definition same_object (a b : option (nat * CitySuggestion)) : bool :=
  match a, b with
  | Some (i, _), Some (j, _) => Nat.eqb i j
  | None, None => true
  | _, _ => false
  end.

(** The commit after a render: every effect one of whose dependencies
    changed runs again, in the order of declaration.  Dependencies are
    [[api, retryCount, selectedCity]] for the current weather and
    [[api, selectedCity]] for forecast and analysis. *)
Definition commit (before after : state) : state :=
  let city_changed := negb (same_object (selectedCity before) (selectedCity after)) in
  let retry_changed := negb (Nat.eqb (retryCount before) (retryCount after)) in
  let s1 := if retry_changed || city_changed then weather_effect after else after in
  let s2 := if city_changed then forecast_effect s1 else s1 in
  if city_changed then analysis_effect s2 else s2.

(** *** selectCity *)

Definition selectCity (c : nat * CitySuggestion) (s : state) : state :=
  setRetryCount S
    (setSuggestionsOpen false
       (setCitySuggestions []
          (setCityQuery (name (snd c))
             (setSelectedCity (Some c) s)))).

(** The one expression of the render that reads [cityQuery] as a string:
    [disabled={searching || !cityQuery.trim()}] on the search button.  When
    [searching] is down, [cityQuery.trim] is looked up and called; on
    anything but a string it is [undefined] and the call throws.  [true]
    when the expression evaluates. *)
Definition search_button_renders (s : state) : bool :=
  searching s || match cityQuery s with JStr _ => true | _ => false end.

(** [selectCity(c)] and the commit of the render it causes, for a render
    that returns.  The render itself is not a step of this function: where
    [search_button_renders (selectCity c s)] is [false] (a name of [c] that
    is not a string, which only the public source can deliver, with
    [searching] down) the page throws while rendering and no effect runs;
    what is stated below about the requests of a city change takes a string
    name as a hypothesis. *)
Definition chooseCity (c : nat * CitySuggestion) (s : state) : state :=
  commit s (selectCity c s).

(** *** The two sources of suggestions *)

(** One element of the primary answer through the [filter] and the [map] of
    [normalizeSuggestions]. *)
Definition normalizeOne (x : json) : option CitySuggestion :=
  match x with
  | JObj m =>
      match member "name" m, member "latitude" m, member "longitude" m with
      | Some (JStr n), Some (JNum la), Some (JNum lo) =>
          Some {| name := JStr n; country := member "country" m;
                  latitude := la; longitude := lo |}
      | _, _, _ => None
      end
  | _ => None
  end.

Fixpoint filter_map {A B} (f : A -> option B) (l : list A) : list B :=
  match l with
  | [] => []
  | x :: r => match f x with Some y => y :: filter_map f r | None => filter_map f r end
  end.

(** [normalizeSuggestions]; its recursive call is on an array, so it ends in
    the first branch. *)
Definition normalizeSuggestions (data : json) : list CitySuggestion :=
  match data with
  | JArr items => filter_map normalizeOne items
  | JObj m =>
      match member "results" m with
      | Some (JArr items) => filter_map normalizeOne items
      | _ => []
      end
  | _ => []
  end.

(** One element of the public answer through the [filter] and the [map] of
    [fetchCitiesOpenMeteo]. *)
Definition openMeteoOne (x : json) : option CitySuggestion :=
  match x with
  | JObj m =>
      match member "name" m, member "latitude" m, member "longitude" m with
      | Some JNull, _, _ => None
      | Some n, Some (JNum la), Some (JNum lo) =>
          Some {| name := n; country := member "country" m;
                  latitude := la; longitude := lo |}
      | _, _, _ => None
      end
  | _ => None
  end.

(** [data?.results ?? []] *)
Definition results_of (data : json) : json :=
  match data with
  | JObj m =>
      match member "results" m with
      | None | Some JNull => JArr []
      | Some v => v
      end
  | _ => JArr []
  end.

(** [fetchCitiesOpenMeteo] after its [fetch]: [Some l] when it returns [l],
    [None] when it throws (the fetch is rejected, [res.json()] rejects, or
    [results] has no [filter]). *)
Definition fetchCitiesOpenMeteo_resume (r : settlement)
  : option (list CitySuggestion) :=
  match r with
  | Rejected => None
  | Fulfilled _ => None
  | FetchResponse false _ => Some []
  | FetchResponse true None => None
  | FetchResponse true (Some data) =>
      match results_of data with
      | JArr items => Some (filter_map openMeteoOne items)
      | _ => None
      end
  end.

Definition isEmpty {A} (l : list A) : bool :=
  match l with [] => true | _ => false end.

(** The objects of a fresh array, numbered from [next_ref] on. *)
Definition allocate (found : list CitySuggestion) (s : state)
  : list (nat * CitySuggestion) :=
  combine (seq (next_ref s) (List.length found)) found.

(** The three writes common to both sources:
    [setCitySuggestions(list); setSuggestionsOpen(list.length > 0);
     setSearchError(list.length === 0 ? `Aucune ville ...` : null)]. *)
Definition showSuggestions (value : string) (found : list CitySuggestion)
    (s : state) : state :=
  setSearchError (if isEmpty found then Some (NO_CITY_FOUND (trim value)) else None)
    (setSuggestionsOpen (negb (isEmpty found))
       (upd_next_ref (fun n => n + List.length found)
          (setCitySuggestions (allocate found s) s))).

Definition fetchSuggestions (value : string) (s : state) : state :=
  if blank value then
    setSearchError None (setSuggestionsOpen false (setCitySuggestions [] s))
  else
    await (GetSearchCity (trim value) 10) (KSearch value)
      (setSearchError None (setSearching true s)).

(** [.then(...)] and the start of [.catch(...)] of [fetchSuggestions]. *)
Definition fetchSuggestions_resume (value : string) (r : settlement)
    (s : state) : state :=
  match r with
  | Fulfilled body =>
      setSearching false (showSuggestions value (normalizeSuggestions body) s)
  | _ =>
      await (OpenMeteoGeocoding (trim value) 10) (KSearchFallback value) s
  end.

(** The rest of [.catch(...)], then [.finally(...)]. *)
Definition fetchSuggestions_fallback (value : string) (r : settlement)
    (s : state) : state :=
  match fetchCitiesOpenMeteo_resume r with
  | Some found => setSearching false (showSuggestions value found s)
  | None =>
      setSearching false
        (setSearchError (Some SEARCH_UNAVAILABLE)
           (setSuggestionsOpen false (setCitySuggestions [] s)))
  end.

(** *** onInputChange and its timer *)

Definition onInputChange (value : string) (s : state) : state :=
  let s1 := setSearchError None (setError None (setCityQuery (JStr value) s)) in
  let s2 := setSearchTimeoutRef None s1 in            (* clearTimeout *)
  if blank value then setSuggestionsOpen false (setCitySuggestions [] s2)
  else setSearchTimeoutRef (Some (now s + SEARCH_DEBOUNCE_MS, value)) s2.

(** [dt] milliseconds pass: a timer that is due runs its callback
    [searchTimeoutRef.current = null; fetchSuggestions(value)]. *)
Definition elapse (dt : nat) (s : state) : state :=
  let s1 := upd_now (fun t => t + dt) s in
  match searchTimeoutRef s with
  | Some (deadline, value) =>
      if deadline <=? now s + dt
      then fetchSuggestions value (setSearchTimeoutRef None s1)
      else s1
  | None => s1
  end.

(** *** searchAndSelectFirst *)

Definition selectFirst (q : string) (found : list CitySuggestion) (s : state)
  : state :=
  match found with
  | c :: _ => chooseCity (next_ref s, c) (upd_next_ref (fun n => n + List.length found) s)
  | [] => setSearchError (Some (NO_CITY_FOUND q)) s
  end.

Definition searchAndSelectFirst (s : state) : state :=
  match cityQuery s with
  | JStr v =>
      let q := trim v in
      if truthy q then
        await (GetSearchCity q 10) (KSearchFirst q)
          (setSearchError None (setSearching true s))
      else s
  | _ => s      (* [cityQuery.trim] is not a function: the handler throws *)
  end.

Definition searchAndSelectFirst_resume (q : string) (r : settlement)
    (s : state) : state :=
  match r with
  | Fulfilled body => setSearching false (selectFirst q (normalizeSuggestions body) s)
  | _ => await (OpenMeteoGeocoding q 10) (KSearchFirstFallback q) s
  end.

Definition searchAndSelectFirst_fallback (q : string) (r : settlement)
    (s : state) : state :=
  match fetchCitiesOpenMeteo_resume r with
  | Some found => setSearching false (selectFirst q found s)
  | None => setSearching false (setSearchError (Some SEARCH_UNAVAILABLE) s)
  end.

(** *** The device-keyed panels *)

Definition fetchWeatherAwarePrediction (s : state) : state :=
  match selectedCity s with
  | None => s
  | Some (_, current) =>
      if blank (weatherAwareDeviceId s) then s
      else
        await (GetPredictWeatherAware (trim (weatherAwareDeviceId s))
                 (latitude current) (longitude current) (name current)
                 3600 (6 # 10))
          KWeatherAware
          (setWeatherAwareResult None
             (setWeatherAwareError None (setWeatherAwareLoading true s)))
  end.

Definition fetchWeatherAwarePrediction_resume (r : settlement) (s : state) : state :=
  match r with
  | Fulfilled body => setWeatherAwareLoading false (setWeatherAwareResult (or_null body) s)
  | _ => setWeatherAwareLoading false
           (setWeatherAwareResult None
              (setWeatherAwareError (Some WEATHER_AWARE_UNAVAILABLE) s))
  end.

Definition fetchPrediction24h (s : state) : state :=
  match selectedCity s with
  | None => s
  | Some (_, current) =>
      if blank (prediction24hDeviceId s) then s
      else
        await (GetPrediction24h (latitude current) (longitude current)
                 (name current) (trim (prediction24hDeviceId s)) (1 # 2))
          KPrediction24h
          (setPrediction24hData None
             (setPrediction24hError None (setPrediction24hLoading true s)))
  end.

Definition fetchPrediction24h_resume (r : settlement) (s : state) : state :=
  match r with
  | Fulfilled body => setPrediction24hLoading false (setPrediction24hData (or_null body) s)
  | _ => setPrediction24hLoading false
           (setPrediction24hData None
              (setPrediction24hError (Some PREDICTION_24H_UNAVAILABLE) s))
  end.

(** *** Events *)

Inductive event :=
| InputChange (value : string)          (* onChange of the city input *)
| Elapse (dt : nat)                     (* time passes *)
| Settle (id : nat) (r : settlement)    (* a promise settles *)
| PickSuggestion (idx : nat)            (* onMouseDown on a suggestion *)
| PressEnter                            (* onKeyDown, Enter *)
| ClickSearch                           (* the "Rechercher" button *)
| ClickRetry                            (* the "Réessayer" button *)
| ChangeWeatherAwareDevice (v : string)
| ClickWeatherAware
| ChangePrediction24hDevice (v : string)
| ClickPrediction24h.

(** Does the settlement come from the transport the continuation awaits? *)
Definition of_fetch (k : continuation) : bool :=
  match k with KSearchFallback _ | KSearchFirstFallback _ => true | _ => false end.

Definition well_kinded (k : continuation) (r : settlement) : bool :=
  match r with
  | Fulfilled _ => negb (of_fetch k)
  | FetchResponse _ _ => of_fetch k
  | Rejected => true
  end.

Definition resume (id : nat) (k : continuation) (r : settlement) (s : state) : state :=
  match k with
  | KForecast => forecast_resume id r s
  | KAnalysis => analysis_resume id r s
  | KSearch value => fetchSuggestions_resume value r s
  | KSearchFallback value => fetchSuggestions_fallback value r s
  | KSearchFirst q => searchAndSelectFirst_resume q r s
  | KSearchFirstFallback q => searchAndSelectFirst_fallback q r s
  | KWeatherAware => fetchWeatherAwarePrediction_resume r s
  | KPrediction24h => fetchPrediction24h_resume r s
  end.

Definition step (e : event) (s : state) : state :=
  match e with
  | InputChange value => onInputChange value s
  | Elapse dt => elapse dt s
  | Settle id r =>
      match pending id (inflight s) with
      | Some k => if well_kinded k r then resume id k r (settled id s) else s
      | None => s
      end
  | PickSuggestion idx =>
      match nth_error (citySuggestions s) idx with
      | Some c => chooseCity c s
      | None => s
      end
  | PressEnter =>
      match citySuggestions s with
      | c :: _ => chooseCity c s
      | [] => searchAndSelectFirst s
      end
  | ClickSearch =>
      match cityQuery s with
      | JStr v => if searching s || blank v then s else searchAndSelectFirst s
      | _ => s
      end
  | ClickRetry => commit s (setRetryCount S s)
  | ChangeWeatherAwareDevice v =>
      setWeatherAwareError None
        (setWeatherAwareResult None (setWeatherAwareDeviceId v s))
  | ClickWeatherAware =>
      if weatherAwareLoading s || blank (weatherAwareDeviceId s) then s
      else fetchWeatherAwarePrediction s
  | ChangePrediction24hDevice v =>
      setPrediction24hError None
        (setPrediction24hData None (setPrediction24hDeviceId v s))
  | ClickPrediction24h =>
      if prediction24hLoading s || blank (prediction24hDeviceId s) then s
      else fetchPrediction24h s
  end.

Fixpoint run (es : list event) (s : state) : state :=
  match es with
  | [] => s
  | e :: rest => run rest (step e s)
  end.

(** The first render: the [useState] initialisers; the object of the
    initial selection is number 0. *)
Definition idle : panel := {| p_data := None; p_loading := false; p_error := None |}.

Definition PARIS : CitySuggestion :=
  {| name := JStr "Paris"; country := Some (JStr "France");
     latitude := 488566 # 10000; longitude := 23522 # 10000 |}.

Definition initial : state :=
  {| cityQuery := JStr "Paris"; citySuggestions := [];
     selectedCity := Some (0, PARIS); suggestionsOpen := false;
     searching := false; searchError := None; searchTimeoutRef := None;
     loading := true; error := None; retryCount := 0;
     forecast := idle; analysis := idle;
     weatherAwareDeviceId := ""; weatherAware := idle;
     prediction24hDeviceId := ""; prediction24h := idle;
     now := 0; sent := []; inflight := []; next_id := 0; next_ref := 1;
     forecastLive := None; analysisLive := None |}.

Definition RABAT : CitySuggestion :=
  {| name := JStr "Rabat"; country := Some (JStr "Maroc");
     latitude := 340209 # 10000; longitude := (-68416) # 10000 |}.

(** The mount: every effect runs once. *)
Definition mounted : state :=
  analysis_effect (forecast_effect (weather_effect initial)).

(** *** Bursts of keystrokes *)

(** A keystroke that arrives [fst k] ms after the event before it and
    leaves [snd k] in the input. *)
Definition keystroke (k : nat * string) (s : state) : state :=
  step (InputChange (snd k)) (step (Elapse (fst k)) s).

Fixpoint typing (ks : list (nat * string)) (s : state) : state :=
  match ks with
  | [] => s
  | k :: rest => typing rest (keystroke k s)
  end.

(** The input once [v0] and then [ks] have been typed. *)
Definition final_value (v0 : string) (ks : list (nat * string)) : string :=
  last (map snd ks) v0.

(** The timer a state carries right after [v] was typed. *)
Definition armed_for (v : string) (s : state) : Prop :=
  searchTimeoutRef s
  = if blank v then None else Some (now s + SEARCH_DEBOUNCE_MS, v).

(** The cells of the device-keyed panels, selects included. *)
Definition device_panels (s : state) : string * panel * string * panel :=
  (weatherAwareDeviceId s, weatherAware s, prediction24hDeviceId s, prediction24h s).

(** *** Bookkeeping *)

(** Promise ids not handed out yet are not in use. *)
Definition fresh_ids (s : state) : Prop :=
  forall i, next_id s <= i -> pending i (inflight s) = None.

(** Every promise in flight was numbered below the next id. *)
Definition ids_below (s : state) : Prop :=
  Forall (fun p => fst p < next_id s) (inflight s).

(** Objects are numbered below [next_ref], and a suggestion on offer is
    never the object that is selected. *)
Definition refs_ok (sel : option (nat * CitySuggestion))
    (offered : list (nat * CitySuggestion)) (n : nat) : Prop :=
  Forall (fun c => fst c < n) offered
  /\ match sel with
     | Some (i, _) => i < n /\ Forall (fun c => fst c <> i) offered
     | None => True
     end.

Definition refs_below (s : state) : Prop :=
  refs_ok (selectedCity s) (citySuggestions s) (next_ref s).

(** The events of the device-keyed panels: their selects, their buttons and
    the settling of their own requests. *)
Definition device_panel_event (e : event) (s : state) : bool :=
  match e with
  | ChangeWeatherAwareDevice _ | ClickWeatherAware
  | ChangePrediction24hDevice _ | ClickPrediction24h => true
  | Settle id _ =>
      match pending id (inflight s) with
      | Some KWeatherAware | Some KPrediction24h => true
      | _ => false
      end
  | _ => false
  end.




(** *** Requests in flight, by panel *)

Definition awaits (g : continuation -> bool) (s : state) : nat :=
  List.length (filter (fun p => g (snd p)) (inflight s)).

Definition is_weather_aware (k : continuation) : bool :=
  match k with KWeatherAware => true | _ => false end.

Definition is_prediction24h (k : continuation) : bool :=
  match k with KPrediction24h => true | _ => false end.

(** A panel with [n] requests in flight is coherent: at most one request,
    none unless the loading flag is up, nothing on display while one is in
    flight, and never a result beside an error. *)
Definition panel_ok (n : nat) (p : panel) : Prop :=
  n <= 1
  /\ (p_loading p = false -> n = 0)
  /\ (0 < n -> p_data p = None /\ p_error p = None)
  /\ (p_data p = None \/ p_error p = None).

(** The events of one device-keyed panel. *)
Definition weather_aware_event (e : event) (s : state) : bool :=
  match e with
  | ChangeWeatherAwareDevice _ | ClickWeatherAware => true
  | Settle id _ =>
      match pending id (inflight s) with
      | Some KWeatherAware => true
      | _ => false
      end
  | _ => false
  end.

Definition prediction24h_event (e : event) (s : state) : bool :=
  match e with
  | ChangePrediction24hDevice _ | ClickPrediction24h => true
  | Settle id _ =>
      match pending id (inflight s) with
      | Some KPrediction24h => true
      | _ => false
      end
  | _ => false
  end.

(** *** windDirectionLabel *)

Definition DIRS : list string :=
  ["N"; "NNE"; "NE"; "ENE"; "E"; "ESE"; "SE"; "SSE";
   "S"; "SSO"; "SO"; "OSO"; "O"; "ONO"; "NO"; "NNO"].

Definition DASH : string := "—".

(** [windDirectionLabel] on a whole number of degrees.
    [degrees % 360] is the remainder with the sign of [degrees];
    [Math.round(r / 22.5)] is [floor(r / 22.5 + 1 / 2)], that is
    [floor((4 r + 45) / 90)]: for a whole [r] the quotient is never within
    1/90 of a tie, so the rounding of the floating-point quotient is the
    rounding of the exact one; [dirs[idx] ?? "—"] reads outside [0..15] as
    [undefined]. *)
Definition windDirectionLabel (degrees : Z) : string :=
  let idx := Z.rem (Z.div (4 * Z.rem degrees 360 + 45) 90) 16 in
  if (0 <=? idx)%Z && (idx <? 16)%Z then nth (Z.to_nat idx) DIRS DASH
  else DASH.

End Weather.

(* ================================================================== *)
(** ** AuthContext *)

Module Auth.

(** The provider: its [token] cell and the entry of [localStorage] under
    [TOKEN_KEY] ([None]: no entry). *)
Record state := {
  token : option string;
  stored : option string
}.

(** A provider that has just been created over a storage. *)
Definition created (storage : option string) : state :=
  {| token := None; stored := storage |}.

(** The mount effect:
    [const stored = getItem(TOKEN_KEY); if (stored) setToken(stored);] *)
Definition restore (s : state) : state :=
  match stored s with
  | Some t => if truthy t then {| token := Some t; stored := stored s |} else s
  | None => s
  end.

Definition mount (storage : option string) : state := restore (created storage).

Definition login (t : string) (s : state) : state :=
  {| token := Some t; stored := Some t |}.

Definition logout (s : state) : state :=
  {| token := None; stored := None |}.

(** [Boolean(token)] *)
Definition isAuthenticated (s : state) : bool :=
  match token s with Some t => truthy t | None => false end.

Inductive action :=
| Login (t : string)
| Logout.

Definition act (a : action) (s : state) : state :=
  match a with
  | Login t => login t s
  | Logout => logout s
  end.

Definition session (acts : list action) (s : state) : state :=
  fold_left (fun s a => act a s) acts s.

End Auth.

(* ================================================================== *)
(** * Properties of the monitoring page *)

Section MonitoringFacts.

Import Monitoring.

Variable toISOString : string -> option string.
Variable localeTime localeDate : string -> string.

Local Abbreviation loadData := (Monitoring.loadData toISOString).
Local Abbreviation step := (Monitoring.step toISOString).
Local Abbreviation run := (Monitoring.run toISOString).

(** ** The sample buffer *)

Lemma slice0_length {A} (n : nat) (l : list A) :
  List.length (slice0 n l) = Nat.min n (List.length l).
Proof. unfold slice0. apply length_firstn. Qed.

Lemma applyLive_data row s :
  data (applyLive row s) = row :: firstn 199 (data s).
Proof. reflexivity. Qed.

Lemma applyLive_bounded row s :
  List.length (data (applyLive row s)) <= CAPACITY.
Proof.
  rewrite applyLive_data. cbn [List.length]. unfold CAPACITY.
  rewrite length_firstn. lia.
Qed.

Lemma batchOf_length k body :
  List.length (batchOf k body) =
  match body with Some l => List.length l | None => 0 end.
Proof.
  destruct body as [l|]; [|reflexivity].
  destruct k; cbn; try rewrite length_rev; reflexivity.
Qed.

Lemma firstn_all_short {A} (n : nat) (l : list A) :
  List.length l <= n -> firstn n l = l.
Proof. intros H. apply firstn_all2. exact H. Qed.

Lemma firstn_removelast {A} (l : list A) :
  firstn (List.length l - 1) l = removelast l.
Proof.
  induction l as [|a l IH]; [reflexivity|].
  destruct l as [|b l']; [reflexivity|].
  cbn [List.length] in *.
  replace (S (S (List.length l')) - 1) with (S (List.length l')) by lia.
  replace (S (List.length l') - 1) with (List.length l') in IH by lia.
  cbn [firstn]. rewrite IH. reflexivity.
Qed.

Lemma loadData_data s :
  data (loadData s) = data s \/ data (loadData s) = [].
Proof.
  unfold Monitoring.loadData.
  destruct (useDateRange s && truthy (trim (deviceFilter s))
            && truthy (dateStart s) && truthy (dateEnd s)).
  - destruct (toISOString (dateStart s)), (toISOString (dateEnd s));
      cbn; auto.
  - destruct (truthy (trim (deviceFilter s))); cbn; auto.
Qed.

Lemma refilter_data c s' s :
  data s' = data s ->
  data (refilter toISOString c s' s) = data s
  \/ data (refilter toISOString c s' s) = [].
Proof.
  intros H. unfold refilter. destruct c; [|now left].
  rewrite <- H. apply loadData_data.
Qed.

(** What the window holds after each kind of event. *)
Lemma step_data_cases e s :
  data (step e s) = data s
  \/ (exists row, data (step e s) = row :: firstn 199 (data s))
  \/ (exists id k body, e = Settle id (LoadFulfilled body)
        /\ data (step e s) = batchOf k body)
  \/ data (step e s) = [].
Proof.
  destruct e; cbn [Monitoring.step].
  - destruct (loading s); [now left|].
    destruct (loadData_data s) as [H|H]; auto.
  - destruct (refilter_data (negb (String.eqb v (deviceFilter s)))
                (setDeviceFilter v s) s eq_refl) as [H|H]; auto.
  - destruct (refilter_data (negb (Bool.eqb b (useDateRange s)))
                (setUseDateRange b s) s eq_refl) as [H|H]; auto.
  - destruct (refilter_data (negb (String.eqb v (dateStart s)))
                (setDateStart v s) s eq_refl) as [H|H]; auto.
  - destruct (refilter_data (negb (String.eqb v (dateEnd s)))
                (setDateEnd v s) s eq_refl) as [H|H]; auto.
  - destruct (pending id (inflight s)) as [k|]; [|now left].
    destruct k, r; cbn; auto;
      right; right; left; eexists _, _, _; split; reflexivity.
  - now left.
  - now left.
  - unfold on_device_data. destruct (decode doc); [|now left].
    right; left. eexists. reflexivity.
  - destruct transport_connected; now left.
  - now left.
  - destruct (predictionLoading s || blank (predictDeviceId s)); [now left|].
    unfold fetchPrediction. destruct (blank (predictDeviceId s)); now left.
Qed.

(** The part of the capacity invariant the page does keep: as long as no
    load brings more than [CAPACITY] samples, the window never exceeds it. *)
Lemma window_bounded_by_bounded_loads es : forall s,
  forallb within_capacity es = true ->
  List.length (data s) <= CAPACITY ->
  List.length (data (run es s)) <= CAPACITY.
Proof.
  induction es as [|e es IH]; intros s Hes Hs; [exact Hs|].
  cbn [forallb] in Hes. apply andb_prop in Hes as [He Hes].
  cbn [Monitoring.run]. apply IH; [exact Hes|].
  destruct (step_data_cases e s) as [H|[[row H]|[(id & k & body & -> & H)|H]]];
    rewrite H.
  - exact Hs.
  - cbn [List.length]. rewrite length_firstn. unfold CAPACITY. lia.
  - rewrite batchOf_length. destruct body as [l|]; [|unfold CAPACITY; lia].
    cbn in He. apply Nat.leb_le in He. exact He.
  - cbn. lia.
Qed.

(** ** The capacity of the window *)

(** C1 (the code departs from it).  The window is meant never to hold more
    than [CAPACITY] = 200 samples, also right after a batch load.  Here the
    page is mounted, a device and both bounds of a range are chosen, and the
    range request (the fifth request, promise 4) is answered: whatever array
    the answer carries becomes the window as it is, so an answer of 201
    samples leaves a window of 201 > 200 entries. *)
Theorem range_load_exceeds_capacity :
  let after body :=
    Monitoring.run utc_toISOString
      (range_query ++ [Settle 4 (LoadFulfilled (Some body))])
      (mounted utc_toISOString) in
  (forall body,
     nth_error (sent (after body)) 4
       = Some (GetRange "dev-1" "2025-01-01T00:00:00.000Z"
                 "2025-01-02T00:00:00.000Z")
     /\ data (after body) = body)
  /\ List.length
       (data (after (repeat (reading "dev-1" "2025-01-01T12:00:00Z" 21) 201)))
     = 201
  /\ CAPACITY
     < List.length
         (data (after (repeat (reading "dev-1" "2025-01-01T12:00:00Z" 21) 201))).
Proof.
  intros after.
  assert (H : forall body, data (after body) = body) by (intros; reflexivity).
  split; [intros body; split; reflexivity|].
  rewrite H, repeat_length. unfold CAPACITY. split; lia.
Qed.

(** ** Query modes *)

(** C2 does not hold as the specification states it: with range mode on,
    a device chosen and only the start bound set, the query operation does
    send a request and its answer replaces the window. *)
Lemma one_bound_still_queries :
  let s0 :=
    Monitoring.run utc_toISOString
      [ChangeDeviceFilter "dev-1"; ToggleDateRange true]
      (mounted utc_toISOString) in
  let s1 :=
    Monitoring.step utc_toISOString (ChangeDateStart "2025-01-01T00:00") s0 in
  let r := reading "dev-1" "2025-01-01T12:00:00Z" 21 in
  (useDateRange s1 = true /\ deviceFilter s1 = "dev-1"
   /\ dateStart s1 = "2025-01-01T00:00" /\ dateEnd s1 = "")
  /\ sent s1 = sent s0 ++ [GetDeviceLatest "dev-1" 200]
  /\ sent s1 <> sent s0
  /\ data s1 = []
  /\ data (Monitoring.step utc_toISOString
             (Settle 3 (LoadFulfilled (Some [r]))) s1)
     = [r].
Proof.
  vm_compute. repeat split; try reflexivity. discriminate.
Qed.

(** C2, amended.  With range mode on and a device chosen, a query with a
    bound missing falls back to the latest samples of the device: exactly
    one request leaves, [GetDeviceLatest] with limit 200 for the trimmed
    device id, under a continuation that will replace the window by the
    reversed answer.  With both bounds set to valid dates exactly one
    request leaves too, the range request. *)
Theorem range_query_modes s :
  useDateRange s = true ->
  blank (deviceFilter s) = false ->
  (truthy (dateStart s) && truthy (dateEnd s) = false ->
     loadData s
       = await (GetDeviceLatest (trim (deviceFilter s)) 200) KLatest
           (setLoading true s)
     /\ sent (loadData s)
        = sent s ++ [GetDeviceLatest (trim (deviceFilter s)) 200]
     /\ (forall body,
           data (loadData_resume KLatest (LoadFulfilled (Some body)) (loadData s))
           = rev body))
  /\ (forall a b,
        truthy (dateStart s) = true -> truthy (dateEnd s) = true ->
        toISOString (dateStart s) = Some a ->
        toISOString (dateEnd s) = Some b ->
        loadData s
          = await (GetRange (trim (deviceFilter s)) a b) KRange
              (setLoading true s)
        /\ sent (loadData s)
           = sent s ++ [GetRange (trim (deviceFilter s)) a b]).
Proof.
  intros Hr Hd. unfold blank in Hd. apply negb_false_iff in Hd.
  split.
  - intros Hb.
    assert (E : loadData s
                = await (GetDeviceLatest (trim (deviceFilter s)) 200) KLatest
                    (setLoading true s)).
    { unfold Monitoring.loadData. rewrite Hr, Hd. cbn [andb].
      destruct (truthy (dateStart s)); cbn [andb] in *.
      - rewrite Hb. reflexivity.
      - reflexivity. }
    rewrite E. repeat split; reflexivity.
  - intros a b Hs He Ha Hb.
    assert (E : loadData s
                = await (GetRange (trim (deviceFilter s)) a b) KRange
                    (setLoading true s)).
    { unfold Monitoring.loadData. rewrite Hr, Hd, Hs, He, Ha, Hb. reflexivity. }
    rewrite E. split; reflexivity.
Qed.

(** C3 (the code departs from it).  Last filter wins: a load that resolves
    after the filter has changed should be discarded.  Here the mount
    issues the all-devices load F1 (promise 0), the device select then
    issues the load F2 for "dev-1" (promise 1); F2 resolves first with [R2],
    F1 resolves last with [R1].  [loadData] holds no flag and compares no
    filter at resolution, so the window ends as F1's answer while the
    filter shows F2. *)
Theorem stale_load_overwrites_newer_filter (R1 R2 : list MonitoringData) :
  let s2 :=
    run [ChangeDeviceFilter "dev-1"; Settle 1 (LoadFulfilled (Some R2))]
      (mounted toISOString) in
  let s := step (Settle 0 (LoadFulfilled (Some R1))) s2 in
  sent s = [GetAllLatest 200; GetDeviceLatest "dev-1" 200]
  /\ data s2 = rev R2
  /\ deviceFilter s = "dev-1"
  /\ data s = rev R1.
Proof. cbv zeta. repeat split; reflexivity. Qed.

(** ** The push channel *)

Lemma decode_none_iff doc :
  decode doc = None
  <-> has_string "device_id" doc && has_string "timestamp" doc = false.
Proof.
  unfold decode, has_string.
  destruct doc as [| | | | |d]; try (split; reflexivity).
  destruct (member "device_id" d) as [[| | |id| |]|];
    try (split; reflexivity).
  destruct (member "timestamp" d) as [[| | |ts| |]|];
    split; try reflexivity; discriminate.
Qed.

Lemma decode_fields doc row :
  decode doc = Some row ->
  exists d,
    doc = JObj d
    /\ member "device_id" d = Some (JStr (device_id row))
    /\ member "timestamp" d = Some (JStr (timestamp row)).
Proof.
  unfold decode. destruct doc as [| | | | |d]; try discriminate.
  destruct (member "device_id" d) as [[| | |id| |]|] eqn:Eid; try discriminate.
  destruct (member "timestamp" d) as [[| | |ts| |]|] eqn:Ets; try discriminate.
  intros H. injection H as <-. exists d. cbn. repeat split; assumption.
Qed.

(** C4 does not hold as the specification states it: on the freshly
    mounted page, not yet connected, a payload whose [device_id] is a number
    is dropped, and yet the connectivity cell goes from [false] to [true]. *)
Lemma malformed_event_marks_connected :
  let doc := JObj [("device_id", JNum 7);
                   ("timestamp", JStr "2025-01-01T12:00:00Z")] in
  let s := mounted utc_toISOString in
  let s' := Monitoring.step utc_toISOString (SocketDeviceData doc) s in
  has_string "device_id" doc = false
  /\ data s' = data s
  /\ socketConnected s = false
  /\ socketConnected s' = true
  /\ socketConnected s' <> socketConnected s.
Proof. cbv zeta. repeat split; try reflexivity. discriminate. Qed.

(** C4, amended.  A push payload without a string [device_id] or without a
    string [timestamp] is dropped silently: the window, the error cell and
    every other cell keep their values, except the connectivity cell, which
    the listener sets to connected before it looks at the payload, as it
    does for a well-formed event. *)
Theorem malformed_event_dropped doc s :
  has_string "device_id" doc && has_string "timestamp" doc = false ->
  step (SocketDeviceData doc) s = setSocketConnected true s
  /\ data (step (SocketDeviceData doc) s) = data s
  /\ predictionError (step (SocketDeviceData doc) s) = predictionError s
  /\ sent (step (SocketDeviceData doc) s) = sent s
  /\ socketConnected (step (SocketDeviceData doc) s) = true.
Proof.
  intros H. apply decode_none_iff in H.
  cbn [Monitoring.step]. unfold on_device_data. rewrite H.
  repeat split.
Qed.

(** ** The chronological projection *)

(** C5.  Right after [applyBatch S] the chronological projection is [S]
    reversed: the samples behind the chart are [rev S] and the chart shows
    one point per sample in that order.  It holds for every [S], empty or
    not.  [S] is the list [loadData] hands over: the answer itself after a
    range load, the answer reversed after a load of the latest samples, so
    that the chart of a latest load runs in the order of the answer. *)
Theorem projection_after_batch (S : list MonitoringData) s :
  chronological (applyBatch S s) = rev S
  /\ chartData localeTime localeDate (applyBatch S s)
     = map (chartPoint localeTime localeDate) (rev S)
  /\ List.length (chartData localeTime localeDate (applyBatch S s))
     = List.length S
  /\ (forall k body,
        chronological (loadData_resume k (LoadFulfilled body) s)
        = rev (batchOf k body))
  /\ (forall answer,
        chronological (loadData_resume KRange (LoadFulfilled (Some answer)) s)
        = rev answer
        /\ chronological
             (loadData_resume KLatest (LoadFulfilled (Some answer)) s)
           = answer).
Proof.
  split; [reflexivity|]. split; [reflexivity|].
  split.
  { unfold chartData, chronological. cbn [applyBatch setData data].
    rewrite length_map, length_rev. reflexivity. }
  split.
  - intros k body. reflexivity.
  - intros answer. split; [reflexivity|].
    unfold chronological. cbn. apply rev_involutive.
Qed.

(** ** Live samples *)

(** C6.  A well-formed live sample becomes the first entry of the window
    whatever its timestamp, and the window is cut back to the capacity from
    its old end: nothing is lost while there is room, the last entry goes
    when the window was full. *)
Theorem live_sample_is_prepended doc row s :
  decode doc = Some row ->
  let s' := step (SocketDeviceData doc) s in
  data s' = slice0 CAPACITY (row :: data s)
  /\ hd_error (data s') = Some row
  /\ List.length (data s') = Nat.min CAPACITY (S (List.length (data s)))
  /\ (List.length (data s) < CAPACITY -> data s' = row :: data s)
  /\ (List.length (data s) = CAPACITY -> data s' = row :: removelast (data s)).
Proof.
  intros H s'.
  assert (E : data s' = row :: firstn 199 (data s)).
  { subst s'. cbn [Monitoring.step]. unfold on_device_data. rewrite H.
    reflexivity. }
  rewrite E. unfold CAPACITY. repeat split.
  - cbn [List.length]. rewrite length_firstn. lia.
  - intros Hlt. rewrite firstn_all_short by lia. reflexivity.
  - intros Heq. rewrite <- firstn_removelast. rewrite Heq. reflexivity.
Qed.

End MonitoringFacts.

(** ** Concrete runs of the monitoring page *)

Section MonitoringRuns.

Import Monitoring.

Lemma range_query_modes_witness :
  let s0 :=
    Monitoring.run utc_toISOString
      [ChangeDeviceFilter "dev-1"; ToggleDateRange true]
      (mounted utc_toISOString) in
  let s1 := setDateStart "2025-01-01T00:00" s0 in
  let s2 := setDateEnd "2025-01-02T00:00" s1 in
  sent (Monitoring.loadData utc_toISOString s1)
    = sent s1 ++ [GetDeviceLatest "dev-1" 200]
  /\ sent (Monitoring.loadData utc_toISOString s2)
     = sent s2 ++ [GetRange "dev-1" "2025-01-01T00:00:00.000Z"
                     "2025-01-02T00:00:00.000Z"].
Proof.
  intros s0 s1 s2. split.
  - destruct (range_query_modes utc_toISOString s1 eq_refl eq_refl) as [H _].
    destruct (H eq_refl) as (_ & E & _). exact E.
  - destruct (range_query_modes utc_toISOString s2 eq_refl eq_refl) as [_ H].
    destruct (H _ _ eq_refl eq_refl eq_refl eq_refl) as [_ E]. exact E.
Defined.

Lemma malformed_event_dropped_witness :
  let doc := JObj [("device_id", JNum 7);
                   ("timestamp", JStr "2025-01-01T12:00:00Z")] in
  data (Monitoring.step utc_toISOString (SocketDeviceData doc)
          (mounted utc_toISOString))
  = data (mounted utc_toISOString).
Proof.
  intros doc.
  destruct (malformed_event_dropped utc_toISOString doc
              (mounted utc_toISOString) eq_refl) as (_ & E & _).
  exact E.
Defined.

Lemma live_sample_is_prepended_witness :
  let doc := JObj [("device_id", JStr "dev-1");
                   ("timestamp", JStr "1999-12-31T23:59:59Z");
                   ("temperature", JNum 21)] in
  let row := reading "dev-1" "1999-12-31T23:59:59Z" 21 in
  let full :=
    applyBatch (repeat (reading "dev-2" "2025-01-01T12:00:00Z" 19) 200)
      (mounted utc_toISOString) in
  data (Monitoring.step utc_toISOString (SocketDeviceData doc) full)
  = row :: removelast (data full).
Proof.
  intros doc row full.
  destruct (live_sample_is_prepended utc_toISOString doc row full eq_refl)
    as (_ & _ & _ & _ & E).
  apply E. vm_compute. reflexivity.
Defined.

End MonitoringRuns.

(* ================================================================== *)
(** * Properties of the weather page *)

Section WeatherFacts.

Import Weather.

(** ** Promise bookkeeping *)

Lemma pending_app_fresh id k l :
  pending id l = None -> pending id (l ++ [(id, k)]) = Some k.
Proof.
  induction l as [|[i k'] l IH]; cbn.
  - intros _. rewrite Nat.eqb_refl. reflexivity.
  - destruct (Nat.eqb i id); [discriminate|]. exact IH.
Qed.

Lemma pending_app_other id j k l :
  j <> id -> pending id (l ++ [(j, k)]) = pending id l.
Proof.
  intros Hne. induction l as [|[i k'] l IH]; cbn.
  - destruct (Nat.eqb_spec j id); [contradiction|reflexivity].
  - destruct (Nat.eqb i id); [reflexivity|]. exact IH.
Qed.

Lemma pending_filter_other id j l :
  j <> id ->
  pending id (filter (fun p => negb (Nat.eqb (fst p) j)) l) = pending id l.
Proof.
  intros Hne. induction l as [|[i k'] l IH]; cbn; [reflexivity|].
  destruct (Nat.eqb_spec i j) as [->|Hij]; cbn.
  - destruct (Nat.eqb_spec j id); [contradiction|]. exact IH.
  - rewrite IH. reflexivity.
Qed.

Lemma pending_filter_same id l :
  pending id (filter (fun p => negb (Nat.eqb (fst p) id)) l) = None.
Proof.
  induction l as [|[i k'] l IH]; cbn; [reflexivity|].
  destruct (Nat.eqb_spec i id) as [->|Hij]; cbn; [exact IH|].
  destruct (Nat.eqb_spec i id); [contradiction|]. exact IH.
Qed.

Lemma allocate_objects found s :
  map snd (allocate found s) = found.
Proof.
  unfold allocate. generalize (next_ref s).
  induction found as [|c found IH]; intros n; cbn; [reflexivity|].
  rewrite IH. reflexivity.
Qed.

Lemma isEmpty_nil {A} (l : list A) : isEmpty l = true <-> l = [].
Proof. destruct l; cbn; split; congruence. Qed.

Lemma ids_below_fresh s : ids_below s -> fresh_ids s.
Proof.
  unfold ids_below, fresh_ids. intros H i Hi.
  induction (inflight s) as [|[j k] l IH]; [reflexivity|].
  inversion H as [|p l' Hj Hl]; subst. cbn [fst] in Hj. cbn [pending].
  destruct (Nat.eqb_spec j i); [lia|]. apply IH. exact Hl.
Qed.

(** Reads a cell through the writes stacked on a state. *)
Ltac cells :=
  cbn [cityQuery citySuggestions selectedCity suggestionsOpen searching
    searchError searchTimeoutRef loading error retryCount
    forecast analysis weatherAwareDeviceId weatherAware prediction24hDeviceId
    prediction24h now sent inflight next_id
    next_ref forecastLive analysisLive upd_cityQuery upd_citySuggestions
    upd_selectedCity upd_suggestionsOpen upd_searching upd_searchError upd_searchTimeoutRef
    upd_loading upd_error upd_retryCount upd_forecast upd_analysis
    upd_weatherAwareDeviceId upd_weatherAware upd_prediction24hDeviceId upd_prediction24h upd_now
    upd_sent upd_inflight upd_next_id upd_next_ref upd_forecastLive
    upd_analysisLive setCityQuery setCitySuggestions setSelectedCity setSuggestionsOpen
    setSearching setSearchError setSearchTimeoutRef setLoading setError
    setRetryCount setForecastData setForecastLoading setForecastError setAnalysisData
    setAnalysisLoading setAnalysisError setWeatherAwareDeviceId setWeatherAwareResult setWeatherAwareLoading
    setWeatherAwareError setPrediction24hDeviceId setPrediction24hData setPrediction24hLoading setPrediction24hError
    settled await settled issue showSuggestions
    selectCity p_setData p_setLoading p_setError].

(** Splits on the conditions a handler tests. *)
Ltac branch :=
  repeat (cells;
          match goal with
          | |- context [if ?b then _ else _] => destruct b eqn:?
          | |- context [match ?x with _ => _ end] => destruct x eqn:?
          end).

Lemma Forall_parked {A} (n : nat) (k : A) (l : list (nat * A)) :
  Forall (fun p => fst p < n) l ->
  Forall (fun p => fst p < S n) (l ++ [(n, k)]).
Proof.
  intros H. apply Forall_app. split.
  - eapply Forall_impl; [|exact H]. cbn. intros p Hp. lia.
  - constructor; [cbn; lia|constructor].
Qed.

Lemma Forall_kept {A} (P : A -> Prop) (f : A -> bool) (l : list A) :
  Forall P l -> Forall P (filter f l).
Proof.
  intros H. induction l as [|x l IH]; [constructor|].
  inversion H as [|x' l' Hx Hl]; subst. cbn [filter].
  destruct (f x); [constructor; [exact Hx|]|]; apply IH; exact Hl.
Qed.

Ltac ids :=
  unfold ids_below in *; cells;
  repeat first [assumption | apply Forall_parked | apply Forall_kept].

Lemma ids_below_step e s : ids_below s -> ids_below (step e s).
Proof.
  intros H.
  destruct e; cbn [step].
  - unfold onInputChange; branch; ids.
  - unfold elapse, fetchSuggestions; branch; ids.
  - unfold resume, forecast_resume, analysis_resume, fetchSuggestions_resume,
      fetchSuggestions_fallback, searchAndSelectFirst_resume,
      searchAndSelectFirst_fallback, fetchWeatherAwarePrediction_resume,
      fetchPrediction24h_resume, selectFirst, chooseCity, commit,
      weather_effect, forecast_effect, analysis_effect; branch; ids.
  - unfold chooseCity, commit, weather_effect, forecast_effect,
      analysis_effect; branch; ids.
  - unfold searchAndSelectFirst, chooseCity, commit, weather_effect,
      forecast_effect, analysis_effect; branch; ids.
  - unfold searchAndSelectFirst; branch; ids.
  - unfold commit, weather_effect, forecast_effect, analysis_effect;
      branch; ids.
  - ids.
  - unfold fetchWeatherAwarePrediction; branch; ids.
  - ids.
  - unfold fetchPrediction24h; branch; ids.
Qed.

Lemma ids_below_run es : forall s, ids_below s -> ids_below (run es s).
Proof.
  induction es as [|e es IH]; intros s H; [exact H|].
  cbn [run]. apply IH. apply ids_below_step. exact H.
Qed.

Lemma ids_below_mounted : ids_below mounted.
Proof. unfold ids_below. cbn. repeat constructor. Qed.

(** In every state the page can reach, the ids not handed out yet are free. *)
Lemma reachable_fresh_ids es : fresh_ids (run es mounted).
Proof. apply ids_below_fresh, ids_below_run, ids_below_mounted. Qed.

(** ** Object numbers *)

Lemma refs_ok_clear sel offered n :
  refs_ok sel offered n -> refs_ok sel [] n.
Proof.
  unfold refs_ok. intros [_ H]. split; [constructor|].
  destruct sel as [[i c]|]; [|exact I]. split; [apply H|constructor].
Qed.

Lemma refs_ok_show sel offered n found :
  refs_ok sel offered n ->
  refs_ok sel (combine (seq n (List.length found)) found) (n + List.length found).
Proof.
  unfold refs_ok. intros [_ H].
  assert (R : Forall (fun c : nat * CitySuggestion =>
                        n <= fst c < n + List.length found)
                (combine (seq n (List.length found)) found)).
  { generalize n. induction found as [|c found IH]; intros m; cbn; constructor.
    - cbn. lia.
    - eapply Forall_impl; [|apply IH]. cbn. intros p Hp. lia. }
  split.
  - eapply Forall_impl; [|exact R]. cbn. intros p Hp. lia.
  - destruct sel as [[i c]|]; [|exact I]. destruct H as [Hi _].
    split; [lia|]. eapply Forall_impl; [|exact R]. cbn. intros p Hp. lia.
Qed.

Lemma refs_ok_choose sel offered n c :
  refs_ok sel offered n -> In c offered -> refs_ok (Some c) [] n.
Proof.
  unfold refs_ok. intros [H _] Hin. split; [constructor|].
  destruct c as [i c]. split; [|constructor].
  rewrite Forall_forall in H. exact (H _ Hin).
Qed.

Lemma refs_ok_first sel offered n c len :
  refs_ok sel offered n -> 0 < len -> refs_ok (Some (n, c)) [] (n + len).
Proof.
  unfold refs_ok. intros _ Hlen. split; [constructor|].
  split; [lia|constructor].
Qed.

Ltac refs H :=
  unfold refs_below in *; unfold allocate; cells;
  first [ exact H
        | exact (refs_ok_clear _ _ _ H)
        | exact (refs_ok_show _ _ _ _ H)
        | apply (refs_ok_first _ _ _ _ _ H); cbn; lia
        | apply (refs_ok_choose _ _ _ _ H);
          first [ eapply nth_error_In; eassumption
                | match goal with
                  | E : citySuggestions _ = _ :: _ |- _ =>
                      rewrite E; left; reflexivity
                  end ] ].

Lemma refs_below_step e s : refs_below s -> refs_below (step e s).
Proof.
  intros H.
  destruct e; cbn [step].
  - unfold onInputChange; branch; refs H.
  - unfold elapse, fetchSuggestions; branch; refs H.
  - unfold resume, forecast_resume, analysis_resume, fetchSuggestions_resume,
      fetchSuggestions_fallback, searchAndSelectFirst_resume,
      searchAndSelectFirst_fallback, fetchWeatherAwarePrediction_resume,
      fetchPrediction24h_resume, selectFirst, chooseCity, commit,
      weather_effect, forecast_effect, analysis_effect; branch; refs H.
  - unfold chooseCity, commit, weather_effect, forecast_effect,
      analysis_effect; branch; refs H.
  - unfold searchAndSelectFirst, chooseCity, commit, weather_effect,
      forecast_effect, analysis_effect; branch; refs H.
  - unfold searchAndSelectFirst; branch; refs H.
  - unfold commit, weather_effect, forecast_effect, analysis_effect;
      branch; refs H.
  - refs H.
  - unfold fetchWeatherAwarePrediction; branch; refs H.
  - refs H.
  - unfold fetchPrediction24h; branch; refs H.
Qed.

Lemma refs_below_run es : forall s, refs_below s -> refs_below (run es s).
Proof.
  induction es as [|e es IH]; intros s H; [exact H|].
  cbn [run]. apply IH. apply refs_below_step. exact H.
Qed.

Lemma refs_below_mounted : refs_below mounted.
Proof. unfold refs_below, refs_ok. cbn. repeat constructor. Qed.

(** In a state the page can reach, the suggestion that is picked is never
    the object already selected: picking one replaces the selection. *)
Lemma picked_suggestion_is_new es idx c :
  nth_error (citySuggestions (run es mounted)) idx = Some c ->
  same_object (selectedCity (run es mounted)) (Some c) = false.
Proof.
  intros Hc.
  pose proof (refs_below_run es mounted refs_below_mounted) as [_ H].
  destruct (selectedCity (run es mounted)) as [[i ci]|]; [|reflexivity].
  destruct H as [_ H]. rewrite Forall_forall in H.
  specialize (H c (nth_error_In _ _ Hc)). destruct c as [j cj]. cbn in *.
  destruct (Nat.eqb_spec i j); [congruence|reflexivity].
Qed.

(** ** The settle timer *)

Lemma onInputChange_sent v s : sent (onInputChange v s) = sent s.
Proof. unfold onInputChange. destruct (blank v); reflexivity. Qed.

Lemma onInputChange_now v s : now (onInputChange v s) = now s.
Proof. unfold onInputChange. destruct (blank v); reflexivity. Qed.

Lemma onInputChange_timer v s :
  searchTimeoutRef (onInputChange v s)
  = if blank v then None else Some (now s + SEARCH_DEBOUNCE_MS, v).
Proof. unfold onInputChange. destruct (blank v); reflexivity. Qed.

Lemma elapse_before_deadline v dt s :
  armed_for v s -> dt < SEARCH_DEBOUNCE_MS ->
  elapse dt s = upd_now (fun t => t + dt) s.
Proof.
  unfold armed_for, elapse. intros -> Hdt.
  destruct (blank v); [reflexivity|].
  destruct (Nat.leb_spec (now s + SEARCH_DEBOUNCE_MS) (now s + dt)); [lia|].
  reflexivity.
Qed.

Lemma last_cons {A} (l : list A) : forall a d, last (a :: l) d = last l a.
Proof.
  induction l as [|b l IH]; intros a d; [reflexivity|].
  change (last (a :: b :: l) d) with (last (b :: l) d).
  rewrite !IH. reflexivity.
Qed.

Lemma typing_keeps_quiet ks : forall v s,
  armed_for v s ->
  Forall (fun k => fst k < SEARCH_DEBOUNCE_MS) ks ->
  sent (typing ks s) = sent s
  /\ armed_for (last (map snd ks) v) (typing ks s).
Proof.
  induction ks as [|[gap w] ks IH]; intros v s Harm Hgaps.
  - split; [reflexivity|exact Harm].
  - inversion Hgaps as [|k ks' Hgap Hrest]; subst. cbn [fst] in Hgap.
    cbn [typing]. unfold keystroke. cbn [fst snd step].
    rewrite (elapse_before_deadline v gap s Harm Hgap).
    set (s1 := onInputChange w (upd_now (fun t => t + gap) s)).
    assert (Harm1 : armed_for w s1).
    { unfold armed_for, s1. rewrite onInputChange_timer, onInputChange_now.
      reflexivity. }
    destruct (IH w s1 Harm1 Hrest) as [Hsent Hlast].
    split.
    + rewrite Hsent. unfold s1. rewrite onInputChange_sent. reflexivity.
    + cbn [map snd]. rewrite last_cons. exact Hlast.
Qed.

Lemma elapse_armed v dt s :
  armed_for v s ->
  sent (elapse dt s)
  = sent s ++ (if (SEARCH_DEBOUNCE_MS <=? dt) && negb (blank v)
               then [GetSearchCity (trim v) 10] else []).
Proof.
  unfold armed_for, elapse. intros ->.
  destruct (blank v) eqn:Hv.
  - rewrite andb_false_r, app_nil_r. reflexivity.
  - rewrite andb_true_r.
    destruct (Nat.leb_spec (now s + SEARCH_DEBOUNCE_MS) (now s + dt)) as [H|H];
      destruct (Nat.leb_spec SEARCH_DEBOUNCE_MS dt) as [H'|H']; try lia.
    + unfold fetchSuggestions. rewrite Hv. reflexivity.
    + rewrite app_nil_r. reflexivity.
Qed.

(** C7.  Keystrokes that follow one another by less than
    [SEARCH_DEBOUNCE_MS] = 350 ms send nothing while they last; afterwards
    at most one search leaves, once 350 ms have passed without a keystroke,
    and it asks for the final value of the input (trimmed, as every search
    is).  A blank value clears the suggestions at once, disarms the timer
    and never reaches the network. *)
Theorem debounced_search s v0 ks rest :
  Forall (fun k => fst k < SEARCH_DEBOUNCE_MS) ks ->
  let v := final_value v0 ks in
  let s1 := typing ks (step (InputChange v0) s) in
  sent s1 = sent s
  /\ sent (step (Elapse rest) s1)
     = sent s ++ (if (SEARCH_DEBOUNCE_MS <=? rest) && negb (blank v)
                  then [GetSearchCity (trim v) 10] else [])
  /\ List.length (sent (step (Elapse rest) s1)) <= S (List.length (sent s))
  /\ (forall w s', blank w = true ->
        let s0 := step (InputChange w) s' in
        citySuggestions s0 = [] /\ suggestionsOpen s0 = false
        /\ searchTimeoutRef s0 = None /\ sent s0 = sent s'
        /\ forall dt, sent (step (Elapse dt) s0) = sent s').
Proof.
  intros Hgaps v s1.
  assert (Harm0 : armed_for v0 (step (InputChange v0) s)).
  { unfold armed_for. cbn [step].
    rewrite onInputChange_timer, onInputChange_now. reflexivity. }
  destruct (typing_keeps_quiet ks v0 _ Harm0 Hgaps) as [Hsent Harm].
  fold (final_value v0 ks) in Harm. fold v in Harm. fold s1 in Hsent, Harm.
  assert (Hquiet : sent s1 = sent s).
  { rewrite Hsent. cbn [step]. apply onInputChange_sent. }
  assert (Hfire : sent (step (Elapse rest) s1)
                  = sent s ++ (if (SEARCH_DEBOUNCE_MS <=? rest) && negb (blank v)
                               then [GetSearchCity (trim v) 10] else [])).
  { cbn [step]. rewrite (elapse_armed v rest s1 Harm), Hquiet. reflexivity. }
  split; [exact Hquiet|]. split; [exact Hfire|]. split.
  - rewrite Hfire, length_app.
    destruct (_ && _); cbn [List.length]; lia.
  - intros w s' Hw s0.
    assert (Hs0 : s0 = setSuggestionsOpen false
                         (setCitySuggestions []
                            (setSearchTimeoutRef None
                               (setSearchError None
                                  (setError None (setCityQuery (JStr w) s')))))).
    { unfold s0. cbn [step]. unfold onInputChange. rewrite Hw. reflexivity. }
    rewrite Hs0. repeat split.
Qed.

(** ** The two sources of the city search *)

Lemma NO_CITY_FOUND_distinct q : NO_CITY_FOUND q <> SEARCH_UNAVAILABLE.
Proof. unfold NO_CITY_FOUND, SEARCH_UNAVAILABLE. cbn. discriminate. Qed.

(** Settling the promise a search has just parked runs its continuation. *)
Lemma settle_parked req k r s :
  fresh_ids s ->
  well_kinded k r = true ->
  step (Settle (next_id s) r) (await req k s)
  = resume (next_id s) k r (settled (next_id s) (await req k s)).
Proof.
  intros Hfresh Hk. cbn [step].
  replace (pending (next_id s) (inflight (await req k s))) with (Some k).
  - rewrite Hk. reflexivity.
  - symmetry. apply (pending_app_fresh (next_id s) k (inflight s)).
    apply Hfresh. lia.
Qed.

Lemma settled_await_fresh req k s :
  fresh_ids s -> fresh_ids (settled (next_id s) (await req k s)).
Proof.
  intros Hfresh i Hi. cbn in Hi. cbn [settled await issue inflight upd_inflight
    upd_next_id upd_sent].
  rewrite pending_filter_other by lia.
  rewrite pending_app_other by lia.
  apply Hfresh. lia.
Qed.

Lemma showSuggestions_cells value found s :
  map snd (citySuggestions (showSuggestions value found s)) = found
  /\ suggestionsOpen (showSuggestions value found s) = negb (isEmpty found)
  /\ searchError (showSuggestions value found s)
     = (if isEmpty found then Some (NO_CITY_FOUND (trim value)) else None)
  /\ sent (showSuggestions value found s) = sent s.
Proof.
  repeat split. cbn. apply allocate_objects.
Qed.

(** C8.  The public source is read more loosely than the backend, and
    what it lets through is not a [CitySuggestion].  With the backend
    failing, a public answer whose only entry carries the number 5 as its
    name reaches the suggestion list, which opens without a message, as a
    suggestion named 5, where the name of a [CitySuggestion] is a string;
    the backend's reader drops the very same entry.  Picking that
    suggestion stores 5 in [cityQuery], and on such a [cityQuery] the
    search button of the next render does not evaluate. *)
Theorem public_answer_keeps_nonstring_name :
  let entry := JObj [("name", JNum (5 # 1)); ("latitude", JNum (1 # 1));
                     ("longitude", JNum (2 # 1))] in
  let answer := FetchResponse true (Some (JObj [("results", JArr [entry])])) in
  let s := run [InputChange "Fe"; Elapse 350; Settle 2 Rejected;
                Settle 3 answer] mounted in
  let odd := {| name := JNum (5 # 1); country := None;
                latitude := 1 # 1; longitude := 2 # 1 |} in
  sent s = sent mounted ++ [GetSearchCity "Fe" 10; OpenMeteoGeocoding "Fe" 10]
  /\ citySuggestions s = [(1, odd)]
  /\ (suggestionsOpen s = true /\ searchError s = None
      /\ searching s = false)
  /\ search_button_renders s = true
  /\ normalizeSuggestions (JArr [entry]) = []
  /\ normalizeSuggestions (JObj [("results", JArr [entry])]) = []
  /\ cityQuery (selectCity (1, odd) s) = JNum (5 # 1)
  /\ search_button_renders (selectCity (1, odd) s) = false.
Proof. vm_compute. repeat split. Qed.

(** A search asks the backend first and nobody else.  When the backend
    answers, the public source is not consulted; when the backend fails,
    the same query goes to the public geocoding source.  The list on
    display is the reading of whichever source answered
    ([normalizeSuggestions] for the backend, [fetchCitiesOpenMeteo] for the
    public source); an answer without matches leaves the list empty under
    the message "Aucune ville trouvée pour « q »", and the message
    "Recherche indisponible." appears only when the backend failed and the
    public source failed after it.  The two messages differ. *)
Theorem city_search_sources value s :
  blank value = false ->
  fresh_ids s ->
  let p := next_id s in
  let s1 := fetchSuggestions value s in
  sent s1 = sent s ++ [GetSearchCity (trim value) 10]
  /\ (forall body,
        let s2 := step (Settle p (Fulfilled body)) s1 in
        sent s2 = sent s1
        /\ map snd (citySuggestions s2) = normalizeSuggestions body
        /\ searchError s2
           = (if isEmpty (normalizeSuggestions body)
              then Some (NO_CITY_FOUND (trim value)) else None)
        /\ searchError s2 <> Some SEARCH_UNAVAILABLE)
  /\ (let s2 := step (Settle p Rejected) s1 in
      sent s2 = sent s1 ++ [OpenMeteoGeocoding (trim value) 10]
      /\ forall r,
           well_kinded (KSearchFallback value) r = true ->
           let s3 := step (Settle (S p) r) s2 in
           sent s3 = sent s2
           /\ match fetchCitiesOpenMeteo_resume r with
              | Some found =>
                  map snd (citySuggestions s3) = found
                  /\ searchError s3
                     = (if isEmpty found
                        then Some (NO_CITY_FOUND (trim value)) else None)
              | None =>
                  citySuggestions s3 = []
                  /\ searchError s3 = Some SEARCH_UNAVAILABLE
              end)
  /\ (forall q, NO_CITY_FOUND q <> SEARCH_UNAVAILABLE).
Proof.
  intros Hv Hfresh p s1.
  set (s0 := setSearchError None (setSearching true s)).
  set (a1 := await (GetSearchCity (trim value) 10) (KSearch value) s0).
  assert (E1 : s1 = a1).
  { unfold s1, fetchSuggestions. rewrite Hv. reflexivity. }
  clearbody s1. subst s1.
  assert (Hfresh0 : fresh_ids s0) by exact Hfresh.
  assert (S1 : forall r, well_kinded (KSearch value) r = true ->
                 step (Settle p r) a1
                 = resume p (KSearch value) r (settled p a1)).
  { intros r Hr.
    exact (settle_parked (GetSearchCity (trim value) 10) (KSearch value)
             r s0 Hfresh0 Hr). }
  split; [reflexivity|].
  split; [|split; [|exact NO_CITY_FOUND_distinct]].
  - intros body s2. unfold s2. rewrite (S1 (Fulfilled body) eq_refl).
    cbn [resume fetchSuggestions_resume].
    destruct (showSuggestions_cells value (normalizeSuggestions body)
                (settled p a1)) as (Hc & _ & He & Hs).
    split; [exact Hs|]. split; [exact Hc|]. split; [exact He|].
    change (searchError
              (showSuggestions value (normalizeSuggestions body) (settled p a1))
            <> Some SEARCH_UNAVAILABLE).
    rewrite He. destruct (isEmpty _); [|discriminate].
    intros H. apply (NO_CITY_FOUND_distinct (trim value)).
    exact (f_equal (fun o => match o with
                             | Some m => m
                             | None => SEARCH_UNAVAILABLE
                             end) H).
  - intros s2. unfold s2. rewrite (S1 Rejected eq_refl).
    cbn [resume fetchSuggestions_resume].
    set (t := settled p a1).
    assert (Htf : fresh_ids t).
    { exact (settled_await_fresh (GetSearchCity (trim value) 10)
               (KSearch value) s0 Hfresh0). }
    assert (Htn : next_id t = S p) by reflexivity.
    split; [reflexivity|].
    intros r Hr. rewrite <- Htn.
    rewrite (settle_parked (OpenMeteoGeocoding (trim value) 10)
               (KSearchFallback value) r t Htf Hr).
    cbn [resume]. unfold fetchSuggestions_fallback.
    destruct (fetchCitiesOpenMeteo_resume r) as [found|].
    + match goal with
      | |- context [showSuggestions value found ?u] =>
          destruct (showSuggestions_cells value found u) as (Hc & _ & He & Hs)
      end.
      split; [exact Hs|]. split; [exact Hc|exact He].
    + repeat split.
Qed.

(** ** Panels keyed by the city, panels keyed by a device *)

Ltac split_matches :=
  repeat match goal with
         | |- context [match ?x with _ => _ end] => destruct x; cbn
         end.

Lemma weather_effect_device_panels s :
  device_panels (weather_effect s) = device_panels s.
Proof. unfold weather_effect. destruct (selectedCity s) as [[i c]|]; reflexivity. Qed.

Lemma forecast_effect_device_panels s :
  device_panels (forecast_effect s) = device_panels s.
Proof. unfold forecast_effect. destruct (selectedCity s) as [[i c]|]; reflexivity. Qed.

Lemma analysis_effect_device_panels s :
  device_panels (analysis_effect s) = device_panels s.
Proof. unfold analysis_effect. destruct (selectedCity s) as [[i c]|]; reflexivity. Qed.

Lemma commit_device_panels before after :
  device_panels (commit before after) = device_panels after.
Proof.
  unfold commit.
  destruct (negb (same_object (selectedCity before) (selectedCity after)));
    destruct (negb (Nat.eqb (retryCount before) (retryCount after)));
    cbn [orb];
    rewrite ?analysis_effect_device_panels, ?forecast_effect_device_panels,
      ?weather_effect_device_panels; reflexivity.
Qed.

Lemma chooseCity_device_panels c s :
  device_panels (chooseCity c s) = device_panels s.
Proof. unfold chooseCity. rewrite commit_device_panels. reflexivity. Qed.

Lemma showSuggestions_device_panels value found s :
  device_panels (showSuggestions value found s) = device_panels s.
Proof. reflexivity. Qed.

Lemma selectFirst_device_panels q found s :
  device_panels (selectFirst q found s) = device_panels s.
Proof.
  unfold selectFirst. destruct found as [|c found]; [reflexivity|].
  rewrite chooseCity_device_panels. reflexivity.
Qed.

Lemma searchAndSelectFirst_device_panels s :
  device_panels (searchAndSelectFirst s) = device_panels s.
Proof.
  unfold searchAndSelectFirst. split_matches; reflexivity.
Qed.

(** No event but those of the device-keyed panels writes their cells. *)
Lemma device_panels_frame e s :
  device_panel_event e s = false ->
  device_panels (step e s) = device_panels s.
Proof.
  destruct e; cbn [device_panel_event step]; try discriminate; intros He.
  - unfold onInputChange. destruct (blank value); reflexivity.
  - unfold elapse, fetchSuggestions. split_matches; reflexivity.
  - destruct (pending id (inflight s)) as [k|]; [|reflexivity].
    destruct (well_kinded k r); [|reflexivity].
    destruct k; try discriminate; cbn [resume].
    + unfold forecast_resume. split_matches; reflexivity.
    + unfold analysis_resume. split_matches; reflexivity.
    + unfold fetchSuggestions_resume. destruct r; reflexivity.
    + unfold fetchSuggestions_fallback.
      destruct (fetchCitiesOpenMeteo_resume r); reflexivity.
    + unfold searchAndSelectFirst_resume. destruct r; try reflexivity.
      change (device_panels
                (selectFirst q (normalizeSuggestions body) (settled id s))
              = device_panels s).
      rewrite selectFirst_device_panels. reflexivity.
    + unfold searchAndSelectFirst_fallback.
      destruct (fetchCitiesOpenMeteo_resume r) as [found|]; [|reflexivity].
      change (device_panels (selectFirst q found (settled id s))
              = device_panels s).
      rewrite selectFirst_device_panels. reflexivity.
  - destruct (nth_error (citySuggestions s) idx); [|reflexivity].
    apply chooseCity_device_panels.
  - destruct (citySuggestions s).
    + apply searchAndSelectFirst_device_panels.
    + apply chooseCity_device_panels.
  - destruct (cityQuery s); try reflexivity.
    destruct (searching s || blank s0); [reflexivity|].
    apply searchAndSelectFirst_device_panels.
  - rewrite commit_device_panels. reflexivity.
Qed.


Lemma selectCity_selected c s : selectedCity (selectCity c s) = Some c.
Proof. reflexivity. Qed.

Lemma chooseCity_replacing c s :
  same_object (selectedCity s) (Some c) = false ->
  chooseCity c s
  = analysis_effect (forecast_effect (weather_effect (selectCity c s))).
Proof.
  intros H. unfold chooseCity, commit.
  rewrite selectCity_selected, H. cbn [negb]. rewrite orb_true_r.
  reflexivity.
Qed.

End WeatherFacts.

(* ================================================================== *)
(** * Guards of the prediction fetches *)

(** C10.  A prediction fetch whose precondition is unmet does nothing: the
    state it returns is the state it was given, request log included.  The
    precondition is a device id that is not blank and, for the weather-aware
    and the 24 h panels, a selected city. *)
Theorem unmet_precondition_is_noop
    (m : Monitoring.state) (w : Weather.state) :
  (blank (Monitoring.predictDeviceId m) = true ->
     Monitoring.fetchPrediction m = m)
  /\ (Weather.selectedCity w = None
      \/ blank (Weather.weatherAwareDeviceId w) = true ->
      Weather.fetchWeatherAwarePrediction w = w)
  /\ (Weather.selectedCity w = None
      \/ blank (Weather.prediction24hDeviceId w) = true ->
      Weather.fetchPrediction24h w = w).
Proof.
  split; [|split].
  - intros H. unfold Monitoring.fetchPrediction. rewrite H. reflexivity.
  - intros H. unfold Weather.fetchWeatherAwarePrediction.
    destruct (Weather.selectedCity w) as [[i c]|]; [|reflexivity].
    destruct H as [H|H]; [discriminate|]. rewrite H. reflexivity.
  - intros H. unfold Weather.fetchPrediction24h.
    destruct (Weather.selectedCity w) as [[i c]|]; [|reflexivity].
    destruct H as [H|H]; [discriminate|]. rewrite H. reflexivity.
Qed.

(** ** Concrete runs of the weather page *)

Section WeatherRuns.

Import Weather.

Lemma mounted_fresh_ids : fresh_ids mounted.
Proof.
  intros i Hi. cbn in Hi. cbn.
  destruct i as [|[|i]]; try lia. reflexivity.
Qed.

Lemma debounced_search_witness :
  sent (step (Elapse 350)
          (typing [(100, "Pa"); (120, "Par")] (step (InputChange "P") mounted)))
  = sent mounted ++ [GetSearchCity "Par" 10].
Proof.
  refine (proj1 (proj2 (debounced_search mounted "P" [(100, "Pa"); (120, "Par")]
                          350 _))).
  repeat constructor; cbn; unfold SEARCH_DEBOUNCE_MS; lia.
Defined.

Lemma city_search_sources_witness :
  let paris := JObj [("name", JStr "Paris"); ("country", JStr "France");
                     ("latitude", JNum (488566 # 10000));
                     ("longitude", JNum (23522 # 10000))] in
  let s1 := fetchSuggestions "Paris" mounted in
  let s2 := step (Settle 2 (Fulfilled (JArr [paris]))) s1 in
  let t2 := step (Settle 2 Rejected) s1 in
  let t3 := step (Settle 3 (FetchResponse true
                              (Some (JObj [("results", JArr [paris])])))) t2 in
  sent s1 = sent mounted ++ [GetSearchCity "Paris" 10]
  /\ (sent s2 = sent s1 /\ map snd (citySuggestions s2) = [PARIS]
      /\ searchError s2 = None)
  /\ sent t2 = sent s1 ++ [OpenMeteoGeocoding "Paris" 10]
  /\ (sent t3 = sent t2 /\ map snd (citySuggestions t3) = [PARIS]
      /\ searchError t3 = None).
Proof.
  intros paris s1 s2 t2 t3.
  destruct (city_search_sources "Paris" mounted eq_refl mounted_fresh_ids)
    as (E1 & H & (E2 & Hf) & _).
  destruct (H (JArr [paris])) as (Hs & Hc & He & _).
  destruct (Hf (FetchResponse true (Some (JObj [("results", JArr [paris])])))
              eq_refl) as (Hs' & Hc' & He').
  split; [exact E1|]. split; [split; [exact Hs|split; [exact Hc|exact He]]|].
  split; [exact E2|]. split; [exact Hs'|split; [exact Hc'|exact He']].
Defined.

Lemma unmet_precondition_is_noop_witness :
  Monitoring.fetchPrediction (Monitoring.mounted Monitoring.utc_toISOString)
  = Monitoring.mounted Monitoring.utc_toISOString
  /\ fetchWeatherAwarePrediction mounted = mounted
  /\ fetchPrediction24h mounted = mounted.
Proof.
  destruct (unmet_precondition_is_noop
              (Monitoring.mounted Monitoring.utc_toISOString) mounted)
    as (H1 & H2 & H3).
  split; [apply H1; reflexivity|].
  split; [apply H2; right; reflexivity|apply H3; right; reflexivity].
Defined.

End WeatherRuns.

(* ================================================================== *)
(** * Further properties of the monitoring page *)

Section MonitoringMore.

Import Monitoring.

Variable toISOString : string -> option string.

Local Abbreviation loadData := (Monitoring.loadData toISOString).
Local Abbreviation step := (Monitoring.step toISOString).
Local Abbreviation run := (Monitoring.run toISOString).

(** ** Bursts of live samples *)

Lemma firstn_app_firstn {A} (n : nat) (a b : list A) :
  firstn n (a ++ firstn n b) = firstn n (a ++ b).
Proof.
  rewrite !firstn_app, firstn_firstn.
  replace (Nat.min (n - List.length a) n) with (n - List.length a) by lia.
  reflexivity.
Qed.

Lemma run_app es1 es2 s : run (es1 ++ es2) s = run es2 (run es1 s).
Proof.
  revert s. induction es1 as [|e es1 IH]; intros s; [reflexivity|].
  cbn [app Monitoring.run]. apply IH.
Qed.

(** A burst of well-formed live samples leaves the window in order of
    arrival, latest first: the rows of the burst reversed, then the old
    window, cut to the capacity.  No timestamp is read. *)
Theorem live_burst_window docs rows s :
  Forall2 (fun doc row => decode doc = Some row) docs rows ->
  data (run (map SocketDeviceData docs) s)
  = match rows with
    | [] => data s
    | _ => slice0 CAPACITY (rev rows ++ data s)
    end.
Proof.
  intros H. revert s.
  induction H as [|doc row docs rows Hd Hrest IH]; intros s; [reflexivity|].
  cbn [map Monitoring.run Monitoring.step].
  assert (E : data (on_device_data doc s) = slice0 CAPACITY (row :: data s)).
  { unfold on_device_data. rewrite Hd. reflexivity. }
  rewrite IH, E. destruct rows as [|row' rows'].
  - reflexivity.
  - unfold slice0. rewrite firstn_app_firstn.
    cbn [rev]. rewrite <- !app_assoc. reflexivity.
Qed.

(** ** Failed and degenerate loads *)

(** A load that is rejected, or fulfilled with something that is not an
    array, empties the window and lowers the loading flag; it writes no
    error anywhere and sends nothing. *)
Theorem failed_load_clears_window id k r s :
  pending id (inflight s) = Some k ->
  k <> KPredict ->
  r = Rejected \/ r = LoadFulfilled None ->
  let s' := step (Settle id r) s in
  data s' = [] /\ loading s' = false
  /\ predictionError s' = predictionError s
  /\ prediction s' = prediction s
  /\ socketConnected s' = socketConnected s
  /\ sent s' = sent s.
Proof.
  intros Hp Hk Hr s'. subst s'. cbn [Monitoring.step]. rewrite Hp.
  destruct k; [| |contradiction]; destruct Hr as [-> | ->]; cbn;
    repeat split; reflexivity.
Qed.

(** In range mode with a device and both bounds, a bound that is no valid
    date keeps the query off the network: [toISOString] throws before the
    request is built, the window is emptied and the loading flag lowered. *)
Theorem invalid_range_date_sends_nothing s :
  useDateRange s = true ->
  blank (deviceFilter s) = false ->
  truthy (dateStart s) = true ->
  truthy (dateEnd s) = true ->
  toISOString (dateStart s) = None \/ toISOString (dateEnd s) = None ->
  sent (loadData s) = sent s
  /\ inflight (loadData s) = inflight s
  /\ data (loadData s) = []
  /\ loading (loadData s) = false.
Proof.
  intros Hr Hd Hs He Hbad. unfold blank in Hd. apply negb_false_iff in Hd.
  unfold Monitoring.loadData. rewrite Hr, Hd, Hs, He. cbn [andb].
  destruct Hbad as [H|H]; rewrite H.
  - repeat split.
  - destruct (toISOString (dateStart s)); repeat split.
Qed.

(** Without a device the query is the one over all devices, whatever the
    range box and the two bounds hold: a range needs a device. *)
Theorem no_device_queries_all s :
  blank (deviceFilter s) = true ->
  loadData s = await (GetAllLatest 200) KLatest (setLoading true s)
  /\ sent (loadData s) = sent s ++ [GetAllLatest 200].
Proof.
  intros Hd. unfold blank in Hd. apply negb_true_iff in Hd.
  assert (E : loadData s = await (GetAllLatest 200) KLatest (setLoading true s)).
  { unfold Monitoring.loadData. rewrite Hd, andb_false_r. reflexivity. }
  rewrite E. split; reflexivity.
Qed.

(** ** Connectivity *)

Lemma loadData_frame s :
  socketConnected (loadData s) = socketConnected s
  /\ prediction (loadData s) = prediction s
  /\ predictionError (loadData s) = predictionError s
  /\ predictionLoading (loadData s) = predictionLoading s
  /\ predictDeviceId (loadData s) = predictDeviceId s
  /\ (inflight (loadData s) = inflight s
      \/ exists k, k <> KPredict
           /\ inflight (loadData s) = inflight s ++ [(next_id s, k)]).
Proof.
  unfold Monitoring.loadData.
  destruct (useDateRange s && truthy (trim (deviceFilter s))
            && truthy (dateStart s) && truthy (dateEnd s)).
  - destruct (toISOString (dateStart s)), (toISOString (dateEnd s));
      cbn; repeat split; auto.
    right. exists KRange. split; [discriminate|reflexivity].
  - destruct (truthy (trim (deviceFilter s))); cbn; repeat split;
      right; exists KLatest; (split; [discriminate|reflexivity]).
Qed.

Lemma step_signal e s :
  socketConnected (step e s)
  = match signal e with Some v => v | None => socketConnected s end.
Proof.
  destruct e; cbn [Monitoring.step signal].
  - destruct (loading s); [reflexivity|]. apply loadData_frame.
  - unfold refilter. destruct (negb _); [|reflexivity].
    apply (loadData_frame (setDeviceFilter v s)).
  - unfold refilter. destruct (negb _); [|reflexivity].
    apply (loadData_frame (setUseDateRange b s)).
  - unfold refilter. destruct (negb _); [|reflexivity].
    apply (loadData_frame (setDateStart v s)).
  - unfold refilter. destruct (negb _); [|reflexivity].
    apply (loadData_frame (setDateEnd v s)).
  - destruct (pending id (inflight s)) as [[| |]|]; destruct r; reflexivity.
  - reflexivity.
  - reflexivity.
  - unfold on_device_data. destruct (decode doc); reflexivity.
  - destruct transport_connected; reflexivity.
  - reflexivity.
  - destruct (_ || _); [reflexivity|].
    unfold fetchPrediction. destruct (blank _); reflexivity.
Qed.

(** The connectivity shown is the last thing the push channel said: a
    connect, a sample (well-formed or not) or a liveness tick on a connected
    transport raise it, a disconnect lowers it, and no REST activity (filter
    change, refresh, answer, prediction) touches it. *)
Theorem connectivity_follows_last_signal es s :
  socketConnected (run es s) = last_signal es (socketConnected s).
Proof.
  revert s. induction es as [|e es IH]; intros s; [reflexivity|].
  cbn [Monitoring.run]. unfold last_signal. cbn [fold_left].
  rewrite IH, step_signal. reflexivity.
Qed.

(** ** The prediction panel *)

Lemma filter_filter_le {A} (g f : A -> bool) (l : list A) :
  List.length (filter g (filter f l)) <= List.length (filter g l).
Proof.
  induction l as [|x l IH]; [reflexivity|].
  cbn [filter]. destruct (f x), (g x) eqn:Hg; cbn [filter List.length];
    rewrite ?Hg; cbn [List.length]; lia.
Qed.

Lemma predicting_settled id s : predicting (settled id s) <= predicting s.
Proof. unfold predicting. cbn. apply filter_filter_le. Qed.

Lemma predicting_settled_lt id s :
  pending id (inflight s) = Some KPredict ->
  predicting (settled id s) < predicting s.
Proof.
  unfold predicting. cbn [settled inflight].
  induction (inflight s) as [|[i k] l IH]; [discriminate|].
  cbn [pending filter fst]. destruct (Nat.eqb i id) eqn:E.
  - intros H. injection H as ->. cbn [negb is_predict snd List.length].
    pose proof (filter_filter_le is_predict
                  (fun p => negb (Nat.eqb (fst p) id)) l).
    lia.
  - intros H. specialize (IH H). cbn [negb filter].
    destruct (is_predict (i, k)); cbn [List.length]; lia.
Qed.

Lemma predicting_parked k s s' :
  k <> KPredict ->
  inflight s' = inflight s ++ [(next_id s, k)] ->
  predicting s' = predicting s.
Proof.
  intros Hk E. unfold predicting. rewrite E, filter_app, length_app.
  destruct k; [cbn; lia|cbn; lia|contradiction].
Qed.

Lemma loadData_prediction_ok s : prediction_ok s -> prediction_ok (loadData s).
Proof.
  unfold prediction_ok.
  destruct (loadData_frame s) as (_ & Hp & He & Hl & _ & Hi).
  assert (Hn : predicting (loadData s) = predicting s).
  { destruct Hi as [Hi|(k & Hk & Hi)].
    - unfold predicting. rewrite Hi. reflexivity.
    - exact (predicting_parked k s _ Hk Hi). }
  rewrite Hn, Hp, He, Hl. exact (fun H => H).
Qed.

Lemma prediction_ok_weaken s s' :
  prediction_ok s ->
  predicting s' <= predicting s ->
  prediction s' = prediction s ->
  predictionError s' = predictionError s ->
  predictionLoading s' = predictionLoading s ->
  prediction_ok s'.
Proof.
  unfold prediction_ok. intros (H1 & H2 & H3 & H4) Hn Hp He Hl.
  rewrite Hp, He, Hl. split; [lia|]. split.
  - intros Hf. specialize (H2 Hf). lia.
  - split; [|exact H4]. intros Hpos. apply H3. lia.
Qed.

Lemma prediction_ok_idle s' :
  predicting s' = 0 ->
  prediction s' = None \/ predictionError s' = None ->
  prediction_ok s'.
Proof.
  unfold prediction_ok. intros Hz Hd. rewrite Hz.
  split; [lia|]. split; [reflexivity|]. split; [lia|exact Hd].
Qed.

Lemma step_prediction_ok e s : prediction_ok s -> prediction_ok (step e s).
Proof.
  intros H.
  destruct e; cbn [Monitoring.step].
  - destruct (loading s); [exact H|]. apply loadData_prediction_ok, H.
  - unfold refilter. destruct (negb _); [|exact H].
    apply loadData_prediction_ok. exact H.
  - unfold refilter. destruct (negb _); [|exact H].
    apply loadData_prediction_ok. exact H.
  - unfold refilter. destruct (negb _); [|exact H].
    apply loadData_prediction_ok. exact H.
  - unfold refilter. destruct (negb _); [|exact H].
    apply loadData_prediction_ok. exact H.
  - destruct (pending id (inflight s)) as [k|] eqn:Hp; [|exact H].
    pose proof (predicting_settled id s) as Hle.
    destruct k.
    + destruct r; cbn [loadData_resume applyBatch];
        apply (prediction_ok_weaken s); try reflexivity; assumption.
    + destruct r; cbn [loadData_resume applyBatch];
        apply (prediction_ok_weaken s); try reflexivity; assumption.
    + pose proof (predicting_settled_lt id s Hp) as Hlt.
      destruct H as (H1 & H2 & H3 & H4).
      assert (Hz : predicting (settled id s) = 0) by lia.
      assert (Hone : 0 < predicting s) by lia.
      destruct (H3 Hone) as [Hpn Hen].
      destruct r; cbn [fetchPrediction_resume].
      * apply prediction_ok_idle; [exact Hz|exact H4].
      * apply prediction_ok_idle; [exact Hz|right; exact Hen].
      * apply prediction_ok_idle; [exact Hz|left; reflexivity].
  - exact H.
  - exact H.
  - unfold on_device_data. destruct (decode doc); exact H.
  - destruct transport_connected; exact H.
  - destruct H as (H1 & H2 & H3 & H4). unfold prediction_ok.
    change (predicting (setPredictionError None
                          (setPrediction None (setPredictDeviceId v s))))
      with (predicting s).
    cbn. repeat split; auto.
  - destruct (predictionLoading s) eqn:Hl; cbn [orb]; [exact H|].
    destruct (blank (predictDeviceId s)) eqn:Hb; [exact H|].
    destruct H as (H1 & H2 & H3 & H4). specialize (H2 Hl).
    unfold fetchPrediction. rewrite Hb. unfold prediction_ok.
    assert (Hn : predicting
                   (await (GetPredict (trim (predictDeviceId s)) 60 30) KPredict
                      (setPrediction None
                         (setPredictionError None
                            (setPredictionLoading true s))))
                 = 1).
    { unfold predicting. cbn [await inflight setPrediction setPredictionError
        setPredictionLoading]. rewrite filter_app, length_app.
      unfold predicting in H2. rewrite H2. reflexivity. }
    rewrite Hn. cbn. repeat split; auto; discriminate.
Qed.

Lemma mounted_prediction_ok : prediction_ok (mounted toISOString).
Proof.
  unfold mounted. apply loadData_prediction_ok.
  unfold prediction_ok, predicting. cbn. repeat split; auto.
Qed.

(** However the page is driven from its mount, the prediction panel never
    shows a result beside an error, at most one prediction request is in
    flight, and none is in flight unless the loading flag is up. *)
Theorem prediction_panel_coherent es :
  let s := run es (mounted toISOString) in
  (prediction s = None \/ predictionError s = None)
  /\ predicting s <= 1
  /\ (predictionLoading s = false -> predicting s = 0).
Proof.
  assert (H : forall s, prediction_ok s -> prediction_ok (run es s)).
  { induction es as [|e es IH]; intros s Hs; [exact Hs|].
    cbn [Monitoring.run]. apply IH, step_prediction_ok, Hs. }
  destruct (H _ mounted_prediction_ok) as (H1 & H2 & _ & H4).
  cbv zeta. repeat split; assumption.
Qed.

(** ** Promise ids *)

Lemma loadData_ids s : ids_below s -> ids_below (loadData s).
Proof.
  unfold ids_below, Monitoring.loadData. intros H.
  destruct (useDateRange s && truthy (trim (deviceFilter s))
            && truthy (dateStart s) && truthy (dateEnd s)).
  - destruct (toISOString (dateStart s)), (toISOString (dateEnd s)); cbn;
      first [exact H | apply Forall_parked; exact H].
  - destruct (truthy (trim (deviceFilter s))); cbn;
      apply Forall_parked; exact H.
Qed.

Lemma step_ids e s : ids_below s -> ids_below (step e s).
Proof.
  intros H.
  destruct e; cbn [Monitoring.step].
  - destruct (loading s); [exact H|]. apply loadData_ids, H.
  - unfold refilter. destruct (negb _); [|exact H].
    apply loadData_ids. exact H.
  - unfold refilter. destruct (negb _); [|exact H].
    apply loadData_ids. exact H.
  - unfold refilter. destruct (negb _); [|exact H].
    apply loadData_ids. exact H.
  - unfold refilter. destruct (negb _); [|exact H].
    apply loadData_ids. exact H.
  - destruct (pending id (inflight s)) as [k|]; [|exact H].
    assert (Hs : ids_below (settled id s)).
    { unfold ids_below in *. cbn. apply Forall_kept. exact H. }
    destruct k, r; exact Hs.
  - exact H.
  - exact H.
  - unfold on_device_data. destruct (decode doc); exact H.
  - destruct transport_connected; exact H.
  - exact H.
  - destruct (_ || _); [exact H|]. unfold fetchPrediction.
    destruct (blank _); [exact H|].
    unfold ids_below in *. cbn. apply Forall_parked. exact H.
Qed.

Lemma ids_below_free s i :
  ids_below s -> next_id s <= i -> pending i (inflight s) = None.
Proof.
  unfold ids_below. intros H Hi.
  induction (inflight s) as [|[j k] l IH]; [reflexivity|].
  inversion H as [|p l' Hj Hl]; subst. cbn [fst] in Hj. cbn [pending].
  destruct (Nat.eqb_spec j i); [lia|]. apply IH. exact Hl.
Qed.

(** In every state the page reaches, the next promise id is free. *)
Lemma reachable_next_id_free es :
  let s := run es (mounted toISOString) in
  pending (next_id s) (inflight s) = None.
Proof.
  cbv zeta. apply ids_below_free; [|lia].
  assert (H : forall s, ids_below s -> ids_below (run es s)).
  { induction es as [|e es IH]; intros s Hs; [exact Hs|].
    cbn [Monitoring.run]. apply IH, step_ids, Hs. }
  apply H. unfold mounted. apply loadData_ids.
  unfold ids_below. cbn. constructor.
Qed.

Lemma pending_parked id k l :
  pending id l = None -> pending id (l ++ [(id, k)]) = Some k.
Proof.
  induction l as [|[i k'] l IH]; cbn.
  - intros _. rewrite Nat.eqb_refl. reflexivity.
  - destruct (Nat.eqb i id); [discriminate|]. exact IH.
Qed.

(** One round of the prediction panel.  A fetch for a device sends one
    request, for the trimmed id with horizon 60 s over 30 points, clears the
    panel and raises its loading flag.  When the answer comes the flag
    goes down: a body is shown as the result (an empty body shows nothing,
    and no error either), a failure shows the fixed message and no result.
    The window is not touched at any point. *)
Theorem prediction_round s :
  blank (predictDeviceId s) = false ->
  pending (next_id s) (inflight s) = None ->
  let s1 := fetchPrediction s in
  (sent s1 = sent s ++ [GetPredict (trim (predictDeviceId s)) 60 30]
   /\ predictionLoading s1 = true
   /\ prediction s1 = None /\ predictionError s1 = None)
  /\ (forall body,
        let s2 := step (Settle (next_id s) (PredictFulfilled body)) s1 in
        prediction s2 = body /\ predictionError s2 = None
        /\ predictionLoading s2 = false /\ data s2 = data s
        /\ sent s2 = sent s1)
  /\ (let s2 := step (Settle (next_id s) Rejected) s1 in
      prediction s2 = None
      /\ predictionError s2 = Some PREDICTION_UNAVAILABLE
      /\ predictionLoading s2 = false /\ data s2 = data s
      /\ sent s2 = sent s1).
Proof.
  intros Hb Hfree s1.
  set (a1 := await (GetPredict (trim (predictDeviceId s)) 60 30) KPredict
               (setPrediction None
                  (setPredictionError None (setPredictionLoading true s)))).
  assert (E : s1 = a1).
  { unfold s1, fetchPrediction. rewrite Hb. reflexivity. }
  clearbody s1. subst s1.
  assert (Hp : pending (next_id s) (inflight a1) = Some KPredict).
  { exact (pending_parked (next_id s) KPredict (inflight s) Hfree). }
  split; [repeat split|]. split.
  - intros body s2. unfold s2. cbn [Monitoring.step]. rewrite Hp.
    repeat split.
  - intros s2. unfold s2. cbn [Monitoring.step]. rewrite Hp.
    repeat split.
Qed.

(** ** The device list *)

Lemma existsb_eqb_In x l : existsb (String.eqb x) l = true <-> In x l.
Proof.
  rewrite existsb_exists. split.
  - intros (y & Hy & E). apply String.eqb_eq in E. subst. exact Hy.
  - intros H. exists x. split; [exact H|apply String.eqb_refl].
Qed.

Lemma set_add_In x y l : In y (set_add x l) <-> y = x \/ In y l.
Proof.
  unfold set_add. destruct (existsb (String.eqb x) l) eqn:E.
  - apply existsb_eqb_In in E. split; [auto|].
    intros [->|H]; assumption.
  - rewrite in_app_iff. cbn. split.
    + intros [H|[H|[]]]; auto.
    + intros [->|H]; auto.
Qed.

Lemma set_add_NoDup x l : NoDup l -> NoDup (set_add x l).
Proof.
  intros H. unfold set_add. destruct (existsb (String.eqb x) l) eqn:E.
  - exact H.
  - apply NoDup_app; [exact H|repeat constructor; intros []|].
    intros y Hy [<-|[]].
    apply existsb_eqb_In in Hy. congruence.
Qed.

Lemma set_of_spec xs :
  NoDup (set_of xs) /\ forall y, In y (set_of xs) <-> In y xs.
Proof.
  unfold set_of.
  assert (G : forall acc,
             NoDup acc ->
             NoDup (fold_left (fun ids x => set_add x ids) xs acc)
             /\ forall y,
                  In y (fold_left (fun ids x => set_add x ids) xs acc)
                  <-> In y acc \/ In y xs).
  { induction xs as [|x xs IH]; intros acc Hacc; cbn [fold_left].
    - split; [exact Hacc|]. intros y. cbn. tauto.
    - destruct (IH (set_add x acc) (set_add_NoDup x acc Hacc)) as [Hn Hi].
      split; [exact Hn|]. intros y. rewrite Hi, set_add_In. cbn.
      split; intros H; repeat destruct H as [H|H]; subst; auto. }
  destruct (G [] (NoDup_nil _)) as [Hn Hi]. split; [exact Hn|].
  intros y. rewrite Hi. cbn. tauto.
Qed.

Lemma insert_sorted_In x y l : In y (insert_sorted x l) <-> y = x \/ In y l.
Proof.
  induction l as [|z l IH]; cbn.
  - split; intros [H|H]; auto.
  - destruct (String.leb x z); cbn; [|rewrite IH]; split; intros H;
      repeat destruct H as [H|H]; subst; auto.
Qed.

Lemma insert_sorted_NoDup x l :
  ~ In x l -> NoDup l -> NoDup (insert_sorted x l).
Proof.
  induction l as [|z l IH]; cbn; intros Hx Hl.
  - repeat constructor. intros [].
  - destruct (String.leb x z).
    + constructor; [exact Hx|exact Hl].
    + inversion Hl as [|z' l' Hz Hl']; subst. constructor.
      * rewrite insert_sorted_In. intros [->|H]; [|contradiction].
        apply Hx. left. reflexivity.
      * apply IH; [|exact Hl']. intros H. apply Hx. right. exact H.
Qed.

Lemma insert_sorted_Sorted x l :
  Sorted.Sorted (fun a b => String.leb a b = true) l ->
  Sorted.Sorted (fun a b => String.leb a b = true) (insert_sorted x l).
Proof.
  induction l as [|z l IH]; cbn; intros Hl.
  - repeat constructor.
  - destruct (String.leb x z) eqn:E.
    + constructor; [exact Hl|constructor; exact E].
    + inversion Hl as [|z' l' Hs Hh]; subst.
      constructor; [apply IH; exact Hs|].
      assert (Hzx : String.leb z x = true).
      { destruct (String.leb_total x z) as [H|H]; [congruence|exact H]. }
      destruct l as [|w l]; cbn.
      * constructor. exact Hzx.
      * destruct (String.leb x w); constructor; [exact Hzx|].
        inversion Hh; subst. assumption.
Qed.

Lemma sort_strings_spec l :
  Sorted.Sorted (fun a b => String.leb a b = true) (sort_strings l)
  /\ (forall y, In y (sort_strings l) <-> In y l)
  /\ (NoDup l -> NoDup (sort_strings l)).
Proof.
  induction l as [|x l (Hs & Hi & Hn)]; cbn [sort_strings].
  - split; [constructor|]. split; [intros y; reflexivity|].
    intros _. constructor.
  - split; [apply insert_sorted_Sorted; exact Hs|]. split.
    + intros y. rewrite insert_sorted_In, Hi. cbn.
      split; intros [H|H]; auto.
    + intros Hd. inversion Hd as [|x' l' Hx Hl]; subst.
      apply insert_sorted_NoDup; [rewrite Hi; exact Hx|apply Hn; exact Hl].
Qed.

(** The list behind the two device selects is in increasing order of code
    units and free of duplicates, and it holds exactly the ids the backend
    listed together with the non-empty ids seen in the window. *)
Theorem devices_sorted_distinct_complete deviceIds window :
  Sorted.Sorted (fun a b => String.leb a b = true) (devices deviceIds window)
  /\ NoDup (devices deviceIds window)
  /\ forall id,
       In id (devices deviceIds window)
       <-> In id deviceIds
           \/ (id <> "" /\ exists m, In m window /\ device_id m = id).
Proof.
  unfold devices.
  set (add := fun ids m =>
                if truthy (device_id m) then set_add (device_id m) ids
                else ids).
  assert (G : forall acc,
             NoDup acc ->
             NoDup (fold_left add window acc)
             /\ forall y,
                  In y (fold_left add window acc)
                  <-> In y acc
                      \/ (y <> "" /\ exists m, In m window /\ device_id m = y)).
  { induction window as [|m w IH]; intros acc Hacc; cbn [fold_left].
    - split; [exact Hacc|]. intros y. split; [auto|].
      intros [H|(_ & m & [] & _)]. exact H.
    - assert (Hadd : NoDup (add acc m)).
      { unfold add. destruct (truthy (device_id m));
          [apply set_add_NoDup|]; exact Hacc. }
      destruct (IH (add acc m) Hadd) as [Hn Hi].
      split; [exact Hn|]. intros y. rewrite Hi. unfold add.
      destruct (device_id m) as [|c r] eqn:Em; cbn [truthy].
      + split.
        * intros [H|(Hy & m' & Hm' & E)]; [auto|].
          right. split; [exact Hy|]. exists m'. split; [right|]; assumption.
        * intros [H|(Hy & m' & [<-|Hm'] & E)]; [auto| |].
          -- rewrite Em in E. congruence.
          -- right. split; [exact Hy|]. exists m'. split; assumption.
      + rewrite set_add_In. split.
        * intros [[->|H]|(Hy & m' & Hm' & E)]; [|auto|].
          -- right. split; [discriminate|]. exists m.
             split; [left; reflexivity|exact Em].
          -- right. split; [exact Hy|]. exists m'. split; [right|]; assumption.
        * intros [H|(Hy & m' & [<-|Hm'] & E)]; [auto| |].
          -- left. left. rewrite <- E, Em. reflexivity.
          -- right. split; [exact Hy|]. exists m'. split; assumption. }
  destruct (set_of_spec deviceIds) as [Hn0 Hi0].
  destruct (G (set_of deviceIds) Hn0) as [Hn Hi].
  destruct (sort_strings_spec (fold_left add window (set_of deviceIds)))
    as (Hs & Hsi & Hsn).
  split; [exact Hs|]. split; [apply Hsn; exact Hn|].
  intros id. rewrite Hsi, Hi, Hi0. reflexivity.
Qed.

End MonitoringMore.

(* ================================================================== *)
(** * Further properties of the weather page *)

Section WeatherMore.

Import Weather.

(** Reads a cell through the writes stacked on a state. *)
Ltac cells :=
  cbn [cityQuery citySuggestions selectedCity suggestionsOpen searching
    searchError searchTimeoutRef loading error retryCount
    forecast analysis weatherAwareDeviceId weatherAware prediction24hDeviceId
    prediction24h now sent inflight next_id
    next_ref forecastLive analysisLive upd_cityQuery upd_citySuggestions
    upd_selectedCity upd_suggestionsOpen upd_searching upd_searchError upd_searchTimeoutRef
    upd_loading upd_error upd_retryCount upd_forecast upd_analysis
    upd_weatherAwareDeviceId upd_weatherAware upd_prediction24hDeviceId upd_prediction24h upd_now
    upd_sent upd_inflight upd_next_id upd_next_ref upd_forecastLive
    upd_analysisLive setCityQuery setCitySuggestions setSelectedCity setSuggestionsOpen
    setSearching setSearchError setSearchTimeoutRef setLoading setError
    setRetryCount setForecastData setForecastLoading setForecastError setAnalysisData
    setAnalysisLoading setAnalysisError setWeatherAwareDeviceId setWeatherAwareResult setWeatherAwareLoading
    setWeatherAwareError setPrediction24hDeviceId setPrediction24hData setPrediction24hLoading setPrediction24hError
    settled await settled issue showSuggestions
    selectCity p_setData p_setLoading p_setError].

(** Splits on the conditions a handler tests. *)
Ltac branch :=
  repeat (cells;
          match goal with
          | |- context [if ?b then _ else _] => destruct b eqn:?
          | |- context [match ?x with _ => _ end] => destruct x eqn:?
          end).

(** ** The two normalisers *)

Lemma filter_map_length {A B} (f : A -> option B) (l : list A) :
  List.length (filter_map f l) <= List.length l.
Proof.
  induction l as [|x l IH]; [reflexivity|].
  cbn [filter_map]. destruct (f x); cbn [List.length]; lia.
Qed.

Lemma filter_map_In {A B} (f : A -> option B) (l : list A) (y : B) :
  In y (filter_map f l) <-> exists x, In x l /\ f x = Some y.
Proof.
  induction l as [|x l IH]; cbn [filter_map].
  - split; [intros []|intros (x & [] & _)].
  - destruct (f x) as [z|] eqn:E; cbn [In]; rewrite IH; split.
    + intros [<-|(x' & Hx & Hf)]; [exists x|exists x']; auto.
    + intros (x' & [<-|Hx] & Hf); [left; congruence|right; exists x'; auto].
    + intros (x' & Hx & Hf). exists x'. auto.
    + intros (x' & [<-|Hx] & Hf); [congruence|exists x'; auto].
Qed.

Lemma normalizeOne_name x c :
  normalizeOne x = Some c -> exists n, name c = JStr n.
Proof.
  unfold normalizeOne. destruct x as [| | | | |m]; try discriminate.
  destruct (member "name" m) as [[| | |n| |]|]; try discriminate.
  destruct (member "latitude" m) as [[| |la| | |]|]; try discriminate.
  destruct (member "longitude" m) as [[| |lo| | |]|]; try discriminate.
  intros H. injection H as <-. exists n. reflexivity.
Qed.

(** What the primary normaliser lets through.  A bare array and an object
    that wraps the array under [results] give the same suggestions; every
    suggestion has a string for a name; there are never more suggestions
    than entries; and anything that is neither an array nor such an object
    gives none. *)
Theorem normalizeSuggestions_shapes :
  (forall m items,
     member "results" m = Some (JArr items) ->
     normalizeSuggestions (JObj m) = normalizeSuggestions (JArr items))
  /\ (forall data c,
        In c (normalizeSuggestions data) -> exists n, name c = JStr n)
  /\ (forall items,
        List.length (normalizeSuggestions (JArr items)) <= List.length items)
  /\ normalizeSuggestions JNull = []
  /\ (forall b, normalizeSuggestions (JBool b) = [])
  /\ (forall q, normalizeSuggestions (JNum q) = [])
  /\ (forall t, normalizeSuggestions (JStr t) = [])
  /\ (forall m, member "results" m = None -> normalizeSuggestions (JObj m) = []).
Proof.
  split; [intros m items H; cbn; rewrite H; reflexivity|].
  split.
  { intros data c Hc.
    assert (G : forall items, In c (filter_map normalizeOne items) ->
                              exists n, name c = JStr n).
    { intros items Hi. apply filter_map_In in Hi as (x & _ & Hx).
      exact (normalizeOne_name x c Hx). }
    destruct data as [| | | |items|m]; cbn in Hc; try contradiction.
    - exact (G items Hc).
    - destruct (member "results" m) as [[| | | |items|]|];
        try contradiction. exact (G items Hc). }
  split; [intros items; apply filter_map_length|].
  repeat split. intros m H. cbn. rewrite H. reflexivity.
Qed.

Lemma normalizeOne_openMeteoOne x c :
  normalizeOne x = Some c -> openMeteoOne x = Some c.
Proof.
  unfold normalizeOne, openMeteoOne. destruct x as [| | | | |m]; try discriminate.
  destruct (member "name" m) as [[| | |n| |]|]; try discriminate.
  destruct (member "latitude" m) as [[| |la| | |]|]; try discriminate.
  destruct (member "longitude" m) as [[| |lo| | |]|]; try discriminate.
  exact (fun H => H).
Qed.

(** The public source is read more loosely than the backend.  Every entry
    the backend reading accepts, the public reading accepts with the same
    fields, so on one and the same array the public reading returns at
    least the suggestions of the backend reading; but it also accepts an
    entry whose name is not a string, which the backend reading drops. *)
Theorem public_reading_is_looser :
  (forall x c, normalizeOne x = Some c -> openMeteoOne x = Some c)
  /\ (forall items c,
        In c (filter_map normalizeOne items) ->
        In c (filter_map openMeteoOne items))
  /\ (forall items,
        fetchCitiesOpenMeteo_resume
          (FetchResponse true (Some (JObj [("results", JArr items)])))
        = Some (filter_map openMeteoOne items))
  /\ (let x := JObj [("name", JNum 7); ("latitude", JNum 1);
                     ("longitude", JNum 2)] in
      normalizeOne x = None
      /\ openMeteoOne x
         = Some {| name := JNum 7; country := None;
                   latitude := 1; longitude := 2 |}).
Proof.
  split; [exact normalizeOne_openMeteoOne|]. split.
  - intros items c H. apply filter_map_In in H as (x & Hx & Hc).
    apply filter_map_In. exists x. split; [exact Hx|].
    apply normalizeOne_openMeteoOne. exact Hc.
  - split; [intros items; reflexivity|]. split; reflexivity.
Qed.

(** ** Retry *)

Lemma same_object_refl o : same_object o o = true.
Proof. destruct o as [[i c]|]; cbn; [apply Nat.eqb_refl|reflexivity]. Qed.

(** The retry button asks again for the current weather and for nothing
    else: the forecast and the analysis keep their state and no request of
    theirs leaves.  Without a selected city nothing leaves at all. *)
Theorem retry_refetches_current_weather_only s :
  let s' := step ClickRetry s in
  sent s'
  = sent s
    ++ match selectedCity s with
       | Some (_, c) =>
           [GetWeatherCurrent (latitude c) (longitude c) (name c)]
       | None => []
       end
  /\ forecast s' = forecast s /\ analysis s' = analysis s
  /\ inflight s' = inflight s
  /\ selectedCity s' = selectedCity s
  /\ retryCount s' = S (retryCount s)
  /\ device_panels s' = device_panels s.
Proof.
  intros s'.
  assert (E : s' = weather_effect (setRetryCount S s)).
  { unfold s'. cbn [step]. unfold commit.
    change (selectedCity (setRetryCount S s)) with (selectedCity s).
    change (retryCount (setRetryCount S s)) with (S (retryCount s)).
    rewrite same_object_refl.
    replace (retryCount s =? S (retryCount s)) with false
      by (symmetry; apply Nat.eqb_neq; lia).
    reflexivity. }
  clearbody s'. subst s'. unfold weather_effect.
  change (selectedCity (setRetryCount S s)) with (selectedCity s).
  destruct (selectedCity s) as [[i c]|] eqn:Es; cbn;
    rewrite ?app_nil_r; repeat split; exact Es.
Qed.

(** ** Answers and the requests they belong to *)

Lemma step_settle id k r t :
  pending id (inflight t) = Some k ->
  well_kinded k r = true ->
  step (Settle id r) t = resume id k r (settled id t).
Proof. intros Hp Hk. cbn [step]. rewrite Hp, Hk. reflexivity. Qed.

Lemma fresh_ids_await req k s : fresh_ids s -> fresh_ids (await req k s).
Proof.
  intros H i Hi. cbn in Hi. cbn [await issue inflight upd_inflight
    upd_next_id upd_sent].
  rewrite pending_app_other by lia. apply H. lia.
Qed.

Lemma fresh_ids_settled id s : fresh_ids s -> fresh_ids (settled id s).
Proof.
  intros H i Hi. cbn in Hi. cbn [settled inflight upd_inflight].
  destruct (Nat.eq_dec id i) as [->|Hne].
  - apply pending_filter_same.
  - rewrite pending_filter_other by exact Hne. apply H. exact Hi.
Qed.

(** The state a search that fell back reaches when the public source has
    settled. *)
Lemma search_fallback_settled value r s :
  blank value = false ->
  fresh_ids s ->
  well_kinded (KSearchFallback value) r = true ->
  let p := next_id s in
  let s2 := step (Settle p Rejected) (fetchSuggestions value s) in
  exists t,
    step (Settle (S p) r) s2 = fetchSuggestions_fallback value r t
    /\ sent t = sent s ++ [GetSearchCity (trim value) 10;
                           OpenMeteoGeocoding (trim value) 10].
Proof.
  intros Hv Hfresh Hr p s2.
  set (s0 := setSearchError None (setSearching true s)).
  set (a1 := await (GetSearchCity (trim value) 10) (KSearch value) s0).
  assert (E1 : fetchSuggestions value s = a1).
  { unfold fetchSuggestions. rewrite Hv. reflexivity. }
  assert (Hfresh0 : fresh_ids s0) by exact Hfresh.
  set (t := settled p a1).
  assert (Htf : fresh_ids t).
  { exact (settled_await_fresh (GetSearchCity (trim value) 10)
             (KSearch value) s0 Hfresh0). }
  set (a2 := await (OpenMeteoGeocoding (trim value) 10)
               (KSearchFallback value) t).
  assert (E2 : s2 = a2).
  { unfold s2. rewrite E1.
    exact (settle_parked (GetSearchCity (trim value) 10) (KSearch value)
             Rejected s0 Hfresh0 eq_refl). }
  exists (settled (S p) a2). split.
  - rewrite E2.
    exact (settle_parked (OpenMeteoGeocoding (trim value) 10)
             (KSearchFallback value) r t Htf Hr).
  - cbn. rewrite <- app_assoc. reflexivity.
Qed.

(** When the backend search fails and the public source answers with an
    HTTP error status, or with a body that lists no results, the user is
    told that no city was found; the "search unavailable" message is kept
    for a public source that cannot be reached or read (a rejected fetch,
    a body that is no JSON, a [results] that is no array). *)
Theorem public_source_http_error_reads_as_no_match value s :
  blank value = false ->
  fresh_ids s ->
  let p := next_id s in
  let s2 := step (Settle p Rejected) (fetchSuggestions value s) in
  let outcome r := step (Settle (S p) r) s2 in
  (forall body,
     citySuggestions (outcome (FetchResponse false body)) = []
     /\ searchError (outcome (FetchResponse false body))
        = Some (NO_CITY_FOUND (trim value))
     /\ searching (outcome (FetchResponse false body)) = false)
  /\ (forall m,
        member "results" m = None \/ member "results" m = Some JNull ->
        citySuggestions (outcome (FetchResponse true (Some (JObj m)))) = []
        /\ searchError (outcome (FetchResponse true (Some (JObj m))))
           = Some (NO_CITY_FOUND (trim value)))
  /\ searchError (outcome Rejected) = Some SEARCH_UNAVAILABLE
  /\ searchError (outcome (FetchResponse true None)) = Some SEARCH_UNAVAILABLE
  /\ (forall m v,
        member "results" m = Some v ->
        v <> JNull ->
        (forall items, v <> JArr items) ->
        searchError (outcome (FetchResponse true (Some (JObj m))))
        = Some SEARCH_UNAVAILABLE).
Proof.
  intros Hv Hfresh p s2 outcome.
  assert (G : forall r, well_kinded (KSearchFallback value) r = true ->
                        exists t, outcome r = fetchSuggestions_fallback value r t).
  { intros r Hr.
    destruct (search_fallback_settled value r s Hv Hfresh Hr) as (t & E & _).
    exists t. exact E. }
  split; [|split; [|split; [|split]]].
  - intros body. destruct (G (FetchResponse false body) eq_refl) as (t & ->).
    repeat split.
  - intros m Hm.
    destruct (G (FetchResponse true (Some (JObj m))) eq_refl) as (t & ->).
    unfold fetchSuggestions_fallback, fetchCitiesOpenMeteo_resume, results_of.
    destruct Hm as [-> | ->]; repeat split.
  - destruct (G Rejected eq_refl) as (t & ->). reflexivity.
  - destruct (G (FetchResponse true None) eq_refl) as (t & ->). reflexivity.
  - intros m v Hm Hnull Harr.
    destruct (G (FetchResponse true (Some (JObj m))) eq_refl) as (t & ->).
    unfold fetchSuggestions_fallback, fetchCitiesOpenMeteo_resume, results_of.
    rewrite Hm.
    destruct v as [| | | |items|]; try reflexivity.
    + contradiction Hnull. reflexivity.
    + contradiction (Harr items). reflexivity.
Qed.

Lemma shown_cells value found u :
  map snd (citySuggestions (setSearching false (showSuggestions value found u)))
  = found
  /\ searchError (setSearching false (showSuggestions value found u))
     = (if isEmpty found then Some (NO_CITY_FOUND (trim value)) else None)
  /\ searching (setSearching false (showSuggestions value found u)) = false
  /\ sent (setSearching false (showSuggestions value found u)) = sent u.
Proof. repeat split. cbn. apply allocate_objects. Qed.

(** Two searches in flight are not told apart when they answer: if the
    earlier one answers last, its matches and its message replace those of
    the later one. *)
Theorem late_search_answer_overwrites v1 v2 b1 b2 s :
  blank v1 = false ->
  blank v2 = false ->
  fresh_ids s ->
  let p := next_id s in
  let s2 := fetchSuggestions v2 (fetchSuggestions v1 s) in
  let s3 := step (Settle (S p) (Fulfilled b2)) s2 in
  let s4 := step (Settle p (Fulfilled b1)) s3 in
  sent s2 = sent s ++ [GetSearchCity (trim v1) 10; GetSearchCity (trim v2) 10]
  /\ map snd (citySuggestions s3) = normalizeSuggestions b2
  /\ map snd (citySuggestions s4) = normalizeSuggestions b1
  /\ searchError s4
     = (if isEmpty (normalizeSuggestions b1)
        then Some (NO_CITY_FOUND (trim v1)) else None).
Proof.
  intros Hv1 Hv2 Hfresh p s2 s3 s4.
  set (s0 := setSearchError None (setSearching true s)).
  set (a1 := await (GetSearchCity (trim v1) 10) (KSearch v1) s0).
  set (s1 := setSearchError None (setSearching true a1)).
  set (a2 := await (GetSearchCity (trim v2) 10) (KSearch v2) s1).
  assert (E2 : s2 = a2).
  { unfold s2, fetchSuggestions. rewrite Hv1, Hv2. reflexivity. }
  clearbody s2. subst s2.
  assert (Hfresh1 : fresh_ids s1).
  { exact (fresh_ids_await _ _ s0 Hfresh). }
  assert (E3 : s3 = setSearching false
                      (showSuggestions v2 (normalizeSuggestions b2)
                         (settled (S p) a2))).
  { unfold s3.
    exact (settle_parked (GetSearchCity (trim v2) 10) (KSearch v2)
             (Fulfilled b2) s1 Hfresh1 eq_refl). }
  clearbody s3. subst s3.
  assert (Hp : pending p
                 (inflight (setSearching false
                              (showSuggestions v2 (normalizeSuggestions b2)
                                 (settled (S p) a2))))
               = Some (KSearch v1)).
  { unfold a2, s1, a1, s0, p. cells.
    rewrite pending_filter_other by lia.
    rewrite pending_app_other by lia.
    apply pending_app_fresh. apply Hfresh. lia. }
  assert (E4 : s4 = resume p (KSearch v1) (Fulfilled b1)
                      (settled p
                         (setSearching false
                            (showSuggestions v2 (normalizeSuggestions b2)
                               (settled (S p) a2))))).
  { unfold s4. exact (step_settle p (KSearch v1) (Fulfilled b1) _ Hp eq_refl). }
  clearbody s4. subst s4.
  split; [cbn; rewrite <- app_assoc; reflexivity|].
  split; [apply shown_cells|].
  cbn [resume fetchSuggestions_resume].
  split; apply shown_cells.
Qed.

(** ** Search and commit *)



(** ** Answers for a city that is no longer selected *)

(** When the selected city is replaced twice in a row, the forecast and the
    analysis asked for the first replacement are answered into the void:
    whatever those answers are, the two panels keep waiting for the answers
    of the second replacement and show only those. *)
Theorem superseded_city_answers_are_dropped c1 c2 r s :
  fresh_ids s ->
  same_object (selectedCity s) (Some c1) = false ->
  same_object (Some c1) (Some c2) = false ->
  let p := next_id s in
  let s2 := chooseCity c2 (chooseCity c1 s) in
  (p_loading (forecast s2) = true /\ p_loading (analysis s2) = true)
  /\ forecast (step (Settle p r) s2) = forecast s2
  /\ analysis (step (Settle (S p) r) s2) = analysis s2
  /\ (forall body,
        forecast (step (Settle (S (S p)) (Fulfilled body))
                    (step (Settle p r) s2))
        = {| p_data := or_null body; p_loading := false; p_error := None |})
  /\ (forall body,
        analysis (step (Settle (S (S (S p))) (Fulfilled body))
                    (step (Settle (S p) r) s2))
        = {| p_data := or_null body; p_loading := false; p_error := None |}).
Proof.
  intros Hfresh H1 H2 p s2.
  set (s1 := chooseCity c1 s).
  assert (E1 : s1 = analysis_effect
                      (forecast_effect (weather_effect (selectCity c1 s)))).
  { apply chooseCity_replacing. exact H1. }
  assert (Hsel1 : selectedCity s1 = Some c1).
  { rewrite E1. destruct c1 as [i1 d1]. reflexivity. }
  assert (E2 : s2 = analysis_effect
                      (forecast_effect (weather_effect (selectCity c2 s1)))).
  { apply chooseCity_replacing. rewrite Hsel1. exact H2. }
  assert (Hin : inflight s2
                = inflight s ++ [(p, KForecast); (S p, KAnalysis);
                                 (S (S p), KForecast); (S (S (S p)), KAnalysis)]).
  { rewrite E2, E1. destruct c1 as [i1 d1], c2 as [i2 d2].
    unfold analysis_effect, forecast_effect, weather_effect. cells.
    rewrite <- !app_assoc. reflexivity. }
  assert (Hlive : forecastLive s2 = Some (S (S p))
                  /\ analysisLive s2 = Some (S (S (S p)))
                  /\ forecast s2
                     = p_setError None (p_setLoading true (forecast s))
                  /\ analysis s2
                     = p_setError None (p_setLoading true (analysis s))).
  { rewrite E2, E1. destruct c1 as [i1 d1], c2 as [i2 d2].
    unfold analysis_effect, forecast_effect, weather_effect. cells.
    repeat split. }
  destruct Hlive as (Hfl & Hal & Hf & Ha).
  clearbody s2. clear E2 E1 Hsel1 s1.
  assert (Pend : forall i k,
             In (i, k) [(p, KForecast); (S p, KAnalysis);
                        (S (S p), KForecast); (S (S (S p)), KAnalysis)] ->
             pending i (inflight s2) = Some k).
  { intros i k Hi. rewrite Hin.
    assert (Hnone : pending i (inflight s) = None).
    { apply Hfresh. cbn in Hi. unfold p in *.
      repeat destruct Hi as [Hi|Hi]; try injection Hi as <- <-; try lia;
        contradiction. }
    clear Hin Hf Ha Hfl Hal.
    induction (inflight s) as [|[j kj] l IH].
    - cbn in Hi. cbn [app pending].
      repeat destruct Hi as [Hi|Hi]; try (injection Hi as <- <-);
        try contradiction;
        repeat (rewrite Nat.eqb_refl ||
                match goal with
                | |- context [Nat.eqb ?a ?b] =>
                    replace (Nat.eqb a b) with false
                      by (symmetry; apply Nat.eqb_neq; lia)
                end); reflexivity.
    - cbn [app pending] in *. destruct (Nat.eqb j i); [discriminate|].
      apply IH. exact Hnone. }
  split; [rewrite Hf, Ha; split; reflexivity|].
  assert (Stale1 : forall r0,
             forecast (step (Settle p r0) s2) = forecast s2
             /\ forecastLive (step (Settle p r0) s2) = Some (S (S p))
             /\ pending (S (S p)) (inflight (step (Settle p r0) s2))
                = Some KForecast).
  { intros r0. cbn [step].
    rewrite (Pend p KForecast) by (left; reflexivity).
    destruct (well_kinded KForecast r0); cbn [resume].
    - unfold forecast_resume.
      change (forecastLive (settled p s2)) with (forecastLive s2).
      rewrite Hfl. cbn [live].
      replace (Nat.eqb (S (S p)) p) with false
        by (symmetry; apply Nat.eqb_neq; lia).
      split; [reflexivity|]. split; [exact Hfl|].
      cbn [settled inflight upd_inflight].
      rewrite pending_filter_other by lia.
      apply Pend. right; right; left; reflexivity.
    - split; [reflexivity|]. split; [exact Hfl|].
      apply Pend. right; right; left; reflexivity. }
  assert (Stale2 : forall r0,
             analysis (step (Settle (S p) r0) s2) = analysis s2
             /\ analysisLive (step (Settle (S p) r0) s2) = Some (S (S (S p)))
             /\ pending (S (S (S p))) (inflight (step (Settle (S p) r0) s2))
                = Some KAnalysis).
  { intros r0. cbn [step].
    rewrite (Pend (S p) KAnalysis) by (right; left; reflexivity).
    destruct (well_kinded KAnalysis r0); cbn [resume].
    - unfold analysis_resume.
      change (analysisLive (settled (S p) s2)) with (analysisLive s2).
      rewrite Hal. cbn [live].
      replace (Nat.eqb (S (S (S p))) (S p)) with false
        by (symmetry; apply Nat.eqb_neq; lia).
      split; [reflexivity|]. split; [exact Hal|].
      cbn [settled inflight upd_inflight].
      rewrite pending_filter_other by lia.
      apply Pend. right; right; right; left; reflexivity.
    - split; [reflexivity|]. split; [exact Hal|].
      apply Pend. right; right; right; left; reflexivity. }
  split; [apply Stale1|]. split; [apply Stale2|]. split.
  - intros body. destruct (Stale1 r) as (Hf1 & Hl1 & Hp1).
    set (u := step (Settle p r) s2) in *.
    rewrite (step_settle (S (S p)) KForecast (Fulfilled body) u Hp1 eq_refl).
    cbn [resume]. unfold forecast_resume.
    change (forecastLive (settled (S (S p)) u)) with (forecastLive u).
    rewrite Hl1. cbn [live]. rewrite Nat.eqb_refl.
    change (forecast (setForecastLoading false
                        (setForecastData (or_null body)
                           (settled (S (S p)) u))))
      with (p_setLoading false (p_setData (or_null body) (forecast u))).
    rewrite Hf1, Hf. reflexivity.
  - intros body. destruct (Stale2 r) as (Ha1 & Hl1 & Hp1).
    set (u := step (Settle (S p) r) s2) in *.
    rewrite (step_settle (S (S (S p))) KAnalysis (Fulfilled body) u Hp1 eq_refl).
    cbn [resume]. unfold analysis_resume.
    change (analysisLive (settled (S (S (S p))) u)) with (analysisLive u).
    rewrite Hl1. cbn [live]. rewrite Nat.eqb_refl.
    change (analysis (setAnalysisLoading false
                        (setAnalysisData (or_null body)
                           (settled (S (S (S p))) u))))
      with (p_setLoading false (p_setData (or_null body) (analysis u))).
    rewrite Ha1, Ha. reflexivity.
Qed.

(** ** The device-keyed panels *)

Ltac count_le :=
  unfold awaits; cells;
  rewrite ?filter_app, ?length_app;
  cbn [filter snd is_weather_aware is_prediction24h List.length];
  repeat match goal with
         | |- context [List.length (filter ?h (filter ?f ?l))] =>
             let H := fresh in
             pose proof (filter_filter_le h f l) as H;
             set (List.length (filter h (filter f l))) in *
         end;
  lia.

Lemma awaits_settled_lt g id k s :
  pending id (inflight s) = Some k ->
  g k = true ->
  awaits g (settled id s) < awaits g s.
Proof.
  unfold awaits. cbn [settled inflight upd_inflight]. intros Hp Hg.
  induction (inflight s) as [|[i k'] l IH]; [discriminate|].
  cbn [pending filter fst] in *. destruct (Nat.eqb i id) eqn:E.
  - injection Hp as ->. cbn [negb snd]. rewrite Hg. cbn [List.length].
    pose proof (filter_filter_le (fun p => g (snd p))
                  (fun p => negb (Nat.eqb (fst p) id)) l).
    lia.
  - specialize (IH Hp). cbn [negb filter snd].
    destruct (g k'); cbn [List.length]; lia.
Qed.

Lemma panel_ok_weaken n n' p : panel_ok n p -> n' <= n -> panel_ok n' p.
Proof.
  unfold panel_ok. intros (H1 & H2 & H3 & H4) Hn.
  split; [lia|]. split.
  - intros Hf. specialize (H2 Hf). lia.
  - split; [|exact H4]. intros Hpos. apply H3. lia.
Qed.

Lemma panel_ok_idle n p :
  n = 0 -> p_data p = None \/ p_error p = None -> panel_ok n p.
Proof.
  unfold panel_ok. intros -> Hd.
  split; [lia|]. split; [reflexivity|]. split; [lia|exact Hd].
Qed.

Lemma awaits_weather_aware_le e s :
  e <> ClickWeatherAware ->
  awaits is_weather_aware (step e s) <= awaits is_weather_aware s.
Proof.
  intros He.
  destruct e; cbn [step]; try contradiction.
  - unfold onInputChange; branch; count_le.
  - unfold elapse, fetchSuggestions; branch; count_le.
  - unfold resume, forecast_resume, analysis_resume, fetchSuggestions_resume,
      fetchSuggestions_fallback, searchAndSelectFirst_resume,
      searchAndSelectFirst_fallback, fetchWeatherAwarePrediction_resume,
      fetchPrediction24h_resume, selectFirst, chooseCity, commit,
      weather_effect, forecast_effect, analysis_effect; branch; count_le.
  - unfold chooseCity, commit, weather_effect, forecast_effect,
      analysis_effect; branch; count_le.
  - unfold searchAndSelectFirst, chooseCity, commit, weather_effect,
      forecast_effect, analysis_effect; branch; count_le.
  - unfold searchAndSelectFirst; branch; count_le.
  - unfold commit, weather_effect, forecast_effect, analysis_effect;
      branch; count_le.
  - unfold fetchWeatherAwarePrediction, fetchPrediction24h; branch;
      count_le.
  - unfold fetchWeatherAwarePrediction, fetchPrediction24h; branch;
      count_le.
  - unfold fetchWeatherAwarePrediction, fetchPrediction24h; branch;
      count_le.
Qed.

Lemma weather_aware_frame e s :
  weather_aware_event e s = false ->
  weatherAware (step e s) = weatherAware s
  /\ weatherAwareDeviceId (step e s) = weatherAwareDeviceId s.
Proof.
  intros H. destruct (device_panel_event e s) eqn:D.
  - destruct e; cbn [device_panel_event weather_aware_event] in D, H;
      try discriminate.
    + cbn [step].
      destruct (pending id (inflight s)) as [[]|]; try discriminate.
      destruct (well_kinded _ r); [|split; reflexivity].
      destruct r; split; reflexivity.
    + split; reflexivity.
    + cbn [step]. destruct (_ || _); [split; reflexivity|].
      unfold fetchPrediction24h.
      destruct (selectedCity s) as [[i c]|]; [|split; reflexivity].
      destruct (blank _); split; reflexivity.
  - pose proof (device_panels_frame e s D) as F. unfold device_panels in F.
    injection F as F1 F2 F3 F4. split; assumption.
Qed.

Lemma weather_aware_ok_step e s :
  panel_ok (awaits is_weather_aware s) (weatherAware s) ->
  panel_ok (awaits is_weather_aware (step e s)) (weatherAware (step e s)).
Proof.
  intros H. destruct (weather_aware_event e s) eqn:Ev.
  - destruct e; cbn [weather_aware_event] in Ev; try discriminate.
    + (* the answer to the panel's request *)
      destruct (pending id (inflight s)) as [k|] eqn:Hp; [|discriminate].
      destruct k; try discriminate.
      cbn [step]. rewrite Hp.
      destruct (well_kinded KWeatherAware r); [|exact H].
      pose proof (awaits_settled_lt is_weather_aware id KWeatherAware s Hp eq_refl) as Hlt.
      destruct H as (H1 & H2 & H3 & H4).
      assert (Hone : 0 < awaits is_weather_aware s) by lia.
      destruct (H3 Hone) as [Hd He].
      cbn [resume]. unfold fetchWeatherAwarePrediction_resume.
      destruct r.
      * apply panel_ok_idle.
        -- change (awaits is_weather_aware (settled id s) = 0). lia.
        -- right. exact He.
      * apply panel_ok_idle.
        -- change (awaits is_weather_aware (settled id s) = 0). lia.
        -- left. reflexivity.
      * apply panel_ok_idle.
        -- change (awaits is_weather_aware (settled id s) = 0). lia.
        -- left. reflexivity.
    + (* the select *)
      destruct H as (H1 & H2 & H3 & H4). cbn [step].
      change (awaits is_weather_aware
                (setWeatherAwareError None (setWeatherAwareResult None (setWeatherAwareDeviceId v s))))
        with (awaits is_weather_aware s).
      unfold panel_ok. cbn. repeat split; auto.
    + (* the button *)
      cbn [step]. unfold weatherAwareLoading.
      destruct (p_loading (weatherAware s)) eqn:Hl; cbn [orb]; [exact H|].
      destruct (blank (weatherAwareDeviceId s)) eqn:Hb; [exact H|].
      unfold fetchWeatherAwarePrediction.
      destruct (selectedCity s) as [[i c]|]; [|exact H]. rewrite Hb.
      destruct H as (H1 & H2 & H3 & H4). specialize (H2 Hl).
      match goal with
      | |- panel_ok (awaits _ ?t) _ =>
          assert (Hn : awaits is_weather_aware t = 1)
      end.
      { unfold awaits in *. cells. rewrite filter_app, length_app, H2.
        reflexivity. }
      rewrite Hn. unfold panel_ok. cbn. repeat split; auto; discriminate.
  - destruct (weather_aware_frame e s Ev) as [-> _].
    apply (panel_ok_weaken (awaits is_weather_aware s)); [exact H|].
    apply awaits_weather_aware_le. intros ->. discriminate Ev.
Qed.

Lemma awaits_prediction24h_le e s :
  e <> ClickPrediction24h ->
  awaits is_prediction24h (step e s) <= awaits is_prediction24h s.
Proof.
  intros He.
  destruct e; cbn [step]; try contradiction.
  - unfold onInputChange; branch; count_le.
  - unfold elapse, fetchSuggestions; branch; count_le.
  - unfold resume, forecast_resume, analysis_resume, fetchSuggestions_resume,
      fetchSuggestions_fallback, searchAndSelectFirst_resume,
      searchAndSelectFirst_fallback, fetchWeatherAwarePrediction_resume,
      fetchPrediction24h_resume, selectFirst, chooseCity, commit,
      weather_effect, forecast_effect, analysis_effect; branch; count_le.
  - unfold chooseCity, commit, weather_effect, forecast_effect,
      analysis_effect; branch; count_le.
  - unfold searchAndSelectFirst, chooseCity, commit, weather_effect,
      forecast_effect, analysis_effect; branch; count_le.
  - unfold searchAndSelectFirst; branch; count_le.
  - unfold commit, weather_effect, forecast_effect, analysis_effect;
      branch; count_le.
  - unfold fetchWeatherAwarePrediction, fetchPrediction24h; branch;
      count_le.
  - unfold fetchWeatherAwarePrediction, fetchPrediction24h; branch;
      count_le.
  - unfold fetchWeatherAwarePrediction, fetchPrediction24h; branch;
      count_le.
Qed.

Lemma prediction24h_frame e s :
  prediction24h_event e s = false ->
  prediction24h (step e s) = prediction24h s
  /\ prediction24hDeviceId (step e s) = prediction24hDeviceId s.
Proof.
  intros H. destruct (device_panel_event e s) eqn:D.
  - destruct e; cbn [device_panel_event prediction24h_event] in D, H;
      try discriminate.
    + cbn [step].
      destruct (pending id (inflight s)) as [[]|]; try discriminate.
      destruct (well_kinded _ r); [|split; reflexivity].
      destruct r; split; reflexivity.
    + split; reflexivity.
    + cbn [step]. destruct (_ || _); [split; reflexivity|].
      unfold fetchWeatherAwarePrediction.
      destruct (selectedCity s) as [[i c]|]; [|split; reflexivity].
      destruct (blank _); split; reflexivity.
  - pose proof (device_panels_frame e s D) as F. unfold device_panels in F.
    injection F as F1 F2 F3 F4. split; assumption.
Qed.

Lemma prediction24h_ok_step e s :
  panel_ok (awaits is_prediction24h s) (prediction24h s) ->
  panel_ok (awaits is_prediction24h (step e s)) (prediction24h (step e s)).
Proof.
  intros H. destruct (prediction24h_event e s) eqn:Ev.
  - destruct e; cbn [prediction24h_event] in Ev; try discriminate.
    + (* the answer to the panel's request *)
      destruct (pending id (inflight s)) as [k|] eqn:Hp; [|discriminate].
      destruct k; try discriminate.
      cbn [step]. rewrite Hp.
      destruct (well_kinded KPrediction24h r); [|exact H].
      pose proof (awaits_settled_lt is_prediction24h id KPrediction24h s Hp eq_refl) as Hlt.
      destruct H as (H1 & H2 & H3 & H4).
      assert (Hone : 0 < awaits is_prediction24h s) by lia.
      destruct (H3 Hone) as [Hd He].
      cbn [resume]. unfold fetchPrediction24h_resume.
      destruct r.
      * apply panel_ok_idle.
        -- change (awaits is_prediction24h (settled id s) = 0). lia.
        -- right. exact He.
      * apply panel_ok_idle.
        -- change (awaits is_prediction24h (settled id s) = 0). lia.
        -- left. reflexivity.
      * apply panel_ok_idle.
        -- change (awaits is_prediction24h (settled id s) = 0). lia.
        -- left. reflexivity.
    + (* the select *)
      destruct H as (H1 & H2 & H3 & H4). cbn [step].
      change (awaits is_prediction24h
                (setPrediction24hError None (setPrediction24hData None (setPrediction24hDeviceId v s))))
        with (awaits is_prediction24h s).
      unfold panel_ok. cbn. repeat split; auto.
    + (* the button *)
      cbn [step]. unfold prediction24hLoading.
      destruct (p_loading (prediction24h s)) eqn:Hl; cbn [orb]; [exact H|].
      destruct (blank (prediction24hDeviceId s)) eqn:Hb; [exact H|].
      unfold fetchPrediction24h.
      destruct (selectedCity s) as [[i c]|]; [|exact H]. rewrite Hb.
      destruct H as (H1 & H2 & H3 & H4). specialize (H2 Hl).
      match goal with
      | |- panel_ok (awaits _ ?t) _ =>
          assert (Hn : awaits is_prediction24h t = 1)
      end.
      { unfold awaits in *. cells. rewrite filter_app, length_app, H2.
        reflexivity. }
      rewrite Hn. unfold panel_ok. cbn. repeat split; auto; discriminate.
  - destruct (prediction24h_frame e s Ev) as [-> _].
    apply (panel_ok_weaken (awaits is_prediction24h s)); [exact H|].
    apply awaits_prediction24h_le. intros ->. discriminate Ev.
Qed.

(** The two device-keyed panels do not interfere: an event that is not one
    of a panel's own (its select, its button, the answer to its request)
    leaves its result, its error, its loading flag and its chosen device as
    they are.  In particular a failure of one panel leaves the other as it
    was. *)
Theorem device_panels_do_not_interfere e s :
  (weather_aware_event e s = false ->
     weatherAware (step e s) = weatherAware s
     /\ weatherAwareDeviceId (step e s) = weatherAwareDeviceId s)
  /\ (prediction24h_event e s = false ->
        prediction24h (step e s) = prediction24h s
        /\ prediction24hDeviceId (step e s) = prediction24hDeviceId s).
Proof.
  split; [apply weather_aware_frame|apply prediction24h_frame].
Qed.

(** However the page is driven from its mount, each device-keyed panel has
    at most one request in flight, none unless its loading flag is up,
    shows nothing while its request is in flight, and never shows a result
    beside an error. *)
Theorem device_panels_coherent es :
  let s := run es mounted in
  panel_ok (awaits is_weather_aware s) (weatherAware s)
  /\ panel_ok (awaits is_prediction24h s) (prediction24h s)
  /\ (weatherAwareResult s = None \/ weatherAwareError s = None)
  /\ (prediction24hData s = None \/ prediction24hError s = None).
Proof.
  assert (G : forall s,
             panel_ok (awaits is_weather_aware s) (weatherAware s)
             /\ panel_ok (awaits is_prediction24h s) (prediction24h s) ->
             panel_ok (awaits is_weather_aware (run es s))
               (weatherAware (run es s))
             /\ panel_ok (awaits is_prediction24h (run es s))
                  (prediction24h (run es s))).
  { induction es as [|e es IH]; intros s Hs; [exact Hs|].
    cbn [run]. apply IH. destruct Hs as [Hw Hp]. split.
    - apply weather_aware_ok_step. exact Hw.
    - apply prediction24h_ok_step. exact Hp. }
  assert (M : panel_ok (awaits is_weather_aware mounted) (weatherAware mounted)
              /\ panel_ok (awaits is_prediction24h mounted)
                   (prediction24h mounted)).
  { unfold panel_ok. cbn. repeat split; auto. }
  destruct (G mounted M) as [Hw Hp]. cbv zeta.
  split; [exact Hw|]. split; [exact Hp|].
  destruct Hw as (_ & _ & _ & Hw). destruct Hp as (_ & _ & _ & Hp).
  split; assumption.
Qed.

(** ** A change of city *)






(** ** Compass points *)

Lemma windDirectionLabel_rem d :
  windDirectionLabel d = windDirectionLabel (Z.rem d 360).
Proof.
  unfold windDirectionLabel. rewrite Z.rem_rem by discriminate. reflexivity.
Qed.

Lemma below_360 (P : Z -> bool) :
  forallb (fun n => P (Z.of_nat n)) (seq 0 360) = true ->
  forall r, (0 <= r < 360)%Z -> P r = true.
Proof.
  intros H r Hr. rewrite forallb_forall in H.
  specialize (H (Z.to_nat r)). rewrite Z2Nat.id in H by lia.
  apply H. apply in_seq. lia.
Qed.

(** The label of a wind direction given in whole degrees.  From 0 upwards
    it is always one of the sixteen compass points, the same after a full
    turn, and the point nearest to the bearing (each point owns the 22.5
    degrees around it, north owning both ends of the circle).  A negative
    bearing is not turned into its positive equivalent: north still covers
    what lies within 11 degrees of a whole turn, and every other negative
    bearing gets the dash. *)
Theorem windDirectionLabel_sectors :
  (forall d, (0 <= d)%Z ->
     In (windDirectionLabel d) DIRS
     /\ windDirectionLabel (d + 360) = windDirectionLabel d)
  /\ (forall d k,
        (0 <= d < 360)%Z -> (0 <= k < 16)%Z ->
        (90 * k - 45 < 4 * d < 90 * k + 45)%Z ->
        windDirectionLabel d = nth (Z.to_nat k) DIRS DASH)
  /\ (forall d, (349 <= d < 360)%Z -> windDirectionLabel d = "N")
  /\ (forall d,
        (-11 <= Z.rem d 360 <= -1)%Z \/ (-359 <= Z.rem d 360 <= -349)%Z ->
        windDirectionLabel d = "N")
  /\ (forall d,
        (-348 <= Z.rem d 360 <= -12)%Z -> windDirectionLabel d = DASH).
Proof.
  split; [|split; [|split; [|split]]].
  - intros d Hd.
    assert (Hr : (0 <= Z.rem d 360 < 360)%Z) by (apply Z.rem_bound_pos; lia).
    split.
    + rewrite windDirectionLabel_rem.
      assert (T : existsb (String.eqb (windDirectionLabel (Z.rem d 360))) DIRS
                  = true).
      { apply (below_360
                 (fun r => existsb (String.eqb (windDirectionLabel r)) DIRS));
          [vm_compute; reflexivity|exact Hr]. }
      apply existsb_exists in T as (x & Hx & E).
      apply String.eqb_eq in E. rewrite E. exact Hx.
    + rewrite (windDirectionLabel_rem (d + 360)), (windDirectionLabel_rem d).
      rewrite !Z.rem_mod_nonneg by lia.
      replace (d + 360)%Z with (d + 1 * 360)%Z by lia.
      rewrite Z_mod_plus_full. reflexivity.
  - intros d k Hd Hk Hs.
    assert (T : forallb
                  (fun j =>
                     negb ((90 * Z.of_nat j - 45 <? 4 * d)%Z
                           && (4 * d <? 90 * Z.of_nat j + 45)%Z)
                     || String.eqb (windDirectionLabel d) (nth j DIRS DASH))
                  (seq 0 16) = true).
    { apply (below_360
               (fun r =>
                  forallb
                    (fun j =>
                       negb ((90 * Z.of_nat j - 45 <? 4 * r)%Z
                             && (4 * r <? 90 * Z.of_nat j + 45)%Z)
                       || String.eqb (windDirectionLabel r) (nth j DIRS DASH))
                    (seq 0 16)));
        [vm_compute; reflexivity|exact Hd]. }
    rewrite forallb_forall in T. specialize (T (Z.to_nat k)).
    rewrite Z2Nat.id in T by lia.
    assert (Hin : In (Z.to_nat k) (seq 0 16)) by (apply in_seq; lia).
    specialize (T Hin).
    replace ((90 * k - 45 <? 4 * d)%Z) with true in T
      by (symmetry; apply Z.ltb_lt; lia).
    replace ((4 * d <? 90 * k + 45)%Z) with true in T
      by (symmetry; apply Z.ltb_lt; lia).
    cbn [andb negb orb] in T. apply String.eqb_eq in T. exact T.
  - intros d Hd.
    assert (T : (negb (349 <=? d)%Z
                 || String.eqb (windDirectionLabel d) "N") = true).
    { apply (below_360
               (fun r => negb (349 <=? r)%Z
                         || String.eqb (windDirectionLabel r) "N"));
        [vm_compute; reflexivity|lia]. }
    replace ((349 <=? d)%Z) with true in T by (symmetry; apply Z.leb_le; lia).
    cbn [negb orb] in T. apply String.eqb_eq in T. exact T.
  - intros d Hd. rewrite windDirectionLabel_rem.
    set (r := Z.rem d 360) in *.
    assert (T : (negb (((-11 <=? - (- r)) && (- (- r) <=? -1))
                       || ((-359 <=? - (- r)) && (- (- r) <=? -349)))%Z
                 || String.eqb (windDirectionLabel (- (- r))) "N") = true).
    { apply (below_360
               (fun m => negb (((-11 <=? - m) && (- m <=? -1))
                               || ((-359 <=? - m) && (- m <=? -349)))%Z
                         || String.eqb (windDirectionLabel (- m)) "N"));
        [vm_compute; reflexivity|lia]. }
    rewrite Z.opp_involutive in T.
    replace (((-11 <=? r) && (r <=? -1) || (-359 <=? r) && (r <=? -349))%Z)
      with true in T.
    + cbn [negb orb] in T. apply String.eqb_eq in T. exact T.
    + symmetry. apply orb_true_iff.
      destruct Hd as [Hd|Hd]; [left|right];
        apply andb_true_iff; split; apply Z.leb_le; lia.
  - intros d Hd. rewrite windDirectionLabel_rem.
    set (r := Z.rem d 360) in *.
    assert (T : (negb ((-348 <=? - (- r)) && (- (- r) <=? -12))%Z
                 || String.eqb (windDirectionLabel (- (- r))) DASH) = true).
    { apply (below_360
               (fun m => negb ((-348 <=? - m) && (- m <=? -12))%Z
                         || String.eqb (windDirectionLabel (- m)) DASH));
        [vm_compute; reflexivity|lia]. }
    rewrite Z.opp_involutive in T.
    replace (((-348 <=? r) && (r <=? -12))%Z) with true in T.
    + cbn [negb orb] in T. apply String.eqb_eq in T. exact T.
    + symmetry. apply andb_true_iff; split; apply Z.leb_le; lia.
Qed.

(** ** Picking a suggestion *)

(** A click on a suggestion whose name is a string replaces the selection,
    in every state whose objects are numbered consistently (as they are in
    every state the page reaches from its mount): the suggestion becomes
    the selected city, the list closes and empties, the input shows the
    name, the search button of the next render evaluates, and the three
    requests keyed by the city leave for it, also when the suggestion names
    the city already shown. *)
Theorem picking_a_suggestion_always_refetches s idx c n :
  refs_below s ->
  nth_error (citySuggestions s) idx = Some c ->
  name (snd c) = JStr n ->
  let s' := step (PickSuggestion idx) s in
  search_button_renders (selectCity c s) = true
  /\ selectedCity s' = Some c
  /\ citySuggestions s' = []
  /\ suggestionsOpen s' = false
  /\ cityQuery s' = JStr n
  /\ sent s'
     = sent s
       ++ [GetWeatherCurrent (latitude (snd c)) (longitude (snd c)) (JStr n);
           GetForecast (latitude (snd c)) (longitude (snd c)) (JStr n) 7;
           GetAnalysis (latitude (snd c)) (longitude (snd c)) (JStr n) 100].
Proof.
  intros [_ Hr] Hc Hn s'.
  assert (Hnew : same_object (selectedCity s) (Some c) = false).
  { destruct (selectedCity s) as [[i ci]|]; [|reflexivity].
    destruct Hr as [_ H]. rewrite Forall_forall in H.
    specialize (H c (nth_error_In _ _ Hc)). destruct c as [j cj]. cbn in *.
    destruct (Nat.eqb_spec i j); [congruence|reflexivity]. }
  assert (E : s' = analysis_effect
                     (forecast_effect (weather_effect (selectCity c s)))).
  { unfold s'. cbn [step]. rewrite Hc. apply chooseCity_replacing.
    exact Hnew. }
  split.
  { unfold search_button_renders.
    change (cityQuery (selectCity c s)) with (name (snd c)).
    rewrite Hn. apply orb_true_r. }
  clear Hr Hnew Hc. clearbody s'. subst s'. destruct c as [j cj].
  cbn [snd] in *.
  unfold analysis_effect, forecast_effect, weather_effect. cells.
  rewrite <- !app_assoc, Hn. repeat split. exact Hn.
Qed.

End WeatherMore.

(* ================================================================== *)
(** * Properties of the session *)

Section AuthFacts.

Import Auth.

Lemma session_app acts1 acts2 s :
  session (acts1 ++ acts2) s = session acts2 (session acts1 s).
Proof. unfold session. apply fold_left_app. Qed.

Lemma act_stored a s : stored (act a s) = token (act a s).
Proof. destruct a; reflexivity. Qed.

Lemma session_stored acts s :
  acts <> [] -> stored (session acts s) = token (session acts s).
Proof.
  intros H. destruct (exists_last H) as (acts' & a & ->).
  rewrite session_app. cbn. apply act_stored.
Qed.

(** The session survives a reload.  After any logins and logouts, a
    provider mounted afresh over what is left in the storage is
    authenticated exactly when the old one was, and then with the same
    token; after a logout nothing is left to restore.  A login with the
    empty token is stored but authenticates neither before nor after the
    reload. *)
Theorem session_survives_reload acts s :
  acts <> [] ->
  let s' := session acts s in
  let reloaded := mount (stored s') in
  isAuthenticated reloaded = isAuthenticated s'
  /\ (isAuthenticated s' = true -> token reloaded = token s')
  /\ stored reloaded = stored s'
  /\ (forall acts0,
        isAuthenticated (mount (stored (session (acts0 ++ [Logout]) s)))
        = false)
  /\ (forall acts0 t,
        isAuthenticated (mount (stored (session (acts0 ++ [Login t]) s)))
        = truthy t).
Proof.
  intros H s' reloaded.
  pose proof (session_stored acts s H) as E. fold s' in E.
  unfold reloaded, mount, restore, created, isAuthenticated. cbn [stored token].
  rewrite E.
  split; [|split; [|split; [|split]]].
  - destruct (token s') as [t|]; [|reflexivity].
    destruct (truthy t) eqn:Ht; cbn [token]; [exact Ht|reflexivity].
  - destruct (token s') as [t|]; [|discriminate].
    intros Ht. rewrite Ht. reflexivity.
  - destruct (token s') as [t|]; [destruct (truthy t)|]; reflexivity.
  - intros acts0. rewrite session_app. reflexivity.
  - intros acts0 t. rewrite session_app. cbn.
    destruct (truthy t) eqn:Ht; cbn; [exact Ht|reflexivity].
Qed.

End AuthFacts.

(* ================================================================== *)
(** * Further concrete runs *)

Section MonitoringMoreRuns.

Import Monitoring.

Lemma live_burst_window_witness :
  let d1 := JObj [("device_id", JStr "dev-1");
                  ("timestamp", JStr "2025-01-01T12:00:05Z")] in
  let d2 := JObj [("device_id", JStr "dev-2");
                  ("timestamp", JStr "2025-01-01T12:00:01Z");
                  ("temperature", JNum 21)] in
  exists r1 r2,
    data (Monitoring.run utc_toISOString
            (map SocketDeviceData [d1; d2]) (mounted utc_toISOString))
    = [r2; r1]
    /\ timestamp r1 = "2025-01-01T12:00:05Z"
    /\ timestamp r2 = "2025-01-01T12:00:01Z".
Proof.
  intros d1 d2.
  destruct (decode d1) as [r1|] eqn:E1; [|discriminate E1].
  destruct (decode d2) as [r2|] eqn:E2; [|discriminate E2].
  exists r1, r2. split.
  - exact (live_burst_window utc_toISOString [d1; d2] [r1; r2]
             (mounted utc_toISOString)
             (Forall2_cons _ _ E1 (Forall2_cons _ _ E2 (Forall2_nil _)))).
  - injection E1 as <-. injection E2 as <-. split; reflexivity.
Defined.

Lemma failed_load_clears_window_witness :
  data (Monitoring.step utc_toISOString (Settle 0 Rejected)
          (applyBatch [reading "dev-1" "2025-01-01T12:00:00Z" 21]
             (mounted utc_toISOString)))
  = [].
Proof.
  refine (proj1 (failed_load_clears_window utc_toISOString 0 KLatest Rejected
                   (applyBatch [reading "dev-1" "2025-01-01T12:00:00Z" 21]
                      (mounted utc_toISOString))
                   eq_refl _ (or_introl eq_refl))).
  discriminate.
Defined.

Lemma invalid_range_date_sends_nothing_witness :
  let host v :=
    if String.eqb v "275760-12-31T00:00" then None else utc_toISOString v in
  let s :=
    setDateEnd "275760-12-31T00:00"
      (setDateStart "2025-01-01T00:00"
         (setUseDateRange true
            (setDeviceFilter "dev-1" (mounted utc_toISOString)))) in
  sent (Monitoring.loadData host s) = sent s
  /\ data (Monitoring.loadData host s) = [].
Proof.
  intros host s.
  destruct (invalid_range_date_sends_nothing host s eq_refl eq_refl eq_refl
              eq_refl (or_intror eq_refl)) as (H1 & _ & H3 & _).
  split; assumption.
Defined.

Lemma no_device_queries_all_witness :
  let s :=
    setDateEnd "2025-01-02T00:00"
      (setDateStart "2025-01-01T00:00"
         (setUseDateRange true
            (setDeviceFilter "   " (mounted utc_toISOString)))) in
  sent (Monitoring.loadData utc_toISOString s) = sent s ++ [GetAllLatest 200].
Proof.
  intros s.
  exact (proj2 (no_device_queries_all utc_toISOString s eq_refl)).
Defined.

Lemma prediction_panel_coherent_witness :
  predicting (mounted utc_toISOString) = 0.
Proof.
  destruct (prediction_panel_coherent utc_toISOString []) as (_ & _ & H).
  apply H. reflexivity.
Defined.

Lemma prediction_round_witness :
  let s := setPredictDeviceId " dev-1 " (mounted utc_toISOString) in
  sent (fetchPrediction s) = sent s ++ [GetPredict "dev-1" 60 30]
  /\ predictionError
       (Monitoring.step utc_toISOString (Settle 1 Rejected) (fetchPrediction s))
     = Some PREDICTION_UNAVAILABLE.
Proof.
  intros s.
  destruct (prediction_round utc_toISOString s eq_refl eq_refl)
    as ((H1 & _) & _ & (_ & H2 & _)).
  split; assumption.
Defined.

Lemma window_bounded_by_bounded_loads_witness :
  List.length
    (data (Monitoring.run utc_toISOString
             [SocketDeviceData
                (JObj [("device_id", JStr "dev-1");
                       ("timestamp", JStr "2025-01-01T12:00:05Z")]);
              Settle 0 (LoadFulfilled
                          (Some (repeat (reading "dev-1" "2025-01-01T12:00:00Z" 21)
                                   200)));
              SocketDeviceData
                (JObj [("device_id", JStr "dev-2");
                       ("timestamp", JStr "2025-01-01T12:00:06Z")])]
             (mounted utc_toISOString)))
  <= CAPACITY.
Proof.
  apply (window_bounded_by_bounded_loads utc_toISOString).
  - vm_compute. reflexivity.
  - cbn. lia.
Defined.

End MonitoringMoreRuns.

Section WeatherMoreRuns.

Import Weather.

Lemma normalizeSuggestions_shapes_witness :
  let entry := JObj [("name", JStr "Rabat"); ("latitude", JNum 34);
                     ("longitude", JNum (-7))] in
  normalizeSuggestions (JObj [("count", JNum 1); ("results", JArr [entry])])
  = normalizeSuggestions (JArr [entry])
  /\ normalizeSuggestions (JObj [("detail", JStr "Not Found")]) = [].
Proof.
  intros entry.
  destruct normalizeSuggestions_shapes as (H1 & _ & _ & _ & _ & _ & _ & H8).
  split; [apply H1; reflexivity|apply H8; reflexivity].
Defined.

Lemma public_reading_is_looser_witness :
  let x := JObj [("name", JStr "Rabat"); ("latitude", JNum 34);
                 ("longitude", JNum (-7))] in
  openMeteoOne x
  = Some {| name := JStr "Rabat"; country := None;
            latitude := 34; longitude := (-7) |}.
Proof.
  intros x. apply (proj1 public_reading_is_looser). reflexivity.
Defined.

Lemma public_source_http_error_reads_as_no_match_witness :
  searchError
    (step (Settle 3 (FetchResponse false None))
       (step (Settle 2 Rejected) (fetchSuggestions "Zzzqq123" mounted)))
  = Some (NO_CITY_FOUND "Zzzqq123").
Proof.
  destruct (public_source_http_error_reads_as_no_match "Zzzqq123" mounted
              eq_refl mounted_fresh_ids) as (H & _).
  destruct (H None) as (_ & E & _). exact E.
Defined.

Lemma late_search_answer_overwrites_witness :
  let fes := JArr [JObj [("name", JStr "Fes"); ("latitude", JNum 34);
                         ("longitude", JNum (-5))]] in
  let s2 := fetchSuggestions "Fes" (fetchSuggestions "Fe" mounted) in
  let s4 := step (Settle 2 (Fulfilled (JArr [])))
              (step (Settle 3 (Fulfilled fes)) s2) in
  map snd (citySuggestions s4) = []
  /\ searchError s4 = Some (NO_CITY_FOUND "Fe").
Proof.
  intros fes s2 s4.
  destruct (late_search_answer_overwrites "Fe" "Fes" (JArr []) fes mounted
              eq_refl eq_refl mounted_fresh_ids) as (_ & _ & H3 & H4).
  split; assumption.
Defined.


Lemma superseded_city_answers_are_dropped_witness :
  let s2 := chooseCity (2, PARIS) (chooseCity (1, RABAT) mounted) in
  forecast (step (Settle 2 (Fulfilled (JStr "forecast for Rabat"))) s2)
  = forecast s2.
Proof.
  intros s2.
  destruct (superseded_city_answers_are_dropped (1, RABAT) (2, PARIS)
              (Fulfilled (JStr "forecast for Rabat")) mounted
              mounted_fresh_ids eq_refl eq_refl) as (_ & E & _).
  exact E.
Defined.

Lemma device_panels_do_not_interfere_witness :
  weatherAware (step ClickPrediction24h
                  (setPrediction24hDeviceId "dev-1" mounted))
  = weatherAware (setPrediction24hDeviceId "dev-1" mounted).
Proof.
  destruct (device_panels_do_not_interfere ClickPrediction24h
              (setPrediction24hDeviceId "dev-1" mounted)) as [H _].
  destruct (H eq_refl) as [E _]. exact E.
Defined.

Lemma windDirectionLabel_sectors_witness :
  windDirectionLabel 90 = "E"
  /\ windDirectionLabel 450 = windDirectionLabel 90
  /\ windDirectionLabel (-90) = DASH.
Proof.
  destruct windDirectionLabel_sectors as (H1 & H2 & _ & _ & H5).
  split; [|split].
  - apply (H2 90%Z 4%Z); lia.
  - apply (H1 90%Z). lia.
  - apply H5. vm_compute. split; discriminate.
Defined.

Lemma picking_a_suggestion_always_refetches_witness :
  let paris := JArr [JObj [("name", JStr "Paris");
                           ("country", JStr "France");
                           ("latitude", JNum (488566 # 10000));
                           ("longitude", JNum (23522 # 10000))]] in
  let es := [InputChange "Paris"; Elapse 350; Settle 2 (Fulfilled paris)] in
  let s' := step (PickSuggestion 0) (run es mounted) in
  selectedCity s' = Some (1, PARIS)
  /\ cityQuery s' = JStr "Paris"
  /\ sent s'
     = sent (run es mounted)
       ++ [GetWeatherCurrent (latitude PARIS) (longitude PARIS) (JStr "Paris");
           GetForecast (latitude PARIS) (longitude PARIS) (JStr "Paris") 7;
           GetAnalysis (latitude PARIS) (longitude PARIS) (JStr "Paris") 100].
Proof.
  intros paris es s'.
  destruct (picking_a_suggestion_always_refetches (run es mounted) 0
              (1, PARIS) "Paris"
              (refs_below_run es mounted refs_below_mounted)
              eq_refl eq_refl)
    as (_ & H1 & _ & _ & H4 & H5).
  split; [exact H1|]. split; [exact H4|exact H5].
Defined.


End WeatherMoreRuns.

Section AuthRuns.

Import Auth.

Lemma session_survives_reload_witness :
  let s := session [Login "old"; Logout; Login "jwt"] (mount None) in
  isAuthenticated (mount (stored s)) = true
  /\ token (mount (stored s)) = Some "jwt".
Proof.
  intros s.
  destruct (session_survives_reload [Login "old"; Logout; Login "jwt"]
              (mount None)) as (H1 & H2 & _).
  - discriminate.
  - split; [exact H1|]. apply H2. reflexivity.
Defined.

End AuthRuns.
